(** * VantagePoint: the event-acquisition pipeline, embedded and verified

    A shallow embedding of [data.py], [processing.py], [config.py], the
    colour scale of [viz.py] and the refresh handler of [app.py].  Python values are a small universe
    [pyval]; code that can raise lives in an error monad whose state (the
    sidebar, the result caches, the network and random counters) survives a
    raise, as it does in Python.  External collaborators (HTTP, feedparser,
    the generative-AI service, [json.loads], [str()], the clock) are the
    fields of a record [World].

    Strings are sequences of ASCII code points: [lower] and [strip] act on
    ASCII letters and ASCII white space and leave other characters alone. *)

From Stdlib Require Import Ascii QArith.
From stdpp Require Import gmap strings list pretty.

Local Open Scope Z_scope.

(* ===================================================================== *)
(** ** Python strings *)
(* ===================================================================== *)

Module PyStr.

(** [str.lower()] on one character. *)
Definition lower_char (c : ascii) : ascii :=
  let n := Ascii.nat_of_ascii c in
  if ((65 <=? n)%nat && (n <=? 90)%nat)%bool
  then Ascii.ascii_of_nat (n + 32) else c.

Fixpoint lower (s : string) : string :=
  match s with
  | EmptyString => EmptyString
  | String c r => String (lower_char c) (lower r)
  end.

(** [needle in hay] for two strings. *)
Fixpoint contains (needle hay : string) : bool :=
  String.prefix needle hay ||
  match hay with
  | EmptyString => false
  | String _ r => contains needle r
  end.

(** [s[:n]] and [s[i:j]] for non-negative literal bounds. *)
Definition take (n : nat) (s : string) : string := String.substring 0 n s.
Definition slice (i j : nat) (s : string) : string := String.substring i (j - i) s.

(** White space removed by [str.strip()]. *)
Definition is_space (c : ascii) : bool :=
  let n := Ascii.nat_of_ascii c in
  ((9 <=? n)%nat && (n <=? 13)%nat) || ((28 <=? n)%nat && (n <=? 32)%nat).

Fixpoint lstrip (s : string) : string :=
  match s with
  | EmptyString => EmptyString
  | String c r => if is_space c then lstrip r else s
  end.

(** Drops trailing white space: a character is kept when it is no space
    or something is kept after it. *)
Fixpoint rstrip (s : string) : string :=
  match s with
  | EmptyString => EmptyString
  | String c r =>
      match rstrip r with
      | EmptyString => if is_space c then EmptyString else String c EmptyString
      | r' => String c r'
      end
  end.

Definition strip (s : string) : string := rstrip (lstrip s).

Definition startswith (p s : string) : bool := String.prefix p s.

(** [s[n:]]. *)
Fixpoint drop (n : nat) (s : string) : string :=
  match n, s with
  | O, _ => s
  | S _, EmptyString => EmptyString
  | S m, String _ r => drop m r
  end.

(** The part of [s] before the first occurrence of [sep] (all of [s]
    when there is none): [s.split(sep)[0]]. *)
Fixpoint before (sep s : string) : string :=
  if String.prefix sep s then EmptyString
  else match s with
       | EmptyString => EmptyString
       | String c r => String c (before sep r)
       end.

Definition is_digit (c : ascii) : bool :=
  let n := Ascii.nat_of_ascii c in ((48 <=? n)%nat && (n <=? 57)%nat).

Definition digit_value (c : ascii) : Z := Z.of_nat (Ascii.nat_of_ascii c) - 48.

(** The digits of [int(str)]: decimal digits, single underscores allowed
    between two digits. *)
Fixpoint digits_value (acc : Z) (after_digit : bool) (s : string) : option Z :=
  match s with
  | EmptyString => if after_digit then Some acc else None
  | String c r =>
      if is_digit c then digits_value (10 * acc + digit_value c) true r
      else if (Ascii.eqb c "_" && after_digit)%bool
           then match r with
                | EmptyString => None
                | _ => digits_value acc false r
                end
           else None
  end.

(** Where the pattern [T(\d{2}):(\d{2})] matches at the start of [s]:
    the four digits. *)
Definition time_at (s : string) : option (ascii * ascii * ascii * ascii) :=
  match s with
  | String "T" (String d1 (String d2 (String ":" (String d3 (String d4 _))))) =>
      if is_digit d1 && is_digit d2 && is_digit d3 && is_digit d4
      then Some (d1, d2, d3, d4) else None
  | _ => None
  end.

(** [re.sub(r"T(\d{2}):(\d{2}).*", r" \1:\2", s)]: each match starts at
    a [T] followed by two digits, a colon and two digits, and runs to the
    end of the line; it is replaced by a space and the five characters
    after the [T].  [skipping] is set while the rest of a match is
    being consumed. *)
Fixpoint re_sub_T (skipping : bool) (s : string) : string :=
  match s with
  | EmptyString => EmptyString
  | String c r =>
      if skipping then
        (if Ascii.eqb c "010" then String c (re_sub_T false r) else re_sub_T true r)
      else
        match time_at s with
        | Some (d1, d2, d3, d4) =>
            String " " (String d1 (String d2 (String ":" (String d3 (String d4
              (re_sub_T true r))))))
        | None => String c (re_sub_T false r)
        end
  end.

(** [int(s)] for a string: white space stripped, an optional sign. *)
Definition parse_int (s : string) : option Z :=
  match strip s with
  | String "-" r => Z.opp <$> digits_value 0 false r
  | String "+" r => digits_value 0 false r
  | r => digits_value 0 false r
  end.

(** [f"{n:02d}"]. *)
Definition format_02d (n : Z) : string :=
  let s := pretty n in
  if (String.length s <? 2)%nat then
    (if n <? 0 then s else "0" +:+ s)
  else s.

End PyStr.

(* ===================================================================== *)
(** ** Python values and exceptions *)
(* ===================================================================== *)

Inductive pyfloat :=
  | FNaN
  | FInf (negative : bool)
  | FFinite (q : Q).

(** The values the pipeline handles: what [json.loads], [response.json()]
    and feedparser produce, and what the event rows hold.  A dict keeps its
    keys in insertion order. *)
#[warnings="-register-all"]
Inductive pyval :=
  | VNone
  | VBool (b : bool)
  | VInt (n : Z)
  | VFloat (f : pyfloat)
  | VStr (s : string)
  | VList (l : list pyval)
  | VDict (d : list (string * pyval))
  | VStructTime (tm_year tm_mon tm_mday tm_hour tm_min : Z).

Abbreviation dict := (list (string * pyval)).

(** A table of rows; [pd.DataFrame()] and [pd.DataFrame([])] are [[]]. *)
Abbreviation DataFrame := (list dict).

Inductive exn_class :=
  | HTTPError (status : option Z)
  | JSONDecodeError
  | TypeError
  | AttributeError
  | ValueError
  | KeyError
  | OverflowError
  | OtherException.

Record exn := Exn { exn_class_of : exn_class; exn_msg : string }.

Inductive res (A : Type) :=
  | Raise (e : exn)
  | Ok (a : A).
Arguments Raise {A} e.
Arguments Ok {A} a.

Definition res_bind {A B} (c : res A) (k : A -> res B) : res B :=
  match c with
  | Raise e => Raise e
  | Ok a => k a
  end.

Declare Scope res_scope.
Delimit Scope res_scope with res.
Notation "x <-- c ;; k" := (res_bind c (fun x => k))
  (at level 100, c at next level, right associativity) : res_scope.

Module Py.

Definition type_error (msg : string) : exn := Exn TypeError msg.
Definition attribute_error (msg : string) : exn := Exn AttributeError msg.

(** Truth value of [v] ([bool(v)]). *)
Definition truthy (v : pyval) : bool :=
  match v with
  | VNone => false
  | VBool b => b
  | VInt n => negb (n =? 0)
  | VFloat (FFinite q) => negb (Qnum q =? 0)
  | VFloat _ => true
  | VStr s => negb (String.eqb s "")
  | VList l => match l with [] => false | _ => true end
  | VDict d => match d with [] => false | _ => true end
  | VStructTime _ _ _ _ _ => true
  end.

(** [a or b]. *)
Definition or (a b : pyval) : pyval := if truthy a then a else b.

Fixpoint lookup (k : string) (d : dict) : option pyval :=
  match d with
  | [] => None
  | (k', v) :: r => if String.eqb k k' then Some v else lookup k r
  end.

(** [d[k] = v]: replaces the value of an existing key in place, appends a
    new key. *)
Fixpoint set (k : string) (v : pyval) (d : dict) : dict :=
  match d with
  | [] => [(k, v)]
  | (k', v') :: r =>
      if String.eqb k k' then (k, v) :: r else (k', v') :: set k v r
  end.

(** [d.get(k, default)] on a dict. *)
Definition dict_get (d : dict) (k : string) (default : pyval) : pyval :=
  match lookup k d with
  | Some v => v
  | None => default
  end.

(** [v.get(k, default)]: only dicts have the method. *)
Definition get (v : pyval) (k : string) (default : pyval) : res pyval :=
  match v with
  | VDict d => Ok (dict_get d k default)
  | _ => Raise (attribute_error "object has no attribute 'get'")
  end.

(** [v.strip()] and [v.lower()]: string methods. *)
Definition strip (v : pyval) : res string :=
  match v with
  | VStr s => Ok (PyStr.strip s)
  | _ => Raise (attribute_error "object has no attribute 'strip'")
  end.

Definition lower (v : pyval) : res string :=
  match v with
  | VStr s => Ok (PyStr.lower s)
  | _ => Raise (attribute_error "object has no attribute 'lower'")
  end.

(** [v[:n]]: strings and lists are sliceable. *)
Definition take (n : nat) (v : pyval) : res pyval :=
  match v with
  | VStr s => Ok (VStr (PyStr.take n s))
  | VList l => Ok (VList (List.firstn n l))
  | _ => Raise (type_error "object is not subscriptable")
  end.

(** [v[i:j]]. *)
Definition slice (i j : nat) (v : pyval) : res pyval :=
  match v with
  | VStr s => Ok (VStr (PyStr.slice i j s))
  | VList l => Ok (VList (List.firstn (j - i) (List.skipn i l)))
  | _ => Raise (type_error "object is not subscriptable")
  end.

(** [len(v)]. *)
Definition len (v : pyval) : res nat :=
  match v with
  | VStr s => Ok (String.length s)
  | VList l => Ok (length l)
  | VDict d => Ok (length d)
  | _ => Raise (type_error "object has no len()")
  end.

(** [k in v] for a string [k]: substring of a string, element of a
    list, key of a dict. *)
Definition contains (k : string) (v : pyval) : res bool :=
  match v with
  | VStr s => Ok (PyStr.contains k s)
  | VList l => Ok (existsb (fun x => match x with VStr s => String.eqb s k | _ => false end) l)
  | VDict d => Ok (match lookup k d with Some _ => true | None => false end)
  | _ => Raise (type_error "argument is not iterable")
  end.

(** [a + b] where the code concatenates strings. *)
Definition add_str (a b : pyval) : res string :=
  match a, b with
  | VStr x, VStr y => Ok (x +:+ y)
  | _, _ => Raise (type_error "unsupported operand type(s) for +")
  end.

(** The elements a [for] loop visits. *)
Definition iter (v : pyval) : res (list pyval) :=
  match v with
  | VList l => Ok l
  | VDict d => Ok (List.map (fun kv => VStr (fst kv)) d)
  | VStr s => Ok (List.map (fun c => VStr (String c EmptyString)) (String.list_ascii_of_string s))
  | _ => Raise (type_error "object is not iterable")
  end.

(** The digits at the front of the text [int] reads, underscores not
    counted; [int] refuses a text with more of them than
    [sys.get_int_max_str_digits()], 4300 unless configured. *)
Fixpoint digit_run (s : string) : nat :=
  match s with
  | EmptyString => O
  | String c r =>
      if PyStr.is_digit c then S (digit_run r)
      else if Ascii.eqb c "_" then digit_run r
      else O
  end.

Definition int_max_str_digits : nat := 4300.

(** [int(v)]. *)
Definition int (v : pyval) : res Z :=
  match v with
  | VInt n => Ok n
  | VBool b => Ok (if b then 1 else 0)
  | VFloat (FFinite q) => Ok (Z.quot (Qnum q) (Z.pos (Qden q)))
  | VFloat FNaN => Raise (Exn ValueError "cannot convert float NaN to integer")
  | VFloat (FInf _) => Raise (Exn OverflowError "cannot convert float infinity to integer")
  | VStr s =>
      let unsigned := match PyStr.strip s with
                      | String "-" r => r
                      | String "+" r => r
                      | r => r
                      end in
      if (int_max_str_digits <? digit_run unsigned)%nat
      then Raise (Exn ValueError
                    "Exceeds the limit (4300 digits) for integer string conversion")
      else
        match PyStr.parse_int s with
        | Some n => Ok n
        | None => Raise (Exn ValueError "invalid literal for int() with base 10")
        end
  | _ => Raise (type_error "int() argument must be a string or a real number")
  end.

End Py.

(* ===================================================================== *)
(** ** config.py *)
(* ===================================================================== *)

Definition GDELT_URL : string := "https://api.gdeltproject.org/api/v2/doc/doc".
Definition GDELT_KEYWORDS : string :=
  "port strike OR factory OR shortage OR cement OR steel OR infrastructure OR supply chain".
Definition MAX_GDELT_RECORDS : Z := 25.
Definition NEWSAPI_BASE_URL : string := "https://newsapi.org/v2/everything".
Definition NEWSAPI_PAGE_SIZE : Z := 50.
(** The double quote, for the quoted phrases of the NewsAPI query, and the
    line feed. *)
Definition dq : string := String (Ascii.ascii_of_nat 34) EmptyString.
Definition newline : string := String "010" EmptyString.
Definition NEWSAPI_KEYWORDS : string :=
  dq +:+ "supply chain" +:+ dq +:+ " OR logistics OR " +:+ dq +:+ "shipping" +:+ dq
     +:+ " OR freight OR " +:+ dq +:+ "port" +:+ dq +:+ " OR " +:+ dq +:+ "cargo" +:+ dq
     +:+ " OR " +:+ dq +:+ "shortage" +:+ dq +:+ " OR " +:+ dq +:+ "supply shortage" +:+ dq
     +:+ " OR " +:+ dq +:+ "factory" +:+ dq +:+ " OR " +:+ dq +:+ "disruption" +:+ dq
     +:+ " OR " +:+ dq +:+ "visibility" +:+ dq.
Definition NEWSAPI_SORT_BY : string := "relevance".
Definition NEWSAPI_RELEVANCE_KEYWORDS : list string :=
  [ "supply chain"; "logistics"; "shipping"; "freight"; "cargo"; "port"; "shortage";
    "disruption"; "strike"; "factory"; "manufacturing"; "inventory"; "shipment";
    "supplier"; "procurement"; "warehouse"; "distribution"; "export"; "import";
    "container"; "rail"; "trucking"; "delivery"; "outage"; "closure"; "backlog" ].
Definition NEWSAPI_MIN_RELEVANCE : Z := 1.
Definition RSS_FEEDS : list string :=
  [ "https://feeds.feedburner.com/logisticsmgmt/latest";
    "https://theloadstar.com/feed/" ].
Definition MAX_RSS_ENTRIES_PER_FEED : nat := 15.

(* ===================================================================== *)
(** ** data.py: the heuristics *)
(* ===================================================================== *)

Local Open Scope res_scope.

(** [any(w in t for w in ws)]. *)
Definition any_in (ws : list string) (t : string) : bool :=
  existsb (fun w => PyStr.contains w t) ws.

Definition _category_from_title (title : pyval) : res string :=
  t <-- Py.lower (Py.or title (VStr "")) ;;
  Ok (if PyStr.contains "cement" t || PyStr.contains "steel" t
         || PyStr.contains "lumber" t || PyStr.contains "infrastructure" t
      then "Construction"
      else if PyStr.contains "strike" t || PyStr.contains "port" t
              || PyStr.contains "congestion" t || PyStr.contains "canal" t
              || PyStr.contains "blockade" t
      then "Disruption"
      else if PyStr.contains "shortage" t
      then "Shortage"
      else if PyStr.contains "factory" t || PyStr.contains "fab" t
              || PyStr.contains "assembly" t
      then "Manufacturing"
      else if PyStr.contains "sanction" t || PyStr.contains "trade" t
              || PyStr.contains "export" t
      then "Geopolitical"
      else "General").

Definition _supply_chain_relevance (text : pyval) : res Z :=
  if negb (Py.truthy text) then Ok 0
  else
    t <-- Py.lower text ;;
    Ok (Z.of_nat (length (List.filter (fun kw => PyStr.contains (PyStr.lower kw) t)
                                       NEWSAPI_RELEVANCE_KEYWORDS))).

Definition _heuristic_risk_from_text (title description : pyval) : res Z :=
  t0 <-- Py.add_str (Py.or title (VStr "")) (VStr " ") ;;
  t1 <-- Py.add_str (VStr t0) (Py.or description (VStr "")) ;;
  let t := PyStr.lower t1 in
  if any_in ["strike"; "shortage"; "blockade"; "outage"; "closure"; "crisis"] t
  then Ok (Z.min 5 4)
  else if any_in ["disruption"; "delay"; "backlog"; "congestion"] t
  then Ok 3
  else if any_in ["supply chain"; "logistics"; "shipping"; "freight"; "port"; "cargo"] t
  then Ok 2
  else Ok 1.

(* ===================================================================== *)
(** ** The world outside and the state inside *)
(* ===================================================================== *)

(** What [requests.get] hands back: the status code and the outcome of
    [response.json()]. *)
Record http_response := HttpResponse {
  status_code : Z;
  json_body : res pyval;
}.

(** The collaborators of the pipeline.  Network and feed outcomes are
    indexed by a call counter, so that two requests for one URL may differ. *)
Record World := {
  http_get : string -> nat -> res http_response;
  feedparser_available : bool;
  feedparser_parse : string -> nat -> res pyval;
  random_uniform : Z -> Z -> nat -> pyval;
  strftime : string -> Z -> string;
  py_str : pyval -> string;
  quote_plus : string -> string;
  environ : string -> option string;
  json_loads : string -> res pyval;
  (** The outcome of configuring the client, sending the analysis prompt
      built from headline, location and snippet, and reading
      [response.text]. *)
  gemini_text : pyval -> pyval -> pyval -> res pyval;
}.

Record cache_entry := CacheEntry {
  cached_value : DataFrame;
  created_at : Z;
}.

Inductive message :=
  | Warning (text : string)
  | Info (text : string).

Record State := mkState {
  sidebar : list message;
  net_calls : nat;
  feed_calls : nat;
  rng : nat;
  clock : Z;
  gdelt_cache : gmap (string * Z) cache_entry;
  newsapi_cache : gmap (string * string) cache_entry;
  mock_cache : option DataFrame;
}.

Definition with_sidebar (m : list message) (s : State) : State :=
  mkState m (net_calls s) (feed_calls s) (rng s) (clock s)
          (gdelt_cache s) (newsapi_cache s) (mock_cache s).
Definition with_net_calls (n : nat) (s : State) : State :=
  mkState (sidebar s) n (feed_calls s) (rng s) (clock s)
          (gdelt_cache s) (newsapi_cache s) (mock_cache s).
Definition with_feed_calls (n : nat) (s : State) : State :=
  mkState (sidebar s) (net_calls s) n (rng s) (clock s)
          (gdelt_cache s) (newsapi_cache s) (mock_cache s).
Definition with_rng (n : nat) (s : State) : State :=
  mkState (sidebar s) (net_calls s) (feed_calls s) n (clock s)
          (gdelt_cache s) (newsapi_cache s) (mock_cache s).
Definition with_clock (t : Z) (s : State) : State :=
  mkState (sidebar s) (net_calls s) (feed_calls s) (rng s) t
          (gdelt_cache s) (newsapi_cache s) (mock_cache s).
Definition with_gdelt_cache (c : gmap (string * Z) cache_entry) (s : State) : State :=
  mkState (sidebar s) (net_calls s) (feed_calls s) (rng s) (clock s)
          c (newsapi_cache s) (mock_cache s).
Definition with_newsapi_cache (c : gmap (string * string) cache_entry) (s : State) : State :=
  mkState (sidebar s) (net_calls s) (feed_calls s) (rng s) (clock s)
          (gdelt_cache s) c (mock_cache s).
Definition with_mock_cache (c : option DataFrame) (s : State) : State :=
  mkState (sidebar s) (net_calls s) (feed_calls s) (rng s) (clock s)
          (gdelt_cache s) (newsapi_cache s) c.

(** [df.empty] of a table a fetcher returns.  Such a table is built from
    event rows, which have all their keys, or has no row at all, so it is
    empty exactly when it has no row; [frame_empty] below is [df.empty] of
    any table, and [df_empty_of_fetched] shows that the two agree on what
    the fetchers return. *)
Definition df_empty (df : DataFrame) : bool :=
  match df with [] => true | _ => false end.

(** Computations that read and change the state and may raise; the state
    reached when the exception was raised is kept. *)
Definition M (A : Type) : Type := State -> res A * State.

Definition ret {A} (a : A) : M A := fun s => (Ok a, s).

Definition bind {A B} (c : M A) (k : A -> M B) : M B :=
  fun s => match c s with
           | (Raise e, s') => (Raise e, s')
           | (Ok a, s') => k a s'
           end.

Definition lift {A} (r : res A) : M A := fun s => (r, s).

(** [try: c  except Exception as e: h e]. *)
Definition try_except {A} (c : M A) (h : exn -> M A) : M A :=
  fun s => match c s with
           | (Raise e, s') => h e s'
           | (Ok a, s') => (Ok a, s')
           end.

Declare Scope M_scope.
Delimit Scope M_scope with M.
Notation "x <- c ;; k" := (bind c (fun x => k))
  (at level 100, c at next level, right associativity) : M_scope.
Notation "c >> k" := (bind c (fun _ => k))
  (at level 100, right associativity) : M_scope.

(** [st.sidebar.warning] and [st.sidebar.info]. *)
Definition sidebar_warning (text : string) : M unit :=
  fun s => (Ok tt, with_sidebar (sidebar s ++ [Warning text]) s).
Definition sidebar_info (text : string) : M unit :=
  fun s => (Ok tt, with_sidebar (sidebar s ++ [Info text]) s).

Section Pipeline.

Context (w : World).

Local Open Scope M_scope.

Definition requests_get (url : string) : M http_response :=
  fun s => (http_get w url (net_calls s), with_net_calls (S (net_calls s)) s).

Definition feedparser_parse_call (url : string) : M pyval :=
  fun s => (feedparser_parse w url (feed_calls s), with_feed_calls (S (feed_calls s)) s).

Definition uniform (a b : Z) : M pyval :=
  fun s => (Ok (random_uniform w a b (rng s)), with_rng (S (rng s)) s).

(** [datetime.now().strftime(fmt)]. *)
Definition now_strftime (fmt : string) : M string :=
  fun s => (Ok (strftime w fmt (clock s)), s).

(** [str(v)], and the text an f-string puts for [v]. *)
Definition str_of (v : pyval) : string :=
  match v with
  | VStr s => s
  | _ => py_str w v
  end.

(** [response.raise_for_status()]. *)
Definition raise_for_status (r : http_response) : M unit :=
  if (400 <=? status_code r) && (status_code r <? 600)
  then lift (Raise (Exn (HTTPError (Some (status_code r))) ("HTTP error " +:+ pretty (status_code r))))
  else ret tt.

(* ------------------------------------------------------------------- *)
(** *** The normalizer *)

Definition _event_row (headline snippet source source_url timestamp risk_score : pyval)
  : M dict :=
  h <- lift (Py.strip (Py.or headline (VStr "Unknown Event"))) ;;
  latitude <- uniform (-45) 55 ;;
  longitude <- uniform (-130) 150 ;;
  category <- lift (_category_from_title headline) ;;
  article_snippet <- lift (Py.take 200 (Py.or (Py.or snippet headline) (VStr ""))) ;;
  ret [ ("timestamp", timestamp);
        ("headline", VStr (PyStr.take 500 h));
        ("location", VStr "Global Signal (Live)");
        ("latitude", latitude);
        ("longitude", longitude);
        ("risk_score", risk_score);
        ("category", VStr category);
        ("commodity", VStr "Mixed");
        ("reasoning", VStr "");
        ("article_snippet", article_snippet);
        ("source_url", Py.or source_url (VStr "#"));
        ("source", Py.or source (VStr "Live"));
        ("gemini_analysis", VNone) ].

(** A [for] loop that appends one row per element; an exception in the
    body leaves the loop and discards nothing but is passed on. *)
Fixpoint for_rows (body : pyval -> M (option dict)) (xs : list pyval) (rows : DataFrame)
  : M DataFrame :=
  match xs with
  | [] => ret rows
  | x :: r =>
      o <- body x ;;
      match o with
      | Some row => for_rows body r (rows ++ [row])
      | None => for_rows body r rows
      end
  end.

(* ------------------------------------------------------------------- *)
(** *** Primary fetcher: GDELT *)

(** [seendate[:8] + " " + (seendate[8:10] + ":" + seendate[10:12]
    if len(seendate) >= 12 else "00:00")]. *)
Definition gdelt_timestamp (seendate : pyval) : res string :=
  (a <-- Py.take 8 seendate ;;
   b <-- Py.add_str a (VStr " ") ;;
   n <-- Py.len seendate ;;
   c <-- (if (12 <=? n)%nat then
            x <-- Py.slice 8 10 seendate ;;
            y <-- Py.add_str x (VStr ":") ;;
            z <-- Py.slice 10 12 seendate ;;
            Py.add_str (VStr y) z
          else Ok "00:00") ;;
   Ok (b +:+ c))%res.

(** The body of the loop over [articles]. *)
Definition gdelt_article (art : pyval) : M (option dict) :=
  t <- lift (Py.get art "title" VNone) ;;
  title <- lift (Py.strip (Py.or t (VStr "Unknown Event"))) ;;
  sn <- lift (Py.get art "snippet" VNone) ;;
  snippet <- lift (Py.take 200 (Py.or sn (VStr title))) ;;
  domain <- lift (Py.get art "domain" (VStr "GDELT")) ;;
  url_link <- lift (Py.get art "url" (VStr "#")) ;;
  today <- now_strftime "%Y%m%d" ;;
  seendate <- lift (Py.get art "seendate" (VStr today)) ;;
  ts <- lift (gdelt_timestamp seendate) ;;
  row <- _event_row (VStr title) snippet domain url_link (VStr ts) (VInt 0) ;;
  ret (Some row).

Definition gdelt_url (query : string) (max_records : Z) : string :=
  GDELT_URL +:+ "?query=" +:+ query +:+ "&mode=artlist&format=json&maxrecords="
    +:+ pretty max_records +:+ "&timespan=48h".

(** The [try] block of the fetcher. *)
Definition fetch_gdelt_events_try (query : string) (max_records : Z) : M DataFrame :=
  response <- requests_get (gdelt_url query max_records) ;;
  if status_code response =? 429 then
    sidebar_warning "GDELT rate limit (429 Too Many Requests). Use **Mock** data for now, or try again in 10-15 minutes."
    >> ret []
  else
    raise_for_status response >>
    (data <- lift (json_body response) ;;
     articles <- lift (Py.get data "articles" (VList [])) ;;
     if negb (Py.truthy articles) then ret []
     else
       arts <- lift (Py.iter articles) ;;
       for_rows gdelt_article arts []).

(** Its two [except] clauses. *)
Definition fetch_gdelt_events_except (e : exn) : M DataFrame :=
  match exn_class_of e with
  | HTTPError response =>
      (if match response with Some code => code =? 429 | None => false end
       then sidebar_warning "GDELT rate limit (429). Use **Mock** data or try again later."
       else sidebar_warning ("GDELT error: " +:+ exn_msg e))
      >> ret []
  | _ => sidebar_warning ("GDELT unreachable: " +:+ exn_msg e) >> ret []
  end.

(** The function under the cache decorator. *)
Definition fetch_gdelt_events_body (query : string) (max_records : Z) : M DataFrame :=
  try_except (fetch_gdelt_events_try query max_records) fetch_gdelt_events_except.

(* ------------------------------------------------------------------- *)
(** *** Secondary fetcher: NewsAPI *)

(** [re.sub(...) if "T" in pub else pub[:16]], the expression under the
    inner [try]. *)
Definition newsapi_pub_expr (pub : pyval) : res pyval :=
  (has_T <-- Py.contains "T" pub ;;
   p16 <-- Py.take 16 pub ;;
   if has_T then
     match p16 with
     | VStr s => Ok (VStr (PyStr.re_sub_T false s))
     | _ => Raise (Py.type_error "expected string or bytes-like object")
     end
   else Ok p16)%res.

Definition newsapi_published (pub : pyval) : M pyval :=
  if Py.truthy pub then
    match newsapi_pub_expr pub with
    | Ok p => ret p
    | Raise _ => ret pub
    end
  else
    now <- now_strftime "%Y-%m-%d %H:%M" ;;
    ret (VStr now).

Definition newsapi_article (art : pyval) : M (option dict) :=
  t <- lift (Py.get art "title" VNone) ;;
  if negb (Py.truthy t) then ret None
  else
    title <- lift (Py.get art "title" (VStr "")) ;;
    d <- lift (Py.get art "description" VNone) ;;
    let desc := Py.or d title in
    let combined := VStr (str_of title +:+ " " +:+ str_of desc) in
    relevance <- lift (_supply_chain_relevance combined) ;;
    if relevance <? NEWSAPI_MIN_RELEVANCE then ret None
    else
      so <- lift (Py.get art "source" VNone) ;;
      name <- lift (Py.get (Py.or so (VDict [])) "name" VNone) ;;
      let src := Py.or name (VStr "NewsAPI") in
      u <- lift (Py.get art "url" VNone) ;;
      let link := Py.or u (VStr "#") in
      p <- lift (Py.get art "publishedAt" VNone) ;;
      pub <- newsapi_published (Py.or p (VStr "")) ;;
      risk <- lift (_heuristic_risk_from_text title desc) ;;
      row <- _event_row title desc src link pub (VInt risk) ;;
      ret (Some row).

Definition newsapi_url (api_key query : string) : string :=
  NEWSAPI_BASE_URL +:+ "?q=" +:+ quote_plus w query +:+ "&pageSize="
    +:+ pretty NEWSAPI_PAGE_SIZE +:+ "&sortBy=" +:+ NEWSAPI_SORT_BY
    +:+ "&language=en&apiKey=" +:+ PyStr.strip api_key.

(** The [try] block of the fetcher. *)
Definition fetch_newsapi_events_try (api_key query : string) : M DataFrame :=
  response <- requests_get (newsapi_url api_key query) ;;
  if status_code response =? 429 then ret []
  else
    raise_for_status response >>
    (data <- lift (json_body response) ;;
     a <- lift (Py.get data "articles" VNone) ;;
     arts <- lift (Py.iter (Py.or a (VList []))) ;;
     for_rows newsapi_article arts []).

(** The function under the cache decorator. *)
Definition fetch_newsapi_events_body (api_key query : string) : M DataFrame :=
  if String.eqb api_key "" || String.eqb (PyStr.strip api_key) "" then ret []
  else try_except (fetch_newsapi_events_try api_key query) (fun _ => ret []).

(* ------------------------------------------------------------------- *)
(** *** Tertiary fetcher: RSS *)

(** The [try] around [published_parsed]: the formatted time when the
    entry has a parsed one; the handler truncates the raw text. *)
Definition rss_published (e published : pyval) : M pyval :=
  match e with
  | VDict d =>
      match (if Py.truthy published then Py.lookup "published_parsed" d else None) with
      | Some t =>
          if Py.truthy t then
            match t with
            | VStructTime y mo dd h mi =>
                ret (VStr (pretty y +:+ "-" +:+ PyStr.format_02d mo +:+ "-"
                           +:+ PyStr.format_02d dd +:+ " " +:+ PyStr.format_02d h
                           +:+ ":" +:+ PyStr.format_02d mi))
            | _ => lift (Py.take 16 published)
            end
          else ret published
      | None => ret published
      end
  | _ => ret published
  end.

(** The body of the loop over a feed's entries. *)
Definition rss_entry (feed : pyval) (feed_url : string) (e : pyval) : M (option dict) :=
  t <- lift (Py.get e "title" VNone) ;;
  let title := Py.or t (VStr "") in
  if negb (Py.truthy title) then ret None
  else
    s1 <- lift (Py.get e "summary" VNone) ;;
    s2 <- lift (Py.get e "description" VNone) ;;
    let raw := Py.or (Py.or s1 s2) title in
    summary <- lift (match raw with
                     | VDict rd => Py.take 200 (Py.dict_get rd "value" VNone)
                     | _ => Ok (VStr (PyStr.take 200 (str_of raw)))
                     end) ;;
    l <- lift (Py.get e "link" VNone) ;;
    let link := Py.or l (VStr "#") in
    p1 <- lift (Py.get e "published" VNone) ;;
    p2 <- lift (Py.get e "updated" VNone) ;;
    published <- rss_published e (Py.or (Py.or p1 p2) (VStr "")) ;;
    f <- lift (Py.get feed "feed" VNone) ;;
    ft <- lift (Py.get (Py.or f (VDict [])) "title" VNone) ;;
    let source := Py.or ft (VStr feed_url) in
    row <- _event_row title summary source link published (VInt 0) ;;
    ret (Some row).

(** The loop over one feed's entries, appending to the shared [rows]:
    the rows appended before an exception stay. *)
Fixpoint rss_entries (feed : pyval) (feed_url : string) (es : list pyval) (rows : DataFrame)
  : State -> (DataFrame * option exn) * State :=
  fun s =>
    match es with
    | [] => ((rows, None), s)
    | e :: r =>
        match rss_entry feed feed_url e s with
        | (Raise x, s') => ((rows, Some x), s')
        | (Ok (Some row), s') => rss_entries feed feed_url r (rows ++ [row]) s'
        | (Ok None, s') => rss_entries feed feed_url r rows s'
        end
    end.

(** One turn of the loop over [RSS_FEEDS]: the [try] and its
    [except Exception: continue]. *)
Definition rss_feed (feed_url : string) (rows : DataFrame) : M DataFrame :=
  fun s =>
    match (feed <- feedparser_parse_call feed_url ;;
           en <- lift (Py.get feed "entries" VNone) ;;
           capped <- lift (Py.take MAX_RSS_ENTRIES_PER_FEED (Py.or en (VList []))) ;;
           es <- lift (Py.iter capped) ;;
           ret (feed, es)) s with
    | (Raise _, s') => (Ok rows, s')
    | (Ok (feed, es), s') =>
        let '((rows', _), s'') := rss_entries feed feed_url es rows s' in
        (Ok rows', s'')
    end.

Fixpoint rss_feeds (feeds : list string) (rows : DataFrame) : M DataFrame :=
  match feeds with
  | [] => ret rows
  | u :: r => rows' <- rss_feed u rows ;; rss_feeds r rows'
  end.

Definition fetch_rss_events : M DataFrame :=
  if negb (feedparser_available w) then ret []
  else rss_feeds RSS_FEEDS [].

(* ------------------------------------------------------------------- *)
(** *** The result cache *)

Definition CACHE_TTL : Z := 600.

(** Modelled from the spec: the decorator [st.cache_data(ttl=600)] is
    Streamlit's and not part of the sources.  Following sections 3 and
    4.4: one store per wrapped function, keyed by the call arguments; an
    entry holds a snapshot of the result and its creation time and is
    valid for [ttl] seconds from creation, independent of access; a call
    that finds no valid entry runs the function and replaces the entry. *)
Definition cache_data {K} `{Countable K}
    (load : State -> gmap K cache_entry)
    (store : gmap K cache_entry -> State -> State)
    (ttl : Z) (key : K) (f : M DataFrame) : M DataFrame :=
  fun s =>
    let execute :=
      match f s with
      | (Ok df, s') => (Ok df, store (<[key := CacheEntry df (clock s')]> (load s')) s')
      | (Raise e, s') => (Raise e, s')
      end in
    match load s !! key with
    | Some entry =>
        if clock s <? created_at entry + ttl then (Ok (cached_value entry), s)
        else execute
    | None => execute
    end.

Definition fetch_gdelt_events (query : string) (max_records : Z) : M DataFrame :=
  cache_data gdelt_cache with_gdelt_cache CACHE_TTL (query, max_records)
             (fetch_gdelt_events_body query max_records).

Definition fetch_newsapi_events (api_key query : string) : M DataFrame :=
  cache_data newsapi_cache with_newsapi_cache CACHE_TTL (api_key, query)
             (fetch_newsapi_events_body api_key query).

(** Modelled from the spec: [f.clear()] of a cached function is
    Streamlit's; it evicts every entry of that function (section 4.4). *)
Definition fetch_gdelt_events_clear : M unit :=
  fun s => (Ok tt, with_gdelt_cache ∅ s).
Definition fetch_newsapi_events_clear : M unit :=
  fun s => (Ok tt, with_newsapi_cache ∅ s).
Definition generate_mock_data_clear : M unit :=
  fun s => (Ok tt, with_mock_cache None s).

(** app.py, [main]: the handler of the "Refresh Data" button (the rerun
    of the page is not modelled). *)
Definition refresh_data (data_mode : string) : M unit :=
  (if String.eqb data_mode "Mock" then generate_mock_data_clear else ret tt) >>
  fetch_gdelt_events_clear >>
  fetch_newsapi_events_clear.

(* ------------------------------------------------------------------- *)
(** *** The orchestrator *)

(** [os.environ.get("NEWSAPI_API_KEY", "").strip()] *)
Definition newsapi_key : string :=
  PyStr.strip (default "" (environ w "NEWSAPI_API_KEY")).

Definition try_rss : M DataFrame :=
  df <- fetch_rss_events ;;
  if negb (df_empty df) then
    sidebar_info "Using **RSS** feeds (GDELT/NewsAPI unavailable)." >> ret df
  else ret [].

Definition get_live_events : M DataFrame :=
  df <- fetch_gdelt_events GDELT_KEYWORDS MAX_GDELT_RECORDS ;;
  if negb (df_empty df) then ret df
  else
    if negb (String.eqb newsapi_key "") then
      df <- fetch_newsapi_events newsapi_key NEWSAPI_KEYWORDS ;;
      if negb (df_empty df) then
        sidebar_info "Using **NewsAPI** (GDELT was empty or rate-limited)." >> ret df
      else try_rss
    else try_rss.

(* ------------------------------------------------------------------- *)
(** *** Single-event AI analysis *)

(** The code-fence stripping before [json.loads]. *)
Definition strip_fence (text : string) : string :=
  if PyStr.startswith "```" text then
    let inner := PyStr.before "```" (PyStr.drop 3 text) in
    if PyStr.startswith "json" inner then PyStr.drop 4 inner else inner
  else text.

(** The body of the [try]. *)
Definition analyze_body (event : dict) : M dict :=
  let title := Py.dict_get event "headline" (Py.dict_get event "title" (VStr "")) in
  let location := Py.dict_get event "location" (VStr "Unknown") in
  let snippet := Py.dict_get event "article_snippet" (Py.dict_get event "snippet" (VStr "")) in
  reply <- lift (gemini_text w title location snippet) ;;
  text <- lift (Py.strip reply) ;;
  analysis <- lift (json_loads w (strip_fence text)) ;;
  r <- lift (Py.get analysis "risk_score" (VInt 5)) ;;
  n <- lift (Py.int r) ;;
  let event := Py.set "risk_score" (VInt (Z.min 10 (Z.max 1 n))) event in
  c <- lift (Py.get analysis "category" (Py.dict_get event "category" (VStr "General"))) ;;
  let event := Py.set "category" c event in
  let event := Py.set "gemini_analysis" analysis event in
  rs <- lift (Py.get analysis "reasoning" (VStr "")) ;;
  ret (Py.set "reasoning" rs event).

Definition analyze_with_gemini (event : dict) (api_key : string) : M dict :=
  if String.eqb api_key "" || String.eqb (PyStr.strip api_key) "" then ret event
  else
    try_except (analyze_body event)
      (fun e =>
         match exn_class_of e with
         | JSONDecodeError =>
             ret (Py.set "gemini_analysis"
                    (VDict [("error", VStr ("JSON parse failed: " +:+ exn_msg e));
                            ("reasoning", VStr "")]) event)
         | _ =>
             ret (Py.set "gemini_analysis"
                    (VDict [("error", VStr (exn_msg e)); ("reasoning", VStr "")]) event)
         end).

End Pipeline.

(* ===================================================================== *)
(** ** processing.py *)
(* ===================================================================== *)

(** [df.empty] of any table: pandas calls a table empty when it has no
    row or no column, so a table of rows without a single key is empty
    too. *)
Definition frame_empty (df : DataFrame) : bool :=
  forallb (fun row => match row with [] => true | _ => false end) df.

(** [df[name]] as the list of its cells: a [KeyError] when no row has the
    column, NaN in the rows that lack it. *)
Definition column (name : string) (df : DataFrame) : res (list pyval) :=
  if existsb (fun row => match Py.lookup name row with Some _ => true | None => false end) df
  then Ok (List.map (fun row => Py.dict_get row name (VFloat FNaN)) df)
  else Raise (Exn KeyError name).

(** One cell of [column >= k]; comparing a number with a string, list or
    dict raises. *)
Definition cell_ge (k : Z) (v : pyval) : res bool :=
  match v with
  | VInt n => Ok (k <=? n)
  | VBool b => Ok (k <=? (if b then 1 else 0))
  | VFloat (FFinite q) => Ok (Qle_bool (inject_Z k) q)
  | VFloat FNaN => Ok false
  | VFloat (FInf negative) => Ok (negb negative)
  | VNone => Ok false
  | _ => Raise (Py.type_error "'>=' not supported between these instances")
  end.

Fixpoint cells_ge (k : Z) (vs : list pyval) : res (list bool) :=
  match vs with
  | [] => Ok []
  | v :: r => (b <-- cell_ge k v ;; bs <-- cells_ge k r ;; Ok (b :: bs))%res
  end.

(** One cell of [column == text]. *)
Definition cell_eq_str (text : string) (v : pyval) : bool :=
  match v with
  | VStr s => String.eqb s text
  | _ => false
  end.

(** [len(df[mask])] *)
Definition count_true (mask : list bool) : Z :=
  Z.of_nat (length (List.filter (fun b => b) mask)).

Definition calculate_health_index (events_df : DataFrame) : res Z :=
  if frame_empty events_df then Ok 100
  else
    (risk <-- column "risk_score" events_df ;;
     high_mask <-- cells_ge 7 risk ;;
     let high_risk := count_true high_mask in
     category <-- column "category" events_df ;;
     let disruptions := count_true (List.map (cell_eq_str "Disruption") category) in
     let health := Z.max 0 (100 - (high_risk * 5) - (disruptions * 3)) in
     Ok (Z.min 100 health))%res.


(** [out[name]] for a table [out] selected from [df]: selecting rows
    keeps the columns of [df], so the column is there when a row of [df]
    has it. *)
Definition column_in (df : DataFrame) (name : string) (out : DataFrame) : res (list pyval) :=
  if existsb (fun row => match Py.lookup name row with Some _ => true | None => false end) df
  then Ok (List.map (fun row => Py.dict_get row name (VFloat FNaN)) out)
  else Raise (Exn KeyError name).

(** One cell of [column <= k]. *)
Definition cell_le (k : Z) (v : pyval) : res bool :=
  match v with
  | VInt n => Ok (n <=? k)
  | VBool b => Ok ((if b then 1 else 0) <=? k)
  | VFloat (FFinite q) => Ok (Qle_bool q (inject_Z k))
  | VFloat FNaN => Ok false
  | VFloat (FInf negative) => Ok negative
  | VNone => Ok false
  | _ => Raise (Py.type_error "'<=' not supported between these instances")
  end.

Fixpoint cells_le (k : Z) (vs : list pyval) : res (list bool) :=
  match vs with
  | [] => Ok []
  | v :: r => (b <-- cell_le k v ;; bs <-- cells_le k r ;; Ok (b :: bs))%res
  end.

(** [out[name] >= k] and [out[name] <= k]. *)
Definition ge_mask (df : DataFrame) (name : string) (k : Z) (out : DataFrame) : res (list bool) :=
  (c <-- column_in df name out ;; cells_ge k c)%res.

Definition le_mask (df : DataFrame) (name : string) (k : Z) (out : DataFrame) : res (list bool) :=
  (c <-- column_in df name out ;; cells_le k c)%res.

(** [out[name] == text]. *)
Definition eq_mask (df : DataFrame) (name text : string) (out : DataFrame) : res (list bool) :=
  (c <-- column_in df name out ;; Ok (List.map (cell_eq_str text) c))%res.

(** [a & b] and [a | b] on two masks of one table. *)
Definition mask_and (a b : list bool) : list bool := zip_with andb a b.
Definition mask_or (a b : list bool) : list bool := zip_with orb a b.

(** [out[mask]]: the rows whose mask entry is true, in their order. *)
Fixpoint select_rows (mask : list bool) (out : DataFrame) : DataFrame :=
  match mask, out with
  | b :: m, row :: r => if b then row :: select_rows m r else select_rows m r
  | _, _ => []
  end.

(** The risk-level step of [filter_events]. *)
Definition filter_risk_level (df : DataFrame) (risk_level : string) (out : DataFrame) : res DataFrame :=
  if String.eqb risk_level "Low" then
    (m <-- le_mask df "risk_score" 3 out ;; Ok (select_rows m out))%res
  else if String.eqb risk_level "Medium" then
    (m1 <-- ge_mask df "risk_score" 4 out ;;
     m2 <-- le_mask df "risk_score" 6 out ;;
     Ok (select_rows (mask_and m1 m2) out))%res
  else if String.eqb risk_level "High" then
    (m <-- ge_mask df "risk_score" 7 out ;; Ok (select_rows m out))%res
  else Ok out.

(** The region step. *)
Definition filter_region (df : DataFrame) (region : string) (out : DataFrame) : res DataFrame :=
  if String.eqb region "Asia" then
    (m1 <-- ge_mask df "longitude" 60 out ;;
     m2 <-- le_mask df "longitude" 150 out ;;
     Ok (select_rows (mask_and m1 m2) out))%res
  else if String.eqb region "Europe" then
    (m1 <-- ge_mask df "longitude" (-20) out ;;
     m2 <-- le_mask df "longitude" 40 out ;;
     m3 <-- ge_mask df "latitude" 35 out ;;
     Ok (select_rows (mask_and (mask_and m1 m2) m3) out))%res
  else if String.eqb region "Americas" then
    (m1 <-- le_mask df "longitude" (-50) out ;;
     m2 <-- ge_mask df "longitude" (-170) out ;;
     Ok (select_rows (mask_or m1 m2) out))%res
  else if String.eqb region "Africa" then
    (m1 <-- ge_mask df "latitude" (-35) out ;;
     m2 <-- le_mask df "latitude" 37 out ;;
     m3 <-- ge_mask df "longitude" (-20) out ;;
     m4 <-- le_mask df "longitude" 52 out ;;
     Ok (select_rows (mask_and (mask_and (mask_and m1 m2) m3) m4) out))%res
  else Ok out.

(** The category and commodity steps: [out[out[name] == choice]] unless
    the choice is [All]. *)
Definition filter_choice (df : DataFrame) (name choice : string) (out : DataFrame) : res DataFrame :=
  if negb (String.eqb choice "All") then
    (m <-- eq_mask df name choice out ;; Ok (select_rows m out))%res
  else Ok out.

(** [reset_index(drop=True)] renumbers the rows; a list of rows has no
    other index. *)
Definition filter_events (df : DataFrame)
    (region risk_level category_filter commodity_filter : string) : res DataFrame :=
  if frame_empty df then Ok df
  else
    (out <-- filter_risk_level df risk_level df ;;
     out <-- filter_region df region out ;;
     out <-- filter_choice df "category" category_filter out ;;
     out <-- filter_choice df "commodity" commodity_filter out ;;
     Ok out)%res.

(* ===================================================================== *)
(** ** viz.py *)
(* ===================================================================== *)

(** The marker colour of a risk score, as red, green, blue and alpha. *)
Definition get_risk_color (risk_score : Z) : list Z :=
  if 7 <=? risk_score then [239; 68; 68; 180]
  else if 4 <=? risk_score then [245; 158; 11; 180]
  else [34; 197; 94; 180].

(* ===================================================================== *)
(** ** data.py: the brief and the questions over several events *)
(* ===================================================================== *)

Module PyText.

(** What follows the first occurrence of [sep] in [s], if there is one:
    the part of [s] that [s.split(sep)] cuts into its items after the
    first. *)
Fixpoint after (sep s : string) : option string :=
  if String.prefix sep s then Some (PyStr.drop (String.length sep) s)
  else match s with
       | EmptyString => None
       | String _ r => after sep r
       end.

(** [s.split(sep)[1]] when the list has a second item. *)
Definition second_part (sep s : string) : option string :=
  match after sep s with
  | Some r => Some (PyStr.before sep r)
  | None => None
  end.

(** [s.replace(old, "")] for a non-empty [old]: the occurrences are found
    from the left and do not overlap; [skip] counts the characters of a
    found occurrence that are still to be dropped. *)
Fixpoint remove_all (old : string) (skip : nat) (s : string) : string :=
  match s with
  | EmptyString => EmptyString
  | String c r =>
      match skip with
      | S k => remove_all old k r
      | O =>
          if String.prefix old s then remove_all old (String.length old - 1) r
          else String c (remove_all old 0 r)
      end
  end.

(** [s.split("\n")]. *)
Fixpoint split_lines (s : string) : list string :=
  match s with
  | EmptyString => [EmptyString]
  | String c r =>
      if Ascii.eqb c "010" then EmptyString :: split_lines r
      else match split_lines r with
           | line :: rest => String c line :: rest
           | [] => [String c EmptyString]
           end
  end.

(** [s.lstrip(chars)]. *)
Fixpoint lstrip_chars (chars : list ascii) (s : string) : string :=
  match s with
  | EmptyString => EmptyString
  | String c r => if existsb (Ascii.eqb c) chars then lstrip_chars chars r else s
  end.

(** [sep.join(items)]. *)
Fixpoint join (sep : string) (items : list string) : string :=
  match items with
  | [] => EmptyString
  | [x] => x
  | x :: r => x +:+ sep +:+ join sep r
  end.

End PyText.

Section Gateway.

Context (w : World).

(** The outcome of configuring the client with a key, sending a prompt
    with [model.generate_content] and reading [response.text]. *)
Context (generate_content : string -> string -> res pyval).

(** The cell pandas hands to the loop over [iterrows] for a row and a
    column of a table.  pandas stores each column under one type for all
    its rows and builds the row from the stored cells, so what comes back
    need not be the value the row was made from: in a column that also
    holds a float or a missing value an integer comes back as a float, and
    a missing value as NaN. *)
Context (iterrows_cell : DataFrame -> dict -> string -> pyval).

(** The text an f-string puts for a value: decimal digits for an integer. *)
Definition fstr (v : pyval) : string :=
  match v with
  | VInt n => pretty n
  | _ => str_of w v
  end.

(** A row whose headline, category and location are texts and whose risk
    score is an integer, and a table of such rows.  In such a table the
    three text columns and the integer column keep their values as they
    are, and the text columns keep pandas from turning the integers of a
    row into floats. *)
Definition typed_row (row : dict) : bool :=
  match Py.lookup "headline" row, Py.lookup "risk_score" row,
        Py.lookup "category" row, Py.lookup "location" row with
  | Some (VStr _), Some (VInt _), Some (VStr _), Some (VStr _) => true
  | _, _, _, _ => false
  end.

Definition typed_table (df : DataFrame) : bool := forallb typed_row df.

(** [row.get(name, default)] on a row of [df] for one of the four columns
    the prompts quote: the default when [df] has no such column; the value
    of the row in a typed table; and otherwise the cell as pandas stores
    and returns it. *)
Definition row_get (df : DataFrame) (row : dict) (name : string) (default : pyval) : pyval :=
  if existsb (fun r => match Py.lookup name r with Some _ => true | None => false end) df
  then (if typed_table df then Py.dict_get row name default
        else iterrows_cell df row name)
  else default.

Definition context_line (df : DataFrame) (row : dict) : string :=
  let h := row_get df row "headline" (VStr "?") in
  let r := row_get df row "risk_score" (VInt 0) in
  let c := row_get df row "category" (VStr "?") in
  let loc := row_get df row "location" (VStr "?") in
  "- [" +:+ fstr r +:+ "/10] " +:+ fstr h +:+ " | " +:+ fstr c +:+ " | " +:+ fstr loc.

Definition _events_context_for_gemini (events_df : DataFrame) (max_events : nat) : string :=
  if frame_empty events_df then "No events in the current view."
  else
    let subset := List.firstn max_events events_df in
    PyText.join newline (List.map (context_line events_df) subset).

Definition brief_prompt (context : string) : string :=
  "You are a supply chain intelligence analyst. Based on these current signals, write a brief executive brief."
  +:+ newline +:+ newline
  +:+ "CURRENT EVENTS (headline | risk/10 | category | location):" +:+ newline
  +:+ context +:+ newline +:+ newline
  +:+ "Respond in this exact format (use the section headers):" +:+ newline
  +:+ "EXECUTIVE SUMMARY:" +:+ newline
  +:+ "[2-4 sentences: overall supply chain picture and what stands out.]" +:+ newline
  +:+ newline
  +:+ "TOP 3 RISKS TO WATCH:" +:+ newline
  +:+ "1. [First risk with one sentence]" +:+ newline
  +:+ "2. [Second risk with one sentence]" +:+ newline
  +:+ "3. [Third risk with one sentence]" +:+ newline.

(** The loop over the lines of the risks block. *)
Fixpoint risk_lines (lines : list string) : list string :=
  match lines with
  | [] => []
  | line :: rest =>
      let line := PyStr.strip line in
      match line with
      | String c _ =>
          if PyStr.is_digit c
          then PyStr.strip
                 (PyText.lstrip_chars (String.list_ascii_of_string "0123456789.)- ") line)
               :: risk_lines rest
          else risk_lines rest
      | EmptyString => risk_lines rest
      end
  end.

(** From the trimmed reply to [summary] and [top_risks], before the
    result is built. *)
Definition brief_sections (text : string) : string * list string :=
  if PyStr.contains "EXECUTIVE SUMMARY:" text && PyStr.contains "TOP 3 RISKS" text then
    let summary :=
      PyStr.strip (PyText.remove_all "EXECUTIVE SUMMARY:" 0
                     (PyStr.before "TOP 3 RISKS TO WATCH:" text)) in
    let risks_block :=
      match PyText.second_part "TOP 3 RISKS TO WATCH:" text with
      | Some part => PyStr.strip part
      | None => EmptyString
      end in
    (summary, risk_lines (PyText.split_lines risks_block))
  else (text, []).

(** The body of the [try]. *)
Definition get_executive_brief_try (events_df : DataFrame) (api_key : string) : res pyval :=
  (let context := _events_context_for_gemini events_df 20 in
   reply <-- generate_content (PyStr.strip api_key) (brief_prompt context) ;;
   text <-- Py.strip (Py.or reply (VStr "")) ;;
   let '(summary, top_risks) := brief_sections text in
   Ok (VDict [("summary", Py.or (VStr summary) (VStr text));
              ("top_risks", VList (List.map VStr (List.firstn 3 top_risks)))]))%res.

Definition get_executive_brief (events_df : DataFrame) (api_key : string) : pyval :=
  if String.eqb api_key "" || String.eqb (PyStr.strip api_key) "" then
    VDict [("error", VStr "No API key")]
  else if frame_empty events_df then
    VDict [("summary", VStr "No events to summarize."); ("top_risks", VList [])]
  else
    match get_executive_brief_try events_df api_key with
    | Ok result => result
    | Raise e =>
        VDict [("error", VStr (exn_msg e)); ("summary", VStr ""); ("top_risks", VList [])]
    end.

Definition ask_prompt (context question : string) : string :=
  "You are a supply chain intelligence analyst. Answer the user's question using ONLY the following current events. Be concise (2-5 sentences). If the data doesn't support an answer, say so."
  +:+ newline +:+ newline
  +:+ "CURRENT EVENTS (risk/10, headline, category, location):" +:+ newline
  +:+ context +:+ newline +:+ newline
  +:+ "USER QUESTION: " +:+ PyStr.strip question +:+ newline +:+ newline
  +:+ "ANSWER:".

Definition ask_gemini_about_data (events_df : DataFrame) (question api_key : string) : string :=
  if String.eqb api_key "" || String.eqb (PyStr.strip api_key) "" then
    "Please set a Gemini API key in the sidebar."
  else if String.eqb question "" || String.eqb (PyStr.strip question) "" then
    "Please enter a question."
  else
    match
      (let context := _events_context_for_gemini events_df 20 in
       reply <-- generate_content (PyStr.strip api_key) (ask_prompt context question) ;;
       Py.strip (Py.or reply (VStr "")))%res
    with
    | Ok answer => answer
    | Raise e => "Error: " +:+ exn_msg e
    end.

End Gateway.

(* ===================================================================== *)
(** ** The specification's vocabulary *)
(* ===================================================================== *)

(** The keyword groups of the category heuristic, in the order the
    specification lists them. *)
Definition construction_terms : list string := ["cement"; "steel"; "lumber"; "infrastructure"].
Definition disruption_terms : list string := ["strike"; "port"; "congestion"; "canal"; "blockade"].
Definition category_groups : list (list string * string) :=
  [ (construction_terms, "Construction");
    (disruption_terms, "Disruption");
    (["shortage"], "Shortage");
    (["factory"; "fab"; "assembly"], "Manufacturing");
    (["sanction"; "trade"; "export"], "Geopolitical") ].

(** First match wins; General when no group matches. *)
Fixpoint first_match (groups : list (list string * string)) (t : string) : string :=
  match groups with
  | [] => "General"
  | (terms, category) :: rest => if any_in terms t then category else first_match rest t
  end.

Definition categorize_spec (title : string) : string :=
  first_match category_groups (PyStr.lower title).

(** The tiers of the risk heuristic. *)
Definition crisis_terms : list string :=
  ["strike"; "shortage"; "blockade"; "outage"; "closure"; "crisis"].
Definition disruption_tier_terms : list string :=
  ["disruption"; "delay"; "backlog"; "congestion"].
Definition generic_terms : list string :=
  ["supply chain"; "logistics"; "shipping"; "freight"; "port"; "cargo"].

(** A [str] or [None] argument. *)
Definition of_optional (o : option string) : pyval :=
  match o with
  | Some s => VStr s
  | None => VNone
  end.

(** The keywords of the vocabulary that occur in [text], ignoring case. *)
Definition matching_keywords (text : string) : list string :=
  List.filter (fun kw => PyStr.contains kw (PyStr.lower text)) NEWSAPI_RELEVANCE_KEYWORDS.


(** The rows of a table that count against the health index. *)
Definition high_risk_count (df : DataFrame) : Z :=
  Z.of_nat (length (List.filter
    (fun row => match Py.lookup "risk_score" row with
                | Some (VInt n) => 7 <=? n
                | _ => false
                end) df)).
Definition disruption_count (df : DataFrame) : Z :=
  Z.of_nat (length (List.filter
    (fun row => match Py.lookup "category" row with
                | Some (VStr c) => String.eqb c "Disruption"
                | _ => false
                end) df)).

(** A table in the schema of the event record: every row has an integer
    [risk_score] and a [category]. *)
Definition schema_ok (df : DataFrame) : Prop :=
  Forall (fun row => (exists n, Py.lookup "risk_score" row = Some (VInt n))
                     /\ (exists c, Py.lookup "category" row = Some c)) df.

(** The value of an integer field of a row lies in [lo..hi]. *)
Definition int_field_in (field : string) (lo hi : Z) (row : dict) : Prop :=
  exists n, Py.lookup field row = Some (VInt n) /\ lo <= n <= hi.

(** A computation returns: it raises in no state. *)
Definition total {A} (c : M A) : Prop :=
  forall s, exists a s', c s = (Ok a, s').

(** The state after [st.sidebar.info(text)]. *)
Definition noted (text : string) (s : State) : State :=
  with_sidebar (sidebar s ++ [Info text]) s.

(** A quiet computation changes nothing but the random counter: it issues
    no request, writes nothing to the sidebar and leaves the caches. *)
Definition quiet {A} (c : M A) : Prop :=
  forall s r s', c s = (r, s') -> s' = with_rng (rng s') s.

(** The policy of section 4.4 for one wrapped function: [call] is the
    cached function, [body] the function under the decorator.  Every call
    returns and leaves an entry for its arguments that holds what it
    returned and is still valid; while that entry is there and younger than
    the time to live, a call with the same arguments returns the same
    table and changes nothing (so it issues no request); once the entry is
    that old, the call runs the body again and replaces the entry. *)
Definition ttl_policy {K} `{Countable K}
    (load : State -> gmap K cache_entry) (store : gmap K cache_entry -> State -> State)
    (call body : K -> M DataFrame) : Prop :=
  forall (key : K) (s : State),
  exists (df : DataFrame) (s1 : State) (e : cache_entry),
    call key s = (Ok df, s1)
    /\ load s1 !! key = Some e
    /\ cached_value e = df
    /\ clock s1 < created_at e + CACHE_TTL
    /\ (forall s2, load s2 !! key = Some e -> clock s2 < created_at e + CACHE_TTL ->
        call key s2 = (Ok df, s2))
    /\ (forall s2, load s2 !! key = Some e -> created_at e + CACHE_TTL <= clock s2 ->
        exists df' s2',
          body key s2 = (Ok df', s2')
          /\ call key s2
             = (Ok df', store (<[key := CacheEntry df' (clock s2')]> (load s2')) s2')).

(** The state after one more [requests.get]. *)
Definition after_request (s : State) : State :=
  with_net_calls (S (net_calls s)) s.

(** The state after [st.sidebar.warning(text)]. *)
Definition warned (text : string) (s : State) : State :=
  with_sidebar (sidebar s ++ [Warning text]) s.

(** A request fails: the transport raises, the status is 429 or another
    error status, or the body is no JSON. *)
Definition request_failed (outcome : res http_response) : Prop :=
  match outcome with
  | Raise _ => True
  | Ok response =>
      status_code response = 429
      \/ 400 <= status_code response < 600
      \/ exists e, json_body response = Raise e
  end.

(** The state after one more [feedparser.parse]. *)
Definition after_parse (s : State) : State :=
  with_feed_calls (S (feed_calls s)) s.

(** Every table in a cache holds rows that satisfy [P]. *)
Definition cached_rows {K} `{Countable K} (P : dict -> Prop) (c : gmap K cache_entry) : Prop :=
  map_Forall (fun _ e => Forall P (cached_value e)) c.

(** The invariant of the two result caches: their rows have a risk score
    in 0..10. *)
Definition caches_ok (s : State) : Prop :=
  cached_rows (int_field_in "risk_score" 0 10) (gdelt_cache s)
  /\ cached_rows (int_field_in "risk_score" 0 10) (newsapi_cache s).

(** A key the analysis accepts: not empty and not blank. *)
Definition usable_key (api_key : string) : Prop :=
  (String.eqb api_key "" || String.eqb (PyStr.strip api_key) "") = false.





(** The value of a Boolean cell; a comparison that raises has none. *)
Definition truth (outcome : res bool) : bool :=
  match outcome with
  | Ok b => b
  | Raise _ => false
  end.

(** The cell of a row in a column. *)
Definition cell (name : string) (row : dict) : pyval :=
  Py.dict_get row name (VFloat FNaN).

(** The conditions of [filter_events], row by row. *)
Definition risk_level_ok (risk_level : string) (row : dict) : bool :=
  let v := cell "risk_score" row in
  if String.eqb risk_level "Low" then truth (cell_le 3 v)
  else if String.eqb risk_level "Medium" then truth (cell_ge 4 v) && truth (cell_le 6 v)
  else if String.eqb risk_level "High" then truth (cell_ge 7 v)
  else true.

Definition region_ok (region : string) (row : dict) : bool :=
  let lon := cell "longitude" row in
  let lat := cell "latitude" row in
  if String.eqb region "Asia" then truth (cell_ge 60 lon) && truth (cell_le 150 lon)
  else if String.eqb region "Europe" then
    truth (cell_ge (-20) lon) && truth (cell_le 40 lon) && truth (cell_ge 35 lat)
  else if String.eqb region "Americas" then
    truth (cell_le (-50) lon) || truth (cell_ge (-170) lon)
  else if String.eqb region "Africa" then
    truth (cell_ge (-35) lat) && truth (cell_le 37 lat)
    && truth (cell_ge (-20) lon) && truth (cell_le 52 lon)
  else true.

Definition choice_ok (name choice : string) (row : dict) : bool :=
  if negb (String.eqb choice "All") then cell_eq_str choice (cell name row) else true.

Definition row_passes (region risk_level category_filter commodity_filter : string)
    (row : dict) : bool :=
  risk_level_ok risk_level row && region_ok region row
  && choice_ok "category" category_filter row
  && choice_ok "commodity" commodity_filter row.

(** A value that can be compared with a number: a number, a Boolean or
    a missing value. *)
Definition comparable (v : pyval) : bool :=
  match v with
  | VNone | VBool _ | VInt _ | VFloat _ => true
  | _ => false
  end.

Definition has_field (name : string) (row : dict) : bool :=
  match Py.lookup name row with Some _ => true | None => false end.

Definition has_number (name : string) (row : dict) : bool :=
  match Py.lookup name row with Some v => comparable v | None => false end.

(** A table the filters apply to: every row has the three numeric
    columns and the two text columns. *)
Definition filterable_row (row : dict) : bool :=
  has_number "risk_score" row && has_number "longitude" row && has_number "latitude" row
  && has_field "category" row && has_field "commodity" row.

Definition filterable (df : DataFrame) : Prop :=
  Forall (fun row => filterable_row row = true) df.

(** A row with a longitude on the number line: an integer or a float that
    is no NaN. *)
Definition located (row : dict) : bool :=
  match Py.lookup "longitude" row with
  | Some (VInt _) | Some (VFloat (FFinite _)) | Some (VFloat (FInf _)) => true
  | _ => false
  end.

(** The three marker colours. *)
Definition red : list Z := [239; 68; 68; 180].
Definition amber : list Z := [245; 158; 11; 180].
Definition green : list Z := [34; 197; 94; 180].

(** The colour of the marker of a row with an integer risk score. *)
Definition marker_color (row : dict) : option (list Z) :=
  match Py.lookup "risk_score" row with
  | Some (VInt n) => Some (get_risk_color n)
  | _ => None
  end.

(** The three forms of what [get_executive_brief] returns. *)
Definition brief_result (result : pyval) : Prop :=
  result = VDict [("error", VStr "No API key")]
  \/ (exists (summary : string) (risks : list string),
        result = VDict [("summary", VStr summary);
                        ("top_risks", VList (List.map VStr risks))]
        /\ (length risks <= 3)%nat)
  \/ (exists msg : string,
        result = VDict [("error", VStr msg); ("summary", VStr "");
                        ("top_risks", VList [])]).

(** The categories of the category heuristic and the keys of an event
    record, in the order [_event_row] writes them. *)
Definition CATEGORIES : list string :=
  ["Construction"; "Disruption"; "Shortage"; "Manufacturing"; "Geopolitical"; "General"].

Definition EVENT_KEYS : list string :=
  ["timestamp"; "headline"; "location"; "latitude"; "longitude"; "risk_score";
   "category"; "commodity"; "reasoning"; "article_snippet"; "source_url"; "source";
   "gemini_analysis"].

(** A string or a list of at most [n] items. *)
Definition at_most (n : nat) (v : pyval) : Prop :=
  match v with
  | VStr text => (String.length text <= n)%nat
  | VList items => (length items <= n)%nat
  | _ => False
  end.

(** The record every live source builds: the thirteen keys, a headline of
    at most 500 characters, a snippet of at most 200, one of the six
    categories, and the fixed location, commodity, reasoning and analysis
    of a row that was not analysed yet. *)
Definition event_record (row : dict) : Prop :=
  List.map fst row = EVENT_KEYS
  /\ (exists headline, Py.lookup "headline" row = Some (VStr headline)
                       /\ (String.length headline <= 500)%nat)
  /\ (exists snippet, Py.lookup "article_snippet" row = Some snippet /\ at_most 200 snippet)
  /\ (exists category, Py.lookup "category" row = Some (VStr category)
                       /\ In category CATEGORIES)
  /\ Py.lookup "location" row = Some (VStr "Global Signal (Live)")
  /\ Py.lookup "commodity" row = Some (VStr "Mixed")
  /\ Py.lookup "reasoning" row = Some (VStr "")
  /\ Py.lookup "gemini_analysis" row = Some VNone.

(** A row with a headline that is a non-empty string. *)
Definition has_headline (row : dict) : Prop :=
  exists headline, Py.lookup "headline" row = Some (VStr headline) /\ headline <> EmptyString.

(** The fields the analysis writes. *)
Definition ANALYSIS_KEYS : list string :=
  ["risk_score"; "category"; "gemini_analysis"; "reasoning"].

(** A text without a backtick. *)
Definition no_backtick (text : string) : bool :=
  forallb (fun c => negb (Ascii.eqb c "`")) (String.list_ascii_of_string text).

(** A text in which the character [c] does not occur. *)
Definition free_of (c : ascii) (text : string) : bool :=
  forallb (fun x => negb (Ascii.eqb x c)) (String.list_ascii_of_string text).

(** A separator made of a word and a closing character. *)
Definition ended_by (word : string) (c : ascii) : string :=
  word +:+ String c EmptyString.

(** A text without white space at either end. *)
Definition trimmed (text : string) : bool :=
  String.eqb (PyStr.lstrip text) text && String.eqb (PyStr.rstrip text) text.

(** The characters the brief strips from the front of a risk line. *)
Definition NUMBERING : list ascii := String.list_ascii_of_string "0123456789.)- ".

(** A summary as the prompt asks for it: some text without a colon and
    without white space around it. *)
Definition plain_summary (summary : string) : bool :=
  negb (String.eqb summary "") && trimmed summary && free_of ":" summary.

(** One risk as the prompt asks for it: one line of text without a colon,
    without white space around it, that does not itself begin with a
    digit or a punctuation mark of the numbering. *)
Definition plain_risk (risk : string) : bool :=
  match risk with
  | String c _ => negb (existsb (Ascii.eqb c) NUMBERING)
  | EmptyString => false
  end
  && trimmed risk && free_of ":" risk && free_of "010" risk.

(** A reply in the format the prompt of the brief prescribes. *)
Definition well_formed_brief (summary risk1 risk2 risk3 : string) : string :=
  "EXECUTIVE SUMMARY:" +:+ newline +:+ summary +:+ newline +:+ newline
  +:+ "TOP 3 RISKS TO WATCH:" +:+ newline
  +:+ "1. " +:+ risk1 +:+ newline
  +:+ "2. " +:+ risk2 +:+ newline
  +:+ "3. " +:+ risk3.

(* ===================================================================== *)
(** ** Sample worlds, for running the model *)
(* ===================================================================== *)

Definition initial_state : State :=
  mkState [] 0 0 0 0 ∅ ∅ None.

Definition sample_world
    (http : string -> nat -> res http_response)
    (feeds : string -> nat -> res pyval)
    (key : option string)
    (loads : string -> res pyval)
    (reply : res pyval) : World :=
  {| http_get := http;
     feedparser_available := true;
     feedparser_parse := feeds;
     random_uniform := fun _ _ _ => VFloat (FFinite 0);
     strftime := fun fmt _ =>
       if String.eqb fmt "%Y%m%d" then "20240115"
       else if String.eqb fmt "%Y-%m-%d %H:%M" then "2024-01-15 09:00"
       else fmt;
     py_str := fun _ => "?";
     quote_plus := fun q => q;
     environ := fun name => if String.eqb name "NEWSAPI_API_KEY" then key else None;
     json_loads := loads;
     gemini_text := fun _ _ _ => reply |}.

Definition connection_error : exn := Exn OtherException "connection refused".

Definition no_network : string -> nat -> res http_response :=
  fun _ _ => Raise connection_error.
Definition no_feeds : string -> nat -> res pyval :=
  fun _ _ => Raise connection_error.
Definition no_json : string -> res pyval :=
  fun _ => Raise (Exn JSONDecodeError "Expecting value: line 1 column 1 (char 0)").

(** A response with status 200 and the given articles. *)
Definition articles_response (arts : list pyval) : res http_response :=
  Ok (HttpResponse 200 (Ok (VDict [("articles", VList arts)]))).

Definition sample_table : DataFrame :=
  [ [("risk_score", VInt 9); ("category", VStr "Disruption")];
    [("risk_score", VInt 7); ("category", VStr "Manufacturing")];
    [("risk_score", VInt 2); ("category", VStr "Disruption")] ].

Definition sample_article : pyval :=
  VDict [ ("title", VStr "Port strike delays cargo");
          ("description", VStr "Dockers walk out");
          ("source", VDict [("name", VStr "Wire")]);
          ("url", VStr "https://example.com/a");
          ("publishedAt", VStr "2024-01-15T12:30:00Z") ].

(** GDELT is unreachable, NewsAPI answers with one article. *)
Definition sample_http : string -> nat -> res http_response :=
  fun url _ =>
    if String.prefix GDELT_URL url then Raise connection_error
    else articles_response [sample_article].

Definition secondary_world : World :=
  sample_world sample_http no_feeds (Some " k3y ") no_json (Raise connection_error).

(** The row the normalizer builds from [sample_article]. *)
Definition sample_row : dict :=
  [ ("timestamp", VStr "2024-01-15 12:30");
    ("headline", VStr "Port strike delays cargo");
    ("location", VStr "Global Signal (Live)");
    ("latitude", VFloat (FFinite 0));
    ("longitude", VFloat (FFinite 0));
    ("risk_score", VInt 4);
    ("category", VStr "Disruption");
    ("commodity", VStr "Mixed");
    ("reasoning", VStr "");
    ("article_snippet", VStr "Dockers walk out");
    ("source_url", VStr "https://example.com/a");
    ("source", VStr "Wire");
    ("gemini_analysis", VNone) ].

(** No network, no feeds, a NewsAPI key configured. *)
Definition offline_world : World :=
  sample_world no_network no_feeds (Some "k3y") no_json (Raise connection_error).

Definition sample_entry (n : nat) : pyval :=
  VDict [ ("title", VStr ("Freight update " +:+ pretty n));
          ("summary", VStr "Rates moved");
          ("link", VStr "https://example.com/e");
          ("published", VStr "Mon, 15 Jan 2024 12:30:00 GMT");
          ("published_parsed", VStructTime 2024 1 15 12 30) ].

(** The first configured feed cannot be parsed, the second has twenty
    entries. *)
Definition sample_feeds : string -> nat -> res pyval :=
  fun url _ =>
    if String.eqb url "https://theloadstar.com/feed/" then
      Ok (VDict [ ("feed", VDict [("title", VStr "The Loadstar")]);
                  ("entries", VList (List.map sample_entry (seq 0 20))) ])
    else Raise (Exn OtherException "not well-formed (invalid token)").

Definition one_feed_world : World :=
  sample_world no_network sample_feeds None no_json (Raise connection_error).

(** A sample of [json.loads]: integers, the empty object and three
    literals; any other text is malformed. *)
Definition sample_json_loads (text : string) : res pyval :=
  if String.eqb text "{}" then Ok (VDict [])
  else if String.eqb text "null" then Ok VNone
  else if String.eqb text "true" then Ok (VBool true)
  else if String.eqb text "false" then Ok (VBool false)
  else match PyStr.digits_value 0 false text with
       | Some n => Ok (VInt n)
       | None => Raise (Exn JSONDecodeError "Expecting value: line 1 column 1 (char 0)")
       end.

(** A sample of the decoded reply of the service: a risk score out of
    range and a category. *)
Definition sample_analysis : pyval :=
  VDict [("risk_score", VInt 42); ("category", VStr "Shortage");
         ("reasoning", VStr "Stocks are low.")].

(** The service answers with text that decodes to [sample_analysis]. *)
Definition analysis_world : World :=
  sample_world no_network no_feeds None
    (fun text => if String.eqb (PyStr.strip text) "ANALYSIS" then Ok sample_analysis
                 else sample_json_loads text)
    (Ok (VStr "```json ANALYSIS ```")).

(** The service answers with text that is no JSON. *)
Definition garbled_world : World :=
  sample_world no_network no_feeds None sample_json_loads
    (Ok (VStr "{ risk_score: 9, categ")).

(** A text that mentions every keyword of the vocabulary. *)
Definition all_keywords_text : string :=
  "Supply chain logistics: shipping, freight and cargo at the port; shortage, disruption, strike; factory manufacturing, inventory, shipment, supplier procurement, warehouse distribution, export/import, container rail trucking delivery, outage, closure, backlog".

(** GDELT answers with three articles: a compact 14-digit seendate, a
    seendate in the form GDELT documents, and none. *)
Definition gdelt_world : World :=
  sample_world
    (fun _ _ => articles_response
       [ VDict [("title", VStr "Port strike"); ("seendate", VStr "20240115123000")];
         VDict [("title", VStr "Steel plant opens"); ("seendate", VStr "20240115T123000Z")];
         VDict [("title", VStr "Rail backlog")] ])
    no_feeds None no_json (Raise connection_error).

(** Five events of the demonstration catalogue, with the columns the
    filters and the prompts read. *)
Definition sample_event (headline location : string) (latitude longitude : Q)
    (risk_score : Z) (category commodity : string) : dict :=
  [ ("headline", VStr headline);
    ("location", VStr location);
    ("latitude", VFloat (FFinite latitude));
    ("longitude", VFloat (FFinite longitude));
    ("risk_score", VInt risk_score);
    ("category", VStr category);
    ("commodity", VStr commodity) ].

Definition sample_events : DataFrame :=
  [ sample_event "Massive Cement Orders for New Zone in Haiphong" "Haiphong, Vietnam"
      (208449 # 10000) (1066881 # 10000) 2 "Construction" "Cement";
    sample_event "Lumber Stockpiling Detected in Texas Port" "Houston, USA"
      (297604 # 10000) (- 953698 # 10000) 4 "Construction" "Lumber";
    sample_event "Port Strike Threatens West Coast Logistics" "Los Angeles, USA"
      (340522 # 10000) (- 1182437 # 10000) 9 "Disruption" "General Cargo";
    sample_event "Railway Union Protest Blocks Freight" "Hamburg, Germany"
      (535511 # 10000) (99937 # 10000) 6 "Disruption" "Auto Parts";
    sample_event "Infrastructure Expansion: Bridge Materials Arriving" "Lagos, Nigeria"
      (65244 # 10000) (33792 # 10000) 5 "Construction" "Steel" ].

(** A stand-in for the cells pandas returns where it had to choose a type
    for a column: integers as floats, missing values as NaN. *)
Definition sample_cells : DataFrame -> dict -> string -> pyval :=
  fun _ row name =>
    match Py.dict_get row name (VFloat FNaN) with
    | VInt n => VFloat (FFinite (inject_Z n))
    | VNone => VFloat FNaN
    | v => v
    end.

(** A service that answers every prompt with one text. *)
Definition sample_service (reply : string) : string -> string -> res pyval :=
  fun _ _ => Ok (VStr reply).

(** A service that answers with the prompt it was sent. *)
Definition echo_service : string -> string -> res pyval :=
  fun _ prompt => Ok (VStr prompt).

(** A reply in the prescribed format, with the line break the service
    puts at its end. *)
Definition sample_brief : string :=
  well_formed_brief "Ports on two coasts are congested"
    "Strike at the port of Los Angeles"
    "Rail blockade around Hamburg"
    "Cement demand in Haiphong"
  +:+ newline.

(** Twenty events and one more. *)
Definition twenty_events : DataFrame :=
  List.repeat (sample_event "Railway Union Protest Blocks Freight" "Hamburg, Germany"
                 (535511 # 10000) (99937 # 10000) 6 "Disruption" "Auto Parts") 20.

Definition one_more_event : DataFrame :=
  [ sample_event "Port Strike Threatens West Coast Logistics" "Los Angeles, USA"
      (340522 # 10000) (- 1182437 # 10000) 9 "Disruption" "General Cargo" ].

(* ===================================================================== *)
(** ** The model on small inputs *)
(* ===================================================================== *)

Example strip_blanks : PyStr.strip (String "009" "  a b  " +:+ newline) = "a b".
Proof. reflexivity. Qed.

Example lower_ascii : PyStr.lower "Port STRIKE [Z]" = "port strike [z]".
Proof. reflexivity. Qed.

Example contains_substring :
  (PyStr.contains "port" "airport", PyStr.contains "" "", PyStr.contains "a" "")
  = (true, true, false).
Proof. reflexivity. Qed.

Example strip_fence_fenced :
  strip_fence ("```json" +:+ newline +:+ "{}" +:+ newline +:+ "```")
  = newline +:+ "{}" +:+ newline.
Proof. reflexivity. Qed.

Example strip_fence_plain : strip_fence "{}" = "{}".
Proof. reflexivity. Qed.

Example parse_int_samples :
  List.map PyStr.parse_int [" -1_000 "; "+7"; "007"; "1__0"; "_1"; "1_"; ""; "12a"]
  = [Some (-1000); Some 7; Some 7; None; None; None; None; None].
Proof. reflexivity. Qed.

Example int_truncates : Py.int (VFloat (FFinite (-7 # 2))) = Ok (-3).
Proof. reflexivity. Qed.

Example re_sub_T_lines :
  PyStr.re_sub_T false ("aT12:30xx" +:+ newline +:+ "bT01:02yy")
  = "a 12:30" +:+ newline +:+ "b 01:02".
Proof. reflexivity. Qed.

Example re_sub_T_no_match : PyStr.re_sub_T false "T1:23 Tuesday" = "T1:23 Tuesday".
Proof. reflexivity. Qed.

Example format_02d_samples :
  List.map PyStr.format_02d [0; 5; 12; 123; -1] = ["00"; "05"; "12"; "123"; "-1"].
Proof. reflexivity. Qed.

Example gdelt_timestamp_samples :
  List.map gdelt_timestamp [VStr "20240115123000"; VStr "2024"; VStr "20240115T123000Z"]
  = [Ok "20240115 12:30"; Ok "2024 00:00"; Ok "20240115 T1:23"].
Proof. reflexivity. Qed.

Example category_samples :
  List.map _category_from_title
    [VNone; VStr "Chip fab halts"; VStr "Export ban widens"; VStr "Cement SHORTAGE"]
  = [Ok "General"; Ok "Manufacturing"; Ok "Disruption"; Ok "Construction"].
Proof. reflexivity. Qed.

Example relevance_samples :
  List.map _supply_chain_relevance [VNone; VStr ""; VStr "Airport shipping"; VStr "Weather"]
  = [Ok 0; Ok 0; Ok 2; Ok 0].
Proof. reflexivity. Qed.

Example published_samples :
  List.map newsapi_pub_expr
    [VStr "2024-01-15T12:30:00Z"; VStr "Tue, 16 Jan 2024 10:00:00"; VStr "last week"]
  = [Ok (VStr "2024-01-15 12:30"); Ok (VStr "Tue, 16 Jan 2024"); Ok (VStr "last week")].
Proof. reflexivity. Qed.

Example health_index_samples :
  (calculate_health_index [], calculate_health_index sample_table) = (Ok 100, Ok 84).
Proof. reflexivity. Qed.

Example filter_events_samples :
  filter_events sample_events "Asia" "All" "All" "All" = Ok (List.firstn 1 sample_events)
  /\ filter_events sample_events "Europe" "All" "All" "All"
     = Ok (List.firstn 1 (List.skipn 3 sample_events))
  /\ filter_events sample_events "Africa" "All" "All" "All" = Ok (List.skipn 4 sample_events)
  /\ filter_events sample_events "All" "High" "All" "All"
     = Ok (List.firstn 1 (List.skipn 2 sample_events))
  /\ filter_events sample_events "All" "All" "Disruption" "Auto Parts"
     = Ok (List.firstn 1 (List.skipn 3 sample_events))
  /\ filter_events [] "Asia" "High" "Disruption" "Steel" = Ok []
  /\ filter_events [[]; []] "Asia" "High" "Disruption" "Steel" = Ok [[]; []]
  /\ filter_events [[("risk_score", VInt 2)]] "Asia" "All" "All" "All"
     = Raise (Exn KeyError "longitude")
  /\ filter_events [[("risk_score", VStr "high")]] "All" "High" "All" "All"
     = Raise (Py.type_error "'>=' not supported between these instances").
Proof. repeat split; vm_compute; reflexivity. Qed.

Example get_risk_color_samples :
  List.map get_risk_color [0; 3; 4; 6; 7; 10; 11]
  = [[34; 197; 94; 180]; [34; 197; 94; 180]; [245; 158; 11; 180]; [245; 158; 11; 180];
     [239; 68; 68; 180]; [239; 68; 68; 180]; [239; 68; 68; 180]].
Proof. reflexivity. Qed.

Example text_samples :
  PyText.split_lines ("a" +:+ newline +:+ newline +:+ "b" +:+ newline)
  = ["a"; ""; "b"; ""]
  /\ PyText.join newline ["a"; "b"; "c"] = "a" +:+ newline +:+ "b" +:+ newline +:+ "c"
  /\ PyText.remove_all "ab" 0 "xababyab" = "xy"
  /\ PyText.remove_all "aa" 0 "aaa" = "a"
  /\ PyText.second_part "--" "a--b--c" = Some "b"
  /\ PyText.second_part "--" "abc" = None
  /\ PyText.lstrip_chars (String.list_ascii_of_string "0123456789.)- ") "12) - Port strike"
     = "Port strike".
Proof. repeat split; vm_compute; reflexivity. Qed.

Example context_sample :
  _events_context_for_gemini offline_world sample_cells (List.firstn 2 sample_events) 20
  = "- [2/10] Massive Cement Orders for New Zone in Haiphong | Construction | Haiphong, Vietnam"
    +:+ newline
    +:+ "- [4/10] Lumber Stockpiling Detected in Texas Port | Construction | Houston, USA"
  /\ _events_context_for_gemini offline_world sample_cells [] 20
     = "No events in the current view."
  /\ _events_context_for_gemini offline_world sample_cells [[]; []] 20
     = "No events in the current view."
  /\ _events_context_for_gemini offline_world (fun _ _ name => VStr ("<" +:+ name +:+ ">"))
       [[("headline", VStr "Port strike"); ("risk_score", VInt 7)];
        [("headline", VStr "Rail blockade"); ("risk_score", VNone)]] 20
     = "- [<risk_score>/10] <headline> | ? | ?" +:+ newline
       +:+ "- [<risk_score>/10] <headline> | ? | ?".
Proof. repeat split; vm_compute; reflexivity. Qed.

Example brief_samples :
  get_executive_brief offline_world (sample_service sample_brief) sample_cells sample_events "k3y"
  = VDict [("summary", VStr "Ports on two coasts are congested");
           ("top_risks", VList [VStr "Strike at the port of Los Angeles";
                                VStr "Rail blockade around Hamburg";
                                VStr "Cement demand in Haiphong"])]
  /\ get_executive_brief offline_world (fun _ _ => Raise connection_error) sample_cells sample_events "k3y"
     = VDict [("error", VStr (exn_msg connection_error)); ("summary", VStr "");
              ("top_risks", VList [])]
  /\ get_executive_brief offline_world (sample_service sample_brief) sample_cells sample_events "  "
     = VDict [("error", VStr "No API key")]
  /\ ask_gemini_about_data offline_world (sample_service " Two ports. ") sample_cells sample_events
       "Which ports are at risk?" "k3y"
     = "Two ports.".
Proof. repeat split; vm_compute; reflexivity. Qed.

(* ===================================================================== *)
(** ** Strings *)
(* ===================================================================== *)

Lemma any_in_intro (ws : list string) (t k : string) :
  In k ws -> PyStr.contains k t = true -> any_in ws t = true.
Proof.
  intros Hin Hk. unfold any_in. apply existsb_exists. exists k. auto.
Qed.

Lemma prefix_app (p r : string) : String.prefix p (p +:+ r) = true.
Proof.
  induction p as [|c p IH]; simpl.
  - destruct r; reflexivity.
  - destruct (Ascii.ascii_dec c c); [exact IH | congruence].
Qed.

Lemma contains_of_prefix (needle hay : string) :
  String.prefix needle hay = true -> PyStr.contains needle hay = true.
Proof. intros H. destruct hay; simpl in *; rewrite H; reflexivity. Qed.

(** [needle in hay] holds of every string that has [needle] inside. *)
Lemma contains_app (needle a b : string) :
  PyStr.contains needle (a +:+ needle +:+ b) = true.
Proof.
  induction a as [|c a IH].
  - change (PyStr.contains needle (needle +:+ b) = true).
    apply contains_of_prefix, prefix_app.
  - simpl. rewrite IH. apply orb_true_r.
Qed.

Lemma append_cons (x : ascii) (a b : string) : String x a +:+ b = String x (a +:+ b).
Proof. reflexivity. Qed.

Lemma app_assoc_str (a b c : string) : (a +:+ b) +:+ c = a +:+ b +:+ c.
Proof.
  induction a as [|x a IH]; [reflexivity |].
  rewrite !append_cons. f_equal. exact IH.
Qed.

Lemma lower_app (a b : string) :
  PyStr.lower (a +:+ b) = PyStr.lower a +:+ PyStr.lower b.
Proof. induction a as [|c a IH]; simpl; [reflexivity | now rewrite IH]. Qed.

(* ===================================================================== *)
(** ** The category heuristic *)
(* ===================================================================== *)

Lemma or_empty_default (s : string) :
  Py.lower (Py.or (VStr s) (VStr "")) = Ok (PyStr.lower s).
Proof.
  unfold Py.or; simpl. destruct (String.eqb_spec s ""); subst; reflexivity.
Qed.

Lemma category_first_match (title : string) :
  _category_from_title (VStr title) = Ok (categorize_spec title).
Proof.
  unfold _category_from_title. rewrite or_empty_default. simpl.
  unfold categorize_spec, category_groups, first_match, any_in,
    construction_terms, disruption_terms.
  simpl existsb. rewrite ?orb_false_r, ?orb_assoc. reflexivity.
Qed.

(** C3: the keyword groups are tried in the order construction materials,
    disruption/blockade, shortage, factory/assembly, trade/sanction, and the
    first group that matches decides; so a title that has both a
    construction-material keyword and a disruption keyword (in any letter
    case) is categorized Construction, whatever else it contains. *)
Theorem category_priority (title : string) :
  _category_from_title (VStr title) = Ok (categorize_spec title)
  /\ (forall kc kd : string,
        In kc construction_terms -> In kd disruption_terms ->
        PyStr.contains kc (PyStr.lower title) = true ->
        PyStr.contains kd (PyStr.lower title) = true ->
        _category_from_title (VStr title) = Ok "Construction")
  /\ (forall a k b : string,
        title = a +:+ k +:+ b -> In (PyStr.lower k) construction_terms ->
        _category_from_title (VStr title) = Ok "Construction").
Proof.
  assert (Hfirst : forall kc, In kc construction_terms ->
            PyStr.contains kc (PyStr.lower title) = true ->
            _category_from_title (VStr title) = Ok "Construction").
  { intros kc Hc Hkc. rewrite category_first_match.
    unfold categorize_spec, category_groups, first_match.
    now rewrite (any_in_intro _ _ _ Hc Hkc). }
  split; [apply category_first_match | split].
  - intros kc kd Hc _ Hkc _. now apply (Hfirst kc).
  - intros a k b -> Hk. apply (Hfirst _ Hk).
    rewrite !lower_app. apply contains_app.
Qed.

Lemma category_priority_witness :
  _category_from_title (VStr "Steel workers STRIKE at the port") = Ok "Construction".
Proof.
  apply (proj1 (proj2 (category_priority "Steel workers STRIKE at the port"))
           "steel" "strike");
    vm_compute; auto.
Defined.

(* ===================================================================== *)
(** ** The risk heuristic *)
(* ===================================================================== *)

Lemma or_optional (o : option string) :
  Py.or (of_optional o) (VStr "") = VStr (default "" o).
Proof.
  destruct o as [s|]; [|reflexivity].
  unfold Py.or; simpl. destruct (String.eqb_spec s ""); subst; reflexivity.
Qed.

Lemma heuristic_risk_range (title description : pyval) (n : Z) :
  _heuristic_risk_from_text title description = Ok n -> 1 <= n <= 5.
Proof.
  unfold _heuristic_risk_from_text.
  destruct (Py.add_str (Py.or title (VStr "")) (VStr " ")) as [e|t0];
    cbn [res_bind]; [discriminate |].
  destruct (Py.add_str (VStr t0) (Py.or description (VStr ""))) as [e|t1];
    cbn [res_bind]; [discriminate |].
  repeat match goal with
         | |- (if ?b then _ else _) = _ -> _ => destruct b
         end; intros H; inversion H; cbn; lia.
Qed.

(** C4: whenever the risk heuristic returns, the result is an integer in
    1..5; for string or missing arguments it always returns, and the
    result is decided by the first tier that matches the lowercased text
    [title + " " + description]: a crisis-tier term gives 4 whatever lower
    tiers also match, else a disruption-tier term gives 3, else a generic
    supply-chain term gives 2, else 1. *)
Theorem heuristic_risk_tiers (title description : option string) :
  let t := PyStr.lower (default "" title +:+ " " +:+ default "" description) in
  (forall (a b : pyval) (n : Z), _heuristic_risk_from_text a b = Ok n -> 1 <= n <= 5)
  /\ exists r : Z,
    _heuristic_risk_from_text (of_optional title) (of_optional description) = Ok r
    /\ 1 <= r <= 5
    /\ (any_in crisis_terms t = true -> r = 4)
    /\ (any_in crisis_terms t = false ->
        any_in disruption_tier_terms t = true -> r = 3)
    /\ (any_in crisis_terms t = false -> any_in disruption_tier_terms t = false ->
        any_in generic_terms t = true -> r = 2)
    /\ (any_in crisis_terms t = false -> any_in disruption_tier_terms t = false ->
        any_in generic_terms t = false -> r = 1).
Proof.
  intros t. split; [exact heuristic_risk_range |].
  unfold _heuristic_risk_from_text.
  rewrite !or_optional.
  cbn [Py.add_str res_bind].
  replace ((default "" title +:+ " ") +:+ default "" description)
    with (default "" title +:+ " " +:+ default "" description)
    by (symmetry; apply app_assoc_str).
  fold t. fold crisis_terms disruption_tier_terms generic_terms.
  destruct (any_in crisis_terms t) eqn:E1;
    [| destruct (any_in disruption_tier_terms t) eqn:E2;
       [| destruct (any_in generic_terms t) eqn:E3 ] ];
    eexists; (split; [reflexivity |]); repeat split;
    intros; try discriminate; try reflexivity; cbn; lia.
Qed.

Lemma heuristic_risk_tiers_witness :
  _heuristic_risk_from_text (VStr "Port strike causes shipping delay") VNone = Ok 4.
Proof.
  destruct (heuristic_risk_tiers (Some "Port strike causes shipping delay") None)
    as (_ & r & Hr & _ & H4 & _).
  rewrite (H4 eq_refl) in Hr. exact Hr.
Defined.

(* ===================================================================== *)
(** ** The health index *)
(* ===================================================================== *)

Lemma count_true_map {A} (f : A -> bool) (l : list A) :
  count_true (List.map f l) = Z.of_nat (length (List.filter f l)).
Proof.
  unfold count_true. f_equal.
  induction l as [|x l IH]; simpl; [reflexivity |].
  destruct (f x); simpl; now rewrite IH.
Qed.

Lemma column_present (name : string) (df : DataFrame) :
  Forall (fun row => exists v, Py.lookup name row = Some v) df -> df <> [] ->
  column name df = Ok (List.map (fun row => Py.dict_get row name (VFloat FNaN)) df).
Proof.
  intros Hall Hne. unfold column.
  destruct df as [|row df]; [congruence |].
  inversion Hall as [|? ? [v Hv] _]; subst. simpl. now rewrite Hv.
Qed.

Lemma cells_ge_int (k : Z) (df : DataFrame) :
  Forall (fun row => exists n, Py.lookup "risk_score" row = Some (VInt n)) df ->
  cells_ge k (List.map (fun row => Py.dict_get row "risk_score" (VFloat FNaN)) df)
  = Ok (List.map (fun row => match Py.lookup "risk_score" row with
                             | Some (VInt n) => k <=? n
                             | _ => false
                             end) df).
Proof.
  induction 1 as [|row df [n Hn] _ IH]; [reflexivity |].
  cbn [List.map cells_ge]. rewrite IH. unfold Py.dict_get. rewrite Hn. reflexivity.
Qed.

Lemma category_cells (df : DataFrame) :
  List.map (cell_eq_str "Disruption")
           (List.map (fun row => Py.dict_get row "category" (VFloat FNaN)) df)
  = List.map (fun row => match Py.lookup "category" row with
                         | Some (VStr c) => String.eqb c "Disruption"
                         | _ => false
                         end) df.
Proof.
  rewrite List.map_map. apply List.map_ext. intros row. unfold Py.dict_get.
  destruct (Py.lookup "category" row) as [[]|]; reflexivity.
Qed.

Lemma frame_empty_schema (events_df : DataFrame) :
  schema_ok events_df -> events_df <> [] -> frame_empty events_df = false.
Proof.
  intros Hok Hne. destruct events_df as [|row df]; [congruence |].
  inversion Hok as [|? ? [[n Hn] _] _]; subst.
  destruct row; [discriminate | reflexivity].
Qed.

(** C10, as the claim states it, fails: the health index does not return
    for every table.  A table with rows that has no risk_score column, or
    no category column, makes it raise [KeyError]. *)
Lemma health_index_raises_without_columns :
  calculate_health_index [[("headline", VStr "Port strike")]]
  = Raise (Exn KeyError "risk_score")
  /\ calculate_health_index [[("risk_score", VInt 9)]]
     = Raise (Exn KeyError "category").
Proof. split; reflexivity. Qed.

(** C10, amended: whenever the health index returns, the result is an
    integer in 0..100; it returns 100 for an empty table, one without rows
    or without columns; on a table whose rows all have an integer
    risk_score and a category it always returns, and the result is 100
    minus 5 for each row with risk_score at least 7 minus 3 for each row of
    category Disruption, raised to 0 when negative; on a table that is not
    empty and has no risk_score column it raises [KeyError]. *)
Theorem health_index_range (events_df : DataFrame) :
  (forall h : Z, calculate_health_index events_df = Ok h -> 0 <= h <= 100)
  /\ (frame_empty events_df = true -> calculate_health_index events_df = Ok 100)
  /\ (schema_ok events_df ->
      exists h : Z,
        calculate_health_index events_df = Ok h
        /\ 0 <= h <= 100
        /\ h = Z.max 0 (100 - 5 * high_risk_count events_df
                            - 3 * disruption_count events_df))
  /\ (frame_empty events_df = false ->
      Forall (fun row => Py.lookup "risk_score" row = None) events_df ->
      calculate_health_index events_df = Raise (Exn KeyError "risk_score")).
Proof.
  split; [| split; [| split]].
  { unfold calculate_health_index. destruct (frame_empty events_df).
    - intros h H. inversion H. lia.
    - destruct (column "risk_score" events_df) as [e|risk]; cbn [res_bind];
        [discriminate |].
      destruct (cells_ge 7 risk) as [e|mask]; cbn [res_bind]; [discriminate |].
      destruct (column "category" events_df) as [e|category]; cbn [res_bind];
        [discriminate |].
      intros h H. inversion H. lia. }
  { intros Hempty. unfold calculate_health_index. rewrite Hempty. reflexivity. }
  { intros Hok. unfold calculate_health_index.
    destruct events_df as [|row df] eqn:E.
    - exists 100. cbn. repeat split; try lia; try reflexivity.
    - rewrite <- E in *. assert (Hne : events_df <> []) by (rewrite E; discriminate).
      rewrite (frame_empty_schema _ Hok Hne).
      assert (Hrisk : Forall (fun row => exists v, Py.lookup "risk_score" row = Some v)
                             events_df).
      { eapply Forall_impl; [exact Hok |]. intros r [[n Hn] _]. eauto. }
      assert (Hcat : Forall (fun row => exists v, Py.lookup "category" row = Some v)
                            events_df).
      { eapply Forall_impl; [exact Hok |]. intros r [_ Hc]. exact Hc. }
      assert (Hint : Forall (fun row => exists n, Py.lookup "risk_score" row = Some (VInt n))
                            events_df).
      { eapply Forall_impl; [exact Hok |]. intros r [Hn _]. exact Hn. }
      rewrite (column_present _ _ Hrisk Hne). cbn [res_bind].
      rewrite (cells_ge_int _ _ Hint). cbn [res_bind].
      rewrite (column_present _ _ Hcat Hne). cbn [res_bind].
      rewrite category_cells, !count_true_map.
      fold (high_risk_count events_df). fold (disruption_count events_df).
      assert (0 <= high_risk_count events_df) by (unfold high_risk_count; lia).
      assert (0 <= disruption_count events_df) by (unfold disruption_count; lia).
      eexists. split; [reflexivity |]. repeat split; lia. }
  intros Hne Hnone. unfold calculate_health_index, column. rewrite Hne.
  replace (existsb _ events_df) with false; [reflexivity |].
  symmetry. clear Hne. induction Hnone as [|row df Hrow _ IH]; [reflexivity |].
  cbn [existsb]. rewrite Hrow, IH. reflexivity.
Qed.

Lemma health_index_range_witness :
  schema_ok sample_table /\ calculate_health_index sample_table = Ok 84.
Proof.
  assert (Hok : schema_ok sample_table).
  { repeat constructor; eexists; reflexivity. }
  split; [exact Hok |].
  destruct (health_index_range sample_table) as (_ & _ & Hschema & _).
  destruct (Hschema Hok) as (h & Hh & _ & Heq).
  rewrite Hh. f_equal. rewrite Heq. reflexivity.
Defined.

(* ===================================================================== *)
(** ** Reasoning about computations *)
(* ===================================================================== *)

Lemma bind_ok {A B} (c : M A) (k : A -> M B) (s s' : State) (b : B) :
  bind c k s = (Ok b, s') ->
  exists a s1, c s = (Ok a, s1) /\ k a s1 = (Ok b, s').
Proof.
  unfold bind. destruct (c s) as [[e|a] s1]; [discriminate |]. eauto.
Qed.

Lemma lift_ok {A} (r : res A) (s s' : State) (a : A) :
  lift r s = (Ok a, s') -> r = Ok a /\ s' = s.
Proof. unfold lift. intros H. inversion H. auto. Qed.

Lemma ret_ok {A} (x a : A) (s s' : State) :
  ret x s = (Ok a, s') -> a = x /\ s' = s.
Proof. unfold ret. intros H. inversion H. auto. Qed.

Lemma res_bind_ok {A B} (c : res A) (k : A -> res B) (b : B) :
  res_bind c k = Ok b -> exists a, c = Ok a /\ k a = Ok b.
Proof. destruct c; simpl; [discriminate | eauto]. Qed.

(** Takes apart a hypothesis saying that a chain of binds returned. *)
Ltac inv_ok :=
  repeat match goal with
    | H : bind _ _ _ = (Ok _, _) |- _ =>
        let a := fresh "a" in let s := fresh "s" in let Ha := fresh "Hrun" in
        apply bind_ok in H; destruct H as (a & s & Ha & H)
    | H : lift _ _ = (Ok _, _) |- _ =>
        let E := fresh "E" in apply lift_ok in H; destruct H as [E ->]
    | H : ret _ _ = (Ok _, _) |- _ =>
        let E := fresh "E" in apply ret_ok in H; destruct H as [E ->]
    | H : res_bind _ _ = Ok _ |- _ =>
        let a := fresh "a" in let Ha := fresh "Hres" in
        apply res_bind_ok in H; destruct H as (a & Ha & H)
    end.

Lemma total_ret {A} (a : A) : total (ret a).
Proof. intros s. unfold ret. eauto. Qed.

Lemma total_bind {A B} (c : M A) (k : A -> M B) :
  total c -> (forall a, total (k a)) -> total (bind c k).
Proof.
  intros Hc Hk s. unfold bind. destruct (Hc s) as (a & s1 & ->). apply Hk.
Qed.

Lemma total_try_except {A} (c : M A) (h : exn -> M A) :
  (forall e, total (h e)) -> total (try_except c h).
Proof.
  intros Hh s. unfold try_except. destruct (c s) as [[e|a] s1]; [apply Hh | eauto].
Qed.

Lemma total_sidebar_warning (text : string) : total (sidebar_warning text).
Proof. intros s. unfold sidebar_warning. eauto. Qed.

Lemma total_sidebar_info (text : string) : total (sidebar_info text).
Proof. intros s. unfold sidebar_info. eauto. Qed.

Create HintDb total.
#[local] Hint Resolve total_ret total_bind total_try_except
  total_sidebar_warning total_sidebar_info : total.

Lemma total_cache_data {K} `{Countable K}
    (load : State -> gmap K cache_entry) (store : gmap K cache_entry -> State -> State)
    (ttl : Z) (key : K) (f : M DataFrame) :
  total f -> total (cache_data load store ttl key f).
Proof.
  intros Hf s. unfold cache_data.
  destruct (Hf s) as (df & s1 & ->).
  destruct (load s !! key) as [entry|]; [destruct (clock s <? created_at entry + ttl) |]; eauto.
Qed.

Section Totality.

Context (w : World).

Lemma total_fetch_gdelt_events_except (e : exn) : total (fetch_gdelt_events_except e).
Proof.
  unfold fetch_gdelt_events_except.
  destruct (exn_class_of e) as [response| | | | | | |]; auto with total.
  destruct (match response with Some code => code =? 429 | None => false end);
    auto with total.
Qed.

Lemma total_fetch_gdelt_events_body (query : string) (max_records : Z) :
  total (fetch_gdelt_events_body w query max_records).
Proof. apply total_try_except, total_fetch_gdelt_events_except. Qed.

Lemma total_fetch_newsapi_events_body (api_key query : string) :
  total (fetch_newsapi_events_body w api_key query).
Proof.
  unfold fetch_newsapi_events_body.
  destruct (String.eqb api_key "" || String.eqb (PyStr.strip api_key) "");
    auto with total.
Qed.

Lemma total_rss_feed (feed_url : string) (rows : DataFrame) :
  total (rss_feed w feed_url rows).
Proof.
  intros s. unfold rss_feed.
  match goal with |- context [match ?c s with _ => _ end] => destruct (c s) as [[e|[feed es]] s1] end;
    [eauto |].
  destruct (rss_entries w feed feed_url es rows s1) as [[rows' o] s2]. eauto.
Qed.

Lemma total_rss_feeds (feeds : list string) (rows : DataFrame) :
  total (rss_feeds w feeds rows).
Proof.
  revert rows. induction feeds as [|u feeds IH]; intros rows; simpl.
  - apply total_ret.
  - apply total_bind; [apply total_rss_feed | intros a; apply IH].
Qed.

Lemma total_fetch_rss_events : total (fetch_rss_events w).
Proof.
  unfold fetch_rss_events. destruct (feedparser_available w); cbn [negb].
  - apply total_rss_feeds.
  - apply total_ret.
Qed.

Lemma total_fetch_gdelt_events (query : string) (max_records : Z) :
  total (fetch_gdelt_events w query max_records).
Proof. apply total_cache_data, total_fetch_gdelt_events_body. Qed.

Lemma total_fetch_newsapi_events (api_key query : string) :
  total (fetch_newsapi_events w api_key query).
Proof. apply total_cache_data, total_fetch_newsapi_events_body. Qed.

End Totality.

(* ===================================================================== *)
(** ** The orchestrator *)
(* ===================================================================== *)

Lemma try_rss_run (w : World) (s : State) :
  exists T s3,
    fetch_rss_events w s = (Ok T, s3)
    /\ (T <> [] ->
        try_rss w s = (Ok T, noted "Using **RSS** feeds (GDELT/NewsAPI unavailable)." s3))
    /\ (T = [] -> try_rss w s = (Ok [], s3)).
Proof.
  destruct (total_fetch_rss_events w s) as (T & s3 & HT).
  exists T, s3. split; [exact HT |].
  unfold try_rss, bind. rewrite HT.
  destruct T as [|row T]; split; intros H; try congruence; reflexivity.
Qed.

(** C1: the orchestrator calls the primary fetcher and returns its table
    when it is not empty, running nothing else; otherwise, when a
    NewsAPI key is configured, it calls the secondary fetcher and returns
    its table when not empty; otherwise it calls the RSS fetcher and
    returns its table, which is the empty table when RSS found nothing.
    The table returned is always the output of one fetcher. *)
Theorem live_events_fallback (w : World) (s : State) :
  exists (P : DataFrame) (s1 : State),
    fetch_gdelt_events w GDELT_KEYWORDS MAX_GDELT_RECORDS s = (Ok P, s1)
    /\ (P <> [] -> get_live_events w s = (Ok P, s1))
    /\ (P = [] ->
        exists (S : DataFrame) (s2 : State),
          (if String.eqb (newsapi_key w) "" then S = [] /\ s2 = s1
           else fetch_newsapi_events w (newsapi_key w) NEWSAPI_KEYWORDS s1 = (Ok S, s2))
          /\ (S <> [] ->
              get_live_events w s
              = (Ok S, noted "Using **NewsAPI** (GDELT was empty or rate-limited)." s2))
          /\ (S = [] ->
              exists (T : DataFrame) (s3 : State),
                fetch_rss_events w s2 = (Ok T, s3)
                /\ (T <> [] ->
                    get_live_events w s
                    = (Ok T, noted "Using **RSS** feeds (GDELT/NewsAPI unavailable)." s3))
                /\ (T = [] -> get_live_events w s = (Ok [], s3)))).
Proof.
  destruct (total_fetch_gdelt_events w GDELT_KEYWORDS MAX_GDELT_RECORDS s) as (P & s1 & HP).
  exists P, s1. split; [exact HP |].
  unfold get_live_events, bind. rewrite HP.
  destruct P as [|row P]; (split; [intros H | intros H; try discriminate]);
    try congruence; try reflexivity.
  cbn [df_empty negb].
  destruct (String.eqb (newsapi_key w) "") eqn:Hkey; cbn [negb].
  - exists [], s1. split; [auto |]. split; [congruence |]. intros _.
    destruct (try_rss_run w s1) as (T & s3 & HT & Hne & He). exists T, s3. auto.
  - destruct (total_fetch_newsapi_events w (newsapi_key w) NEWSAPI_KEYWORDS s1)
      as (S & s2 & HS).
    exists S, s2. split; [exact HS |]. rewrite HS.
    destruct S as [|r2 S]; (split; [intros H' | intros H'; try discriminate]);
      try congruence; try reflexivity.
    destruct (try_rss_run w s2) as (T & s3 & HT & Hne & He). exists T, s3. auto.
Qed.

Lemma live_events_fallback_witness :
  exists s1 s2 : State,
    fetch_gdelt_events secondary_world GDELT_KEYWORDS MAX_GDELT_RECORDS initial_state
    = (Ok [], s1)
    /\ fetch_newsapi_events secondary_world "k3y" NEWSAPI_KEYWORDS s1 = (Ok [sample_row], s2)
    /\ fst (get_live_events secondary_world initial_state) = Ok [sample_row].
Proof.
  destruct (live_events_fallback secondary_world initial_state)
    as (P & s1 & HP & _ & Hempty).
  assert (E1 : fst (fetch_gdelt_events secondary_world GDELT_KEYWORDS
                      MAX_GDELT_RECORDS initial_state) = Ok [])
    by (vm_compute; reflexivity).
  assert (E2 : fst (fetch_newsapi_events secondary_world "k3y" NEWSAPI_KEYWORDS
                      (snd (fetch_gdelt_events secondary_world GDELT_KEYWORDS
                              MAX_GDELT_RECORDS initial_state))) = Ok [sample_row])
    by (vm_compute; reflexivity).
  rewrite HP in E1, E2. cbn [fst snd] in E1, E2. injection E1 as ->.
  destruct (Hempty eq_refl) as (S & s2 & HS & Hne & _).
  change (String.eqb (newsapi_key secondary_world) "") with false in HS.
  change (newsapi_key secondary_world) with "k3y" in HS.
  rewrite HS in E2. cbn [fst] in E2. injection E2 as ->.
  exists s1, s2. split; [exact HP |]. split; [exact HS |].
  rewrite Hne; [reflexivity | discriminate].
Defined.

(* ===================================================================== *)
(** ** What a computation leaves alone *)
(* ===================================================================== *)

Lemma with_rng_same (s : State) : s = with_rng (rng s) s.
Proof. destruct s; reflexivity. Qed.

Lemma with_rng_twice (n m : nat) (s : State) : with_rng n (with_rng m s) = with_rng n s.
Proof. destruct s; reflexivity. Qed.

Lemma quiet_ret {A} (a : A) : quiet (ret a).
Proof. intros s r s' H. inversion H. apply with_rng_same. Qed.

Lemma quiet_lift {A} (x : res A) : quiet (lift x).
Proof. intros s r s' H. inversion H. apply with_rng_same. Qed.

Lemma quiet_bind {A B} (c : M A) (k : A -> M B) :
  quiet c -> (forall a, quiet (k a)) -> quiet (bind c k).
Proof.
  intros Hc Hk s r s' H. unfold bind in H.
  destruct (c s) as [[e|a] s1] eqn:E.
  - inversion H; subst. eapply Hc; eauto.
  - apply Hk in H. apply Hc in E. rewrite H, E. apply with_rng_twice.
Qed.

Create HintDb quiet.
#[local] Hint Resolve quiet_ret quiet_lift : quiet.

(** Splits a goal [quiet c] along the binds and branches of [c]. *)
Ltac quiet_step :=
  match goal with
  | |- quiet (bind _ _) => apply quiet_bind; [| intros ?]
  | |- quiet (ret _) => apply quiet_ret
  | |- quiet (lift _) => apply quiet_lift
  | |- quiet (if ?b then _ else _) => destruct b
  | |- quiet (match ?x with _ => _ end) => destruct x
  | |- quiet _ => solve [auto with quiet]
  end.
Ltac quiet_tac := repeat quiet_step.

Section Quiet.

Context (w : World).

Lemma quiet_uniform (a b : Z) : quiet (uniform w a b).
Proof. intros s r s' H. inversion H. reflexivity. Qed.

Lemma quiet_now_strftime (fmt : string) : quiet (now_strftime w fmt).
Proof. intros s r s' H. inversion H. apply with_rng_same. Qed.

Lemma quiet_raise_for_status (r : http_response) : quiet (raise_for_status r).
Proof. unfold raise_for_status. quiet_tac. Qed.

#[local] Hint Resolve quiet_uniform quiet_now_strftime quiet_raise_for_status : quiet.

Lemma quiet_event_row (headline snippet source source_url timestamp risk_score : pyval) :
  quiet (_event_row w headline snippet source source_url timestamp risk_score).
Proof. unfold _event_row. quiet_tac. Qed.

#[local] Hint Resolve quiet_event_row : quiet.

Lemma quiet_gdelt_article (art : pyval) : quiet (gdelt_article w art).
Proof. unfold gdelt_article. quiet_tac. Qed.

Lemma quiet_newsapi_published (pub : pyval) : quiet (newsapi_published w pub).
Proof. unfold newsapi_published. quiet_tac. Qed.

#[local] Hint Resolve quiet_newsapi_published : quiet.

Lemma quiet_newsapi_article (art : pyval) : quiet (newsapi_article w art).
Proof. unfold newsapi_article. quiet_tac. Qed.

Lemma quiet_for_rows (body : pyval -> M (option dict)) (xs : list pyval) (rows : DataFrame) :
  (forall x, quiet (body x)) -> quiet (for_rows body xs rows).
Proof.
  intros Hbody. revert rows.
  induction xs as [|x xs IH]; intros rows; simpl; [apply quiet_ret |].
  apply quiet_bind; [apply Hbody |]. intros [row|]; apply IH.
Qed.

End Quiet.

(* ===================================================================== *)
(** ** The result cache *)
(* ===================================================================== *)

Section CacheData.

Context {K : Type} `{Countable K}.
Context (load : State -> gmap K cache_entry).
Context (store : gmap K cache_entry -> State -> State).
Context (load_store : forall c s, load (store c s) = c).
Context (clock_store : forall c s, clock (store c s) = clock s).
Context (body : K -> M DataFrame).
Context (body_total : forall key, total (body key)).

Lemma cache_hit (key : K) (s : State) (e : cache_entry) :
  load s !! key = Some e -> clock s < created_at e + CACHE_TTL ->
  cache_data load store CACHE_TTL key (body key) s = (Ok (cached_value e), s).
Proof.
  intros He Hfresh. unfold cache_data. rewrite He.
  apply Z.ltb_lt in Hfresh. now rewrite Hfresh.
Qed.

Lemma cache_expired (key : K) (s : State) (e : cache_entry) :
  load s !! key = Some e -> created_at e + CACHE_TTL <= clock s ->
  exists df s',
    body key s = (Ok df, s')
    /\ cache_data load store CACHE_TTL key (body key) s
       = (Ok df, store (<[key := CacheEntry df (clock s')]> (load s')) s').
Proof.
  intros He Hold. destruct (body_total key s) as (df & s' & Hb).
  exists df, s'. split; [exact Hb |].
  unfold cache_data. rewrite He, Hb.
  apply Z.ltb_ge in Hold. now rewrite Hold.
Qed.

Lemma cache_absent (key : K) (s : State) :
  load s !! key = None ->
  exists df s',
    body key s = (Ok df, s')
    /\ cache_data load store CACHE_TTL key (body key) s
       = (Ok df, store (<[key := CacheEntry df (clock s')]> (load s')) s').
Proof.
  intros He. destruct (body_total key s) as (df & s' & Hb).
  exists df, s'. split; [exact Hb |].
  unfold cache_data. now rewrite He, Hb.
Qed.

Lemma cache_data_policy :
  ttl_policy load store (fun key => cache_data load store CACHE_TTL key (body key)) body.
Proof.
  intros key s.
  assert (Hstored : forall df s', 
            let s1 := store (<[key := CacheEntry df (clock s')]> (load s')) s' in
            load s1 !! key = Some (CacheEntry df (clock s'))
            /\ clock s1 < created_at (CacheEntry df (clock s')) + CACHE_TTL).
  { intros df s'. cbn. rewrite load_store, clock_store, lookup_insert_eq.
    unfold CACHE_TTL. split; [reflexivity | lia]. }
  assert (Hrest : forall (df : DataFrame) (e : cache_entry), cached_value e = df ->
     (forall s2, load s2 !! key = Some e -> clock s2 < created_at e + CACHE_TTL ->
        cache_data load store CACHE_TTL key (body key) s2 = (Ok df, s2))
     /\ (forall s2, load s2 !! key = Some e -> created_at e + CACHE_TTL <= clock s2 ->
        exists df' s2',
          body key s2 = (Ok df', s2')
          /\ cache_data load store CACHE_TTL key (body key) s2
             = (Ok df', store (<[key := CacheEntry df' (clock s2')]> (load s2')) s2'))).
  { intros df e <-. split.
    - intros s2. apply cache_hit.
    - intros s2. apply cache_expired. }
  destruct (load s !! key) as [e|] eqn:He.
  - destruct (Z.lt_ge_cases (clock s) (created_at e + CACHE_TTL)) as [Hfresh|Hold].
    + exists (cached_value e), s, e.
      split; [now apply cache_hit |]. repeat (split; [solve [auto] |]).
      now apply Hrest.
    + destruct (cache_expired key s e He Hold) as (df & s' & Hb & Hc).
      destruct (Hstored df s') as [Hl Hf].
      eexists df, _, _. split; [exact Hc |]. split; [exact Hl |].
      split; [reflexivity |]. split; [exact Hf |]. now apply Hrest.
  - destruct (cache_absent key s He) as (df & s' & Hb & Hc).
    destruct (Hstored df s') as [Hl Hf].
    eexists df, _, _. split; [exact Hc |]. split; [exact Hl |].
    split; [reflexivity |]. split; [exact Hf |]. now apply Hrest.
Qed.

End CacheData.

Section Frames.

Context (w : World).

Lemma fetch_gdelt_events_except_run (e : exn) (s : State) :
  exists msg, fetch_gdelt_events_except e s = (Ok [], warned msg s).
Proof.
  unfold fetch_gdelt_events_except.
  destruct (exn_class_of e) as [response| | | | | | |];
    try (eexists; reflexivity).
  destruct (match response with Some code => code =? 429 | None => false end);
    eexists; reflexivity.
Qed.

(** The [try] block issues one request; then it either reports the rate
    limit and returns the empty table, or goes on quietly. *)
Lemma fetch_gdelt_events_try_frame (query : string) (max_records : Z)
    (s s' : State) (r : res DataFrame) :
  fetch_gdelt_events_try w query max_records s = (r, s') ->
  (exists msg, r = Ok [] /\ s' = warned msg (after_request s))
  \/ s' = with_rng (rng s') (after_request s).
Proof.
  unfold fetch_gdelt_events_try. unfold bind at 1. unfold requests_get.
  fold (after_request s).
  destruct (http_get w (gdelt_url query max_records) (net_calls s)) as [e|response].
  - intros H. inversion H. right. apply with_rng_same.
  - destruct (status_code response =? 429).
    + intros H. inversion H. left. eauto.
    + intros H. right. revert H.
      match goal with |- ?c _ = _ -> _ => assert (Hq : quiet c) end.
      { apply quiet_bind; [apply quiet_raise_for_status | intros _].
        apply quiet_bind; [apply quiet_lift | intros data].
        apply quiet_bind; [apply quiet_lift | intros articles].
        destruct (negb (Py.truthy articles)); [apply quiet_ret |].
        apply quiet_bind; [apply quiet_lift | intros arts].
        apply quiet_for_rows, quiet_gdelt_article. }
      apply Hq.
Qed.

(** The primary fetcher issues exactly one request per run and leaves
    the clock and the caches alone. *)
Lemma fetch_gdelt_events_body_frame (query : string) (max_records : Z)
    (s s' : State) (r : res DataFrame) :
  fetch_gdelt_events_body w query max_records s = (r, s') ->
  net_calls s' = S (net_calls s) /\ clock s' = clock s
  /\ gdelt_cache s' = gdelt_cache s /\ newsapi_cache s' = newsapi_cache s.
Proof.
  unfold fetch_gdelt_events_body, try_except.
  destruct (fetch_gdelt_events_try w query max_records s) as [[e|df] s1] eqn:E;
    apply fetch_gdelt_events_try_frame in E.
  - destruct (fetch_gdelt_events_except_run e s1) as [msg ->].
    intros H. inversion H; subst.
    destruct E as [(m & Hr & _) | ->]; [discriminate |]. auto.
  - intros H. inversion H; subst.
    destruct E as [(m & _ & ->) | ->]; auto.
Qed.

(** The secondary fetcher issues one request when it has a key, none
    otherwise. *)
Lemma fetch_newsapi_events_body_frame (api_key query : string)
    (s s' : State) (r : res DataFrame) :
  fetch_newsapi_events_body w api_key query s = (r, s') ->
  net_calls s' = (if String.eqb api_key "" || String.eqb (PyStr.strip api_key) ""
                  then net_calls s else S (net_calls s))
  /\ clock s' = clock s /\ sidebar s' = sidebar s
  /\ gdelt_cache s' = gdelt_cache s /\ newsapi_cache s' = newsapi_cache s.
Proof.
  unfold fetch_newsapi_events_body.
  destruct (String.eqb api_key "" || String.eqb (PyStr.strip api_key) "").
  - intros H. inversion H. auto.
  - unfold try_except.
    assert (Htry : forall r1 s1, fetch_newsapi_events_try w api_key query s = (r1, s1) ->
                     s1 = with_rng (rng s1) (after_request s)).
    { unfold fetch_newsapi_events_try. unfold bind at 1. unfold requests_get.
      fold (after_request s).
      destruct (http_get w (newsapi_url w api_key query) (net_calls s)) as [e|response].
      - intros r1 s1 H. inversion H. apply with_rng_same.
      - intros r1 s1.
        match goal with |- ?c _ = _ -> _ => assert (Hq : quiet c) end.
        { destruct (status_code response =? 429); [apply quiet_ret |].
          apply quiet_bind; [apply quiet_raise_for_status | intros _].
          apply quiet_bind; [apply quiet_lift | intros data].
          apply quiet_bind; [apply quiet_lift | intros a].
          apply quiet_bind; [apply quiet_lift | intros arts].
          apply quiet_for_rows, quiet_newsapi_article. }
        apply Hq. }
    destruct (fetch_newsapi_events_try w api_key query s) as [[e|df] s1];
      pose proof (Htry _ _ eq_refl) as E; intros H; inversion H; subst;
      rewrite E; auto.
Qed.

End Frames.

(** C2: both cached fetchers follow the 600-second policy: a call leaves
    a valid entry with the table it returned; a call with the same
    arguments while that entry is younger than 600 seconds returns the same
    table and leaves the state, and with it the count of requests, as it
    was; once the entry is 600 seconds old the call runs the fetcher again,
    which for the primary fetcher issues a new request, and replaces the
    entry; and the refresh action empties both caches whatever the age of
    their entries and whatever the data mode. *)
Theorem cache_ttl_policy (w : World) :
  ttl_policy gdelt_cache with_gdelt_cache
    (fun key => fetch_gdelt_events w (fst key) (snd key))
    (fun key => fetch_gdelt_events_body w (fst key) (snd key))
  /\ ttl_policy newsapi_cache with_newsapi_cache
       (fun key => fetch_newsapi_events w (fst key) (snd key))
       (fun key => fetch_newsapi_events_body w (fst key) (snd key))
  /\ (forall query max_records s r s',
        fetch_gdelt_events_body w query max_records s = (r, s') ->
        net_calls s' = S (net_calls s))
  /\ (forall data_mode s,
        exists s', refresh_data data_mode s = (Ok tt, s')
                   /\ gdelt_cache s' = ∅ /\ newsapi_cache s' = ∅
                   /\ clock s' = clock s /\ net_calls s' = net_calls s).
Proof.
  split; [| split; [| split]].
  - intros [query max_records] s.
    apply (cache_data_policy gdelt_cache with_gdelt_cache
             ltac:(reflexivity) ltac:(reflexivity)
             (fun key => fetch_gdelt_events_body w (fst key) (snd key))
             ltac:(intros; apply total_fetch_gdelt_events_body)
             (query, max_records) s).
  - intros [api_key query] s.
    apply (cache_data_policy newsapi_cache with_newsapi_cache
             ltac:(reflexivity) ltac:(reflexivity)
             (fun key => fetch_newsapi_events_body w (fst key) (snd key))
             ltac:(intros; apply total_fetch_newsapi_events_body)
             (api_key, query) s).
  - intros query max_records s r s' H.
    now apply fetch_gdelt_events_body_frame in H.
  - intros data_mode s. unfold refresh_data.
    destruct (String.eqb data_mode "Mock"); eexists; (split; [reflexivity |]); auto.
Qed.

Lemma with_clock_fields (t : Z) (s : State) :
  clock (with_clock t s) = t /\ gdelt_cache (with_clock t s) = gdelt_cache s
  /\ net_calls (with_clock t s) = net_calls s.
Proof. destruct s; auto. Qed.

Lemma cache_ttl_policy_witness :
  exists (df : DataFrame) (s1 : State),
    fetch_gdelt_events gdelt_world GDELT_KEYWORDS MAX_GDELT_RECORDS initial_state = (Ok df, s1)
    /\ net_calls s1 = 1%nat
    /\ fetch_gdelt_events gdelt_world GDELT_KEYWORDS MAX_GDELT_RECORDS (with_clock 599 s1)
       = (Ok df, with_clock 599 s1)
    /\ net_calls (snd (fetch_gdelt_events gdelt_world GDELT_KEYWORDS MAX_GDELT_RECORDS
                         (with_clock 600 s1))) = 2%nat
    /\ gdelt_cache (snd (refresh_data "Live" s1)) = ∅.
Proof.
  destruct (cache_ttl_policy gdelt_world) as (Hpolicy & _ & Hnet & Hrefresh).
  destruct (Hpolicy (GDELT_KEYWORDS, MAX_GDELT_RECORDS) initial_state)
    as (df & s1 & e & Hcall & He & _ & _ & Hhit & Hexpired).
  cbn [fst snd] in *.
  assert (Hcalls : net_calls (snd (fetch_gdelt_events gdelt_world GDELT_KEYWORDS
                                     MAX_GDELT_RECORDS initial_state)) = 1%nat)
    by (vm_compute; reflexivity).
  assert (Hcreated :
            match gdelt_cache (snd (fetch_gdelt_events gdelt_world GDELT_KEYWORDS
                                      MAX_GDELT_RECORDS initial_state))
                  !! (GDELT_KEYWORDS, MAX_GDELT_RECORDS) with
            | Some entry => created_at entry
            | None => -1
            end = 0)
    by (vm_compute; reflexivity).
  rewrite Hcall in Hcalls, Hcreated. cbn [snd] in Hcalls, Hcreated.
  rewrite He in Hcreated.
  exists df, s1. split; [exact Hcall |]. split; [exact Hcalls |].
  destruct (with_clock_fields 599 s1) as (Hc599 & Hg599 & _).
  destruct (with_clock_fields 600 s1) as (Hc600 & Hg600 & Hn600).
  split.
  { apply Hhit; [now rewrite Hg599 | rewrite Hc599, Hcreated; reflexivity]. }
  split.
  { destruct (Hexpired (with_clock 600 s1)) as (df' & s2 & Hbody & ->);
      [now rewrite Hg600 | rewrite Hc600, Hcreated; discriminate |].
    cbn [snd]. apply Hnet in Hbody.
    change (net_calls (with_gdelt_cache
              (<[(GDELT_KEYWORDS, MAX_GDELT_RECORDS):=CacheEntry df' (clock s2)]>
                 (gdelt_cache s2)) s2)) with (net_calls s2).
    now rewrite Hbody, Hn600, Hcalls. }
  destruct (Hrefresh "Live" s1) as (s' & -> & Hg & _). exact Hg.
Defined.

(* ===================================================================== *)
(** ** Failures of the fetchers *)
(* ===================================================================== *)

Section Failures.

Context (w : World).

Lemma gdelt_try_raise_warns (query : string) (max_records : Z)
    (s s1 : State) (e : exn) :
  fetch_gdelt_events_try w query max_records s = (Raise e, s1) ->
  exists msg,
    fetch_gdelt_events_body w query max_records s = (Ok [], warned msg s1)
    /\ sidebar s1 = sidebar s.
Proof.
  intros Htry. unfold fetch_gdelt_events_body, try_except. rewrite Htry.
  destruct (fetch_gdelt_events_except_run e s1) as [msg Hmsg].
  exists msg. split; [exact Hmsg |].
  apply fetch_gdelt_events_try_frame in Htry.
  destruct Htry as [(m & Hr & _) | ->]; [discriminate | reflexivity].
Qed.

Lemma requests_get_bind {A} (url : string) (k : http_response -> M A) (s : State) :
  bind (requests_get w url) k s
  = match http_get w url (net_calls s) with
    | Raise e => (Raise e, after_request s)
    | Ok response => k response (after_request s)
    end.
Proof. reflexivity. Qed.

Lemma raise_for_status_bind {A} (response : http_response) (k : M A) (s : State) :
  bind (raise_for_status response) (fun _ => k) s
  = if (400 <=? status_code response) && (status_code response <? 600)
    then (Raise (Exn (HTTPError (Some (status_code response)))
                     ("HTTP error " +:+ pretty (status_code response))), s)
    else k s.
Proof.
  unfold bind, raise_for_status.
  destruct ((400 <=? status_code response) && (status_code response <? 600)); reflexivity.
Qed.

Lemma error_status (code : Z) :
  400 <= code < 600 -> (400 <=? code) && (code <? 600) = true.
Proof. intros. apply andb_true_iff. split; [apply Z.leb_le | apply Z.ltb_lt]; lia. Qed.

Lemma gdelt_request_failed_try (query : string) (max_records : Z) (s : State) :
  request_failed (http_get w (gdelt_url query max_records) (net_calls s)) ->
  (exists e, fetch_gdelt_events_try w query max_records s = (Raise e, after_request s))
  \/ (exists msg, fetch_gdelt_events_try w query max_records s
                  = (Ok [], warned msg (after_request s))).
Proof.
  unfold fetch_gdelt_events_try. rewrite requests_get_bind.
  destruct (http_get w (gdelt_url query max_records) (net_calls s)) as [e|response];
    cbn [request_failed]; [eauto |].
  destruct (status_code response =? 429) eqn:E429; [right; eexists; reflexivity |].
  rewrite raise_for_status_bind.
  intros [H429 | [Herr | [e Hjson]]].
  - rewrite H429 in E429. discriminate.
  - left. rewrite (error_status _ Herr). eauto.
  - left. destruct ((400 <=? status_code response) && (status_code response <? 600));
      [eauto |].
    unfold bind at 1. rewrite Hjson. eexists; reflexivity.
Qed.

Lemma gdelt_request_failed (query : string) (max_records : Z) (s : State) :
  request_failed (http_get w (gdelt_url query max_records) (net_calls s)) ->
  exists msg s1,
    fetch_gdelt_events_body w query max_records s = (Ok [], warned msg s1)
    /\ sidebar s1 = sidebar s.
Proof.
  intros Hfail.
  destruct (gdelt_request_failed_try _ _ _ Hfail) as [[e Htry] | [msg Htry]].
  - destruct (gdelt_try_raise_warns _ _ _ _ _ Htry) as (msg & Hb & Hs). eauto.
  - exists msg, (after_request s).
    unfold fetch_gdelt_events_body, try_except. rewrite Htry. auto.
Qed.

(** The secondary fetcher turns every failure into the empty table and
    writes nothing to the sidebar. *)
Lemma newsapi_try_raise_silent (api_key query : string) (s s1 : State) (e : exn) :
  (String.eqb api_key "" || String.eqb (PyStr.strip api_key) "") = false ->
  fetch_newsapi_events_try w api_key query s = (Raise e, s1) ->
  fetch_newsapi_events_body w api_key query s = (Ok [], s1)
  /\ sidebar s1 = sidebar s.
Proof.
  intros Hkey Htry.
  assert (Hb : fetch_newsapi_events_body w api_key query s = (Ok [], s1)).
  { unfold fetch_newsapi_events_body, try_except. now rewrite Hkey, Htry. }
  split; [exact Hb |].
  now apply fetch_newsapi_events_body_frame in Hb.
Qed.

Lemma newsapi_request_failed (api_key query : string) (s : State) :
  (String.eqb api_key "" || String.eqb (PyStr.strip api_key) "") = false ->
  request_failed (http_get w (newsapi_url w api_key query) (net_calls s)) ->
  fetch_newsapi_events_body w api_key query s = (Ok [], after_request s).
Proof.
  intros Hkey. unfold fetch_newsapi_events_body, try_except, fetch_newsapi_events_try.
  rewrite Hkey, requests_get_bind.
  destruct (http_get w (newsapi_url w api_key query) (net_calls s)) as [e|response];
    cbn [request_failed]; [reflexivity |].
  destruct (status_code response =? 429) eqn:E429; [reflexivity |].
  rewrite raise_for_status_bind.
  intros [H429 | [Herr | [e Hjson]]].
  - rewrite H429 in E429. discriminate.
  - now rewrite (error_status _ Herr).
  - destruct ((400 <=? status_code response) && (status_code response <? 600));
      [reflexivity |].
    unfold bind at 1. now rewrite Hjson.
Qed.

(* --------------------------------------------------------------------- *)
(** *** RSS: one feed at a time *)

Lemma substring_length_le (n : nat) (s : string) :
  (String.length (String.substring 0 n s) <= n)%nat.
Proof.
  revert s. induction n as [|n IH]; intros [|c s]; simpl; try lia.
  specialize (IH s). lia.
Qed.

Lemma list_ascii_length (s : string) :
  length (String.list_ascii_of_string s) = String.length s.
Proof. induction s as [|c s IH]; simpl; [reflexivity | now rewrite IH]. Qed.

Lemma take_iter_length (n : nat) (v capped : pyval) (es : list pyval) :
  Py.take n v = Ok capped -> Py.iter capped = Ok es -> (length es <= n)%nat.
Proof.
  destruct v; simpl; intros Ht; inversion Ht; subst; simpl; intros Hi; inversion Hi; subst.
  - rewrite length_map, list_ascii_length. apply substring_length_le.
  - rewrite length_firstn. lia.
Qed.

Lemma rss_entries_append (feed : pyval) (feed_url : string) (es : list pyval) :
  forall rows s rows' o s',
    rss_entries w feed feed_url es rows s = ((rows', o), s') ->
    exists added, rows' = rows ++ added /\ (length added <= length es)%nat.
Proof.
  induction es as [|e es IH]; intros rows s rows' o s'; simpl.
  - intros Heq. inversion Heq. exists []. rewrite app_nil_r. auto.
  - destruct (rss_entry w feed feed_url e s) as [[x|[row|]] s1].
    + intros Heq. inversion Heq. exists []. rewrite app_nil_r. split; [auto | simpl; lia].
    + intros Heq. apply IH in Heq. destruct Heq as (added & -> & Hlen).
      exists (row :: added). rewrite <- app_assoc. split; [reflexivity | simpl; lia].
    + intros Heq. apply IH in Heq. destruct Heq as (added & -> & Hlen).
      exists added. split; [reflexivity | lia].
Qed.

(** A feed appends at most [MAX_RSS_ENTRIES_PER_FEED] rows and keeps the
    rows collected before it. *)
Lemma rss_feed_capped (feed_url : string) (rows rows' : DataFrame) (s s' : State) :
  rss_feed w feed_url rows s = (Ok rows', s') ->
  exists added,
    rows' = rows ++ added /\ (length added <= MAX_RSS_ENTRIES_PER_FEED)%nat.
Proof.
  unfold rss_feed.
  match goal with |- context [match ?c s with _ => _ end] =>
    destruct (c s) as [[e|[feed es]] s1] eqn:Hpre end.
  - intros Heq. inversion Heq. exists []. rewrite app_nil_r. split; [auto | simpl; lia].
  - inv_ok.
    match goal with
    | Ht : Py.take _ _ = Ok ?c, Hi : Py.iter ?c = Ok _, He : (_, _) = (_, _) |- _ =>
        pose proof (take_iter_length _ _ _ _ Ht Hi) as Hcap; inversion He; subst
    end.
    match goal with |- context [rss_entries w ?f ?u ?l ?r ?st] =>
      destruct (rss_entries w f u l r st) as [[rows1 o] s2] eqn:Hent end.
    intros Heq. inversion Heq; subst.
    apply rss_entries_append in Hent. destruct Hent as (added & -> & Hlen).
    exists added. split; [reflexivity | lia].
Qed.

(** A feed whose parse raises contributes nothing; the loop goes on with
    the next feed and the rows collected so far. *)
Lemma rss_feed_parse_fails (feed_url : string) (rows : DataFrame) (s : State) (e : exn) :
  feedparser_parse w feed_url (feed_calls s) = Raise e ->
  rss_feed w feed_url rows s = (Ok rows, after_parse s).
Proof.
  intros Hp. unfold rss_feed. unfold bind at 1. unfold feedparser_parse_call.
  now rewrite Hp.
Qed.

Lemma rss_feeds_skip (feed_url : string) (rest : list string) (rows : DataFrame)
    (s : State) (e : exn) :
  feedparser_parse w feed_url (feed_calls s) = Raise e ->
  rss_feeds w (feed_url :: rest) rows s = rss_feeds w rest rows (after_parse s).
Proof.
  intros Hp. cbn [rss_feeds]. unfold bind.
  now rewrite (rss_feed_parse_fails _ _ _ _ Hp).
Qed.

(** The fetcher returns the rows of its feeds in order, at most
    [MAX_RSS_ENTRIES_PER_FEED] from each. *)
Lemma rss_feeds_capped (feeds : list string) :
  forall rows rows' s s',
    rss_feeds w feeds rows s = (Ok rows', s') ->
    exists added,
      rows' = rows ++ added
      /\ (length added <= length feeds * MAX_RSS_ENTRIES_PER_FEED)%nat.
Proof.
  induction feeds as [|u feeds IH]; intros rows rows' s s'; cbn [rss_feeds].
  - intros Heq. inversion Heq. exists []. rewrite app_nil_r. split; [auto | simpl; lia].
  - intros Heq. inv_ok.
    apply rss_feed_capped in Hrun. destruct Hrun as (a1 & -> & H1).
    apply IH in Heq. destruct Heq as (a2 & -> & H2).
    exists (a1 ++ a2). rewrite app_assoc. split; [reflexivity |].
    rewrite length_app. unfold MAX_RSS_ENTRIES_PER_FEED in *. cbn [length]. lia.
Qed.

End Failures.

(** C6, as the claim states it, fails: the secondary fetcher and the RSS
    fetcher turn a failure into the empty table without any warning. *)
Lemma secondary_failure_is_silent :
  http_get offline_world (newsapi_url offline_world "k3y" NEWSAPI_KEYWORDS) 0
  = Raise connection_error
  /\ fst (fetch_newsapi_events_body offline_world "k3y" NEWSAPI_KEYWORDS initial_state) = Ok []
  /\ sidebar (snd (fetch_newsapi_events_body offline_world "k3y" NEWSAPI_KEYWORDS
                     initial_state)) = []
  /\ fst (fetch_rss_events offline_world initial_state) = Ok []
  /\ sidebar (snd (fetch_rss_events offline_world initial_state)) = [].
Proof. repeat split; vm_compute; reflexivity. Qed.

(** C6, amended: no fetcher raises, cached or not.  The primary fetcher
    turns a failed request (transport error, status 429, error status,
    unreadable body) and any exception of its [try] block into the empty
    table and one warning on the sidebar; the secondary fetcher turns them
    into the empty table and writes nothing.  In the RSS fetcher a feed
    whose parse raises contributes no row and the loop goes on with the
    next feed; every feed keeps the rows collected before it and appends
    at most [MAX_RSS_ENTRIES_PER_FEED] of its own. *)
Theorem fetchers_never_raise (w : World) :
  ((forall query max_records, total (fetch_gdelt_events_body w query max_records))
   /\ (forall api_key query, total (fetch_newsapi_events_body w api_key query))
   /\ total (fetch_rss_events w)
   /\ (forall query max_records, total (fetch_gdelt_events w query max_records))
   /\ (forall api_key query, total (fetch_newsapi_events w api_key query)))
  /\ (forall query max_records s,
        request_failed (http_get w (gdelt_url query max_records) (net_calls s)) ->
        exists msg s1,
          fetch_gdelt_events_body w query max_records s = (Ok [], warned msg s1)
          /\ sidebar s1 = sidebar s)
  /\ (forall query max_records s s1 e,
        fetch_gdelt_events_try w query max_records s = (Raise e, s1) ->
        exists msg,
          fetch_gdelt_events_body w query max_records s = (Ok [], warned msg s1)
          /\ sidebar s1 = sidebar s)
  /\ (forall api_key query s,
        (String.eqb api_key "" || String.eqb (PyStr.strip api_key) "") = false ->
        request_failed (http_get w (newsapi_url w api_key query) (net_calls s)) ->
        fetch_newsapi_events_body w api_key query s = (Ok [], after_request s))
  /\ (forall api_key query s s1 e,
        (String.eqb api_key "" || String.eqb (PyStr.strip api_key) "") = false ->
        fetch_newsapi_events_try w api_key query s = (Raise e, s1) ->
        fetch_newsapi_events_body w api_key query s = (Ok [], s1)
        /\ sidebar s1 = sidebar s)
  /\ (forall feed_url rest rows s e,
        feedparser_parse w feed_url (feed_calls s) = Raise e ->
        rss_feeds w (feed_url :: rest) rows s = rss_feeds w rest rows (after_parse s))
  /\ (forall feed_url rows, total (rss_feed w feed_url rows))
  /\ (forall feed_url rows rows' s s',
        rss_feed w feed_url rows s = (Ok rows', s') ->
        exists added,
          rows' = rows ++ added /\ (length added <= MAX_RSS_ENTRIES_PER_FEED)%nat)
  /\ (forall s rows s',
        fetch_rss_events w s = (Ok rows, s') ->
        (length rows <= length RSS_FEEDS * MAX_RSS_ENTRIES_PER_FEED)%nat).
Proof.
  split.
  { repeat split; intros.
    - apply total_fetch_gdelt_events_body.
    - apply total_fetch_newsapi_events_body.
    - apply total_fetch_rss_events.
    - apply total_fetch_gdelt_events.
    - apply total_fetch_newsapi_events. }
  split; [intros; now apply gdelt_request_failed |].
  split; [intros; eapply gdelt_try_raise_warns; eauto |].
  split; [intros; now apply newsapi_request_failed |].
  split; [intros; eapply newsapi_try_raise_silent; eauto |].
  split; [intros; eapply rss_feeds_skip; eauto |].
  split; [intros; apply total_rss_feed |].
  split; [intros; eapply rss_feed_capped; eauto |].
  intros s rows s'. unfold fetch_rss_events.
  destruct (feedparser_available w); cbn [negb].
  - intros Hrun. apply rss_feeds_capped in Hrun.
    destruct Hrun as (added & -> & Hlen). exact Hlen.
  - intros Hrun. inversion Hrun. simpl. lia.
Qed.

Lemma fetchers_never_raise_witness :
  exists rows s',
    fetch_rss_events one_feed_world initial_state = (Ok rows, s')
    /\ length rows = 15%nat
    /\ Forall (fun row => Py.lookup "source" row = Some (VStr "The Loadstar")) rows.
Proof.
  destruct (fetchers_never_raise one_feed_world)
    as (_ & _ & _ & _ & _ & Hskip & _).
  unfold fetch_rss_events. cbn [negb one_feed_world sample_world feedparser_available].
  unfold RSS_FEEDS.
  erewrite Hskip by reflexivity.
  eexists _, _. split; [vm_compute; reflexivity |].
  split; [reflexivity |].
  repeat constructor.
Defined.

(* ===================================================================== *)
(** ** Dicts *)
(* ===================================================================== *)

Lemma lookup_set (k k' : string) (v : pyval) (d : dict) :
  Py.lookup k (Py.set k' v d) = if String.eqb k k' then Some v else Py.lookup k d.
Proof.
  induction d as [|[k0 v0] d IH]; simpl.
  - destruct (String.eqb k k'); reflexivity.
  - destruct (String.eqb_spec k' k0) as [->|Hne]; simpl.
    + destruct (String.eqb k k0); reflexivity.
    + rewrite IH. destruct (String.eqb_spec k k0) as [->|Hne'].
      * destruct (String.eqb_spec k0 k'); [congruence | reflexivity].
      * reflexivity.
Qed.

Lemma lookup_set_same (k : string) (v : pyval) (d : dict) :
  Py.lookup k (Py.set k v d) = Some v.
Proof. rewrite lookup_set. now rewrite String.eqb_refl. Qed.

Lemma lookup_set_other (k k' : string) (v : pyval) (d : dict) :
  String.eqb k k' = false -> Py.lookup k (Py.set k' v d) = Py.lookup k d.
Proof. intros H. rewrite lookup_set. now rewrite H. Qed.

(* ===================================================================== *)
(** ** Risk scores *)
(* ===================================================================== *)

Section Rows.

Context (w : World).

(** What the normalizer puts into the fields the claims are about. *)
Lemma event_row_fields (headline snippet source source_url timestamp risk_score : pyval)
    (s s' : State) (row : dict) :
  _event_row w headline snippet source source_url timestamp risk_score s = (Ok row, s') ->
  Py.lookup "timestamp" row = Some timestamp
  /\ Py.lookup "risk_score" row = Some risk_score
  /\ (exists c, _category_from_title headline = Ok c
                /\ Py.lookup "category" row = Some (VStr c))
  /\ Py.lookup "gemini_analysis" row = Some VNone.
Proof.
  unfold _event_row. intros H. inv_ok. subst row.
  repeat split; try reflexivity. eexists; split; [eassumption | reflexivity].
Qed.

Lemma for_rows_Forall (P : dict -> Prop) (body : pyval -> M (option dict)) :
  (forall x s row s', body x s = (Ok (Some row), s') -> P row) ->
  forall xs rows s df s',
    Forall P rows -> for_rows body xs rows s = (Ok df, s') -> Forall P df.
Proof.
  intros Hbody. induction xs as [|x xs IH]; intros rows s df s' Hrows; simpl.
  - intros H. inv_ok. now subst.
  - intros H. inv_ok. destruct a as [row|].
    + eapply IH; [| exact H]. apply Forall_app. split; [exact Hrows |].
      constructor; [eapply Hbody; eauto | constructor].
    + eapply IH; eauto.
Qed.

Lemma gdelt_article_row (art : pyval) (s s' : State) (o : option dict) :
  gdelt_article w art s = (Ok o, s') ->
  exists row seendate ts,
    o = Some row
    /\ Py.get art "seendate" (VStr (strftime w "%Y%m%d" (clock s))) = Ok seendate
    /\ gdelt_timestamp seendate = Ok ts
    /\ Py.lookup "timestamp" row = Some (VStr ts)
    /\ Py.lookup "risk_score" row = Some (VInt 0).
Proof.
  unfold gdelt_article. intros H. inv_ok. subst o.
  match goal with
  | Hrow : _event_row _ _ _ _ _ _ _ _ = _ |- _ =>
      apply event_row_fields in Hrow; destruct Hrow as (Hts & Hrisk & _)
  end.
  match goal with
  | Hnow : now_strftime _ _ _ = _ |- _ => unfold now_strftime in Hnow; inversion Hnow; subst
  end.
  eexists _, _, _. repeat split; eauto.
Qed.

Lemma newsapi_article_row (art : pyval) (s s' : State) (row : dict) :
  newsapi_article w art s = (Ok (Some row), s') ->
  exists d title desc relevance risk,
    art = VDict d
    /\ Py.truthy (Py.dict_get d "title" VNone) = true
    /\ title = Py.dict_get d "title" (VStr "")
    /\ desc = Py.or (Py.dict_get d "description" VNone) title
    /\ _supply_chain_relevance (VStr (str_of w title +:+ " " +:+ str_of w desc)) = Ok relevance
    /\ NEWSAPI_MIN_RELEVANCE <= relevance
    /\ _heuristic_risk_from_text title desc = Ok risk
    /\ Py.lookup "risk_score" row = Some (VInt risk).
Proof.
  unfold newsapi_article. intros H. inv_ok.
  destruct art; try discriminate. cbn [Py.get] in *.
  match goal with
  | E : Ok (Py.dict_get d "title" VNone) = Ok ?a |- _ => inversion E; subst a; clear E
  end.
  destruct (Py.truthy (Py.dict_get d "title" VNone)) eqn:Htitle; cbn [negb] in H;
    [| inv_ok; discriminate].
  inv_ok. cbv zeta in H. inv_ok.
  match type of H with
  | (if ?b then _ else _) _ = _ => destruct b eqn:Hrel; [inv_ok; discriminate |]
  end.
  inv_ok.
  repeat match goal with
         | E : Ok _ = Ok _ |- _ => inversion E; subst; clear E
         | E : Some _ = Some _ |- _ => inversion E; subst; clear E
         end.
  match goal with
  | Hrow : _event_row _ _ _ _ _ _ _ _ = _ |- _ =>
      apply event_row_fields in Hrow; destruct Hrow as (_ & Hrisk & _)
  end.
  apply Z.ltb_ge in Hrel.
  eexists _, _, _, _, _. repeat split; eauto.
Qed.

Lemma rss_entry_row (feed : pyval) (feed_url : string) (e : pyval)
    (s s' : State) (row : dict) :
  rss_entry w feed feed_url e s = (Ok (Some row), s') ->
  Py.lookup "risk_score" row = Some (VInt 0).
Proof.
  unfold rss_entry. intros H. inv_ok. cbv zeta in H.
  match type of H with
  | (if ?b then _ else _) _ = _ => destruct b; [inv_ok; discriminate |]
  end.
  inv_ok.
  repeat match goal with
         | E : Some _ = Some _ |- _ => inversion E; subst; clear E
         end.
  match goal with
  | Hrow : _event_row _ _ _ _ _ _ _ _ = _ |- _ =>
      apply event_row_fields in Hrow; destruct Hrow as (_ & Hrisk & _)
  end.
  exact Hrisk.
Qed.

End Rows.

Lemma int_field_in_weaken (field : string) (lo hi lo' hi' : Z) (row : dict) :
  lo' <= lo -> hi <= hi' -> int_field_in field lo hi row -> int_field_in field lo' hi' row.
Proof. intros Hlo Hhi (n & Hn & Hr). exists n. split; [exact Hn | lia]. Qed.

Section CacheRows.

Context {K : Type} `{Countable K}.
Context (load : State -> gmap K cache_entry).
Context (store : gmap K cache_entry -> State -> State).
Context (load_store : forall c s, load (store c s) = c).
Context (P : dict -> Prop).

Lemma cache_data_rows (ttl : Z) (key : K) (body : M DataFrame)
    (s s1 : State) (df : DataFrame) :
  (forall s0 df0 s0', body s0 = (Ok df0, s0') -> Forall P df0 /\ load s0' = load s0) ->
  cached_rows P (load s) ->
  cache_data load store ttl key body s = (Ok df, s1) ->
  Forall P df /\ cached_rows P (load s1).
Proof.
  intros Hbody Hinv. unfold cache_data.
  assert (Hexec : match body s with
                  | (Ok df0, s') =>
                      (Ok df0, store (<[key:=CacheEntry df0 (clock s')]> (load s')) s')
                  | (Raise e, s') => (Raise e, s')
                  end = (Ok df, s1) -> Forall P df /\ cached_rows P (load s1)).
  { destruct (body s) as [[e|df0] s'] eqn:Hb; [discriminate |].
    intros Heq. inversion Heq; subst.
    destruct (Hbody _ _ _ Hb) as [Hdf Hload]. split; [exact Hdf |].
    rewrite load_store, Hload. apply map_Forall_insert_2; assumption. }
  destruct (load s !! key) as [entry|] eqn:He; [| exact Hexec].
  destruct (clock s <? created_at entry + ttl); [| exact Hexec].
  intros Heq. inversion Heq; subst. split; [| exact Hinv].
  exact (Hinv _ _ He).
Qed.

End CacheRows.

Section FetchedRows.

Context (w : World).

(** A property of the rows the loop body builds holds of the table the
    primary fetcher returns. *)
Lemma fetch_gdelt_events_body_Forall (P : dict -> Prop) (query : string) (max_records : Z)
    (s s' : State) (df : DataFrame) :
  (forall art s0 row s0', gdelt_article w art s0 = (Ok (Some row), s0') -> P row) ->
  fetch_gdelt_events_body w query max_records s = (Ok df, s') ->
  Forall P df.
Proof.
  intros Hart. unfold fetch_gdelt_events_body, try_except.
  destruct (fetch_gdelt_events_try w query max_records s) as [[e|df0] s1] eqn:Htry.
  { destruct (fetch_gdelt_events_except_run e s1) as [msg ->].
    intros H. inversion H. constructor. }
  intros H. inversion H; subst. clear H. revert Htry.
  unfold fetch_gdelt_events_try. rewrite requests_get_bind.
  destruct (http_get w (gdelt_url query max_records) (net_calls s)) as [e|response];
    [discriminate |].
  destruct (status_code response =? 429).
  { intros H. inversion H. constructor. }
  rewrite raise_for_status_bind.
  destruct ((400 <=? status_code response) && (status_code response <? 600));
    [discriminate |].
  intros H. inv_ok.
  match type of H with
  | (if ?b then _ else _) _ = _ => destruct b; [inv_ok; subst; constructor |]
  end.
  inv_ok. eapply for_rows_Forall; [| constructor | exact H].
  intros x s0 row s0' Hrow. eapply Hart; eauto.
Qed.

Lemma fetch_gdelt_events_body_rows (query : string) (max_records : Z)
    (s s' : State) (df : DataFrame) :
  fetch_gdelt_events_body w query max_records s = (Ok df, s') ->
  Forall (int_field_in "risk_score" 0 0) df.
Proof.
  apply fetch_gdelt_events_body_Forall.
  intros art s0 row s0' Hart. apply gdelt_article_row in Hart.
  destruct Hart as (row' & sd & ts & Hrow & _ & _ & _ & Hrisk).
  inversion Hrow; subst. exists 0. split; [exact Hrisk | lia].
Qed.

Lemma fetch_newsapi_events_body_rows (api_key query : string)
    (s s' : State) (df : DataFrame) :
  fetch_newsapi_events_body w api_key query s = (Ok df, s') ->
  Forall (int_field_in "risk_score" 1 5) df.
Proof.
  unfold fetch_newsapi_events_body.
  destruct (String.eqb api_key "" || String.eqb (PyStr.strip api_key) "").
  { intros H. inversion H. constructor. }
  unfold try_except, fetch_newsapi_events_try. rewrite requests_get_bind.
  destruct (http_get w (newsapi_url w api_key query) (net_calls s)) as [e|response].
  { intros H. inversion H. constructor. }
  destruct (status_code response =? 429).
  { intros H. inversion H. constructor. }
  rewrite raise_for_status_bind.
  destruct ((400 <=? status_code response) && (status_code response <? 600)).
  { intros H. inversion H. constructor. }
  match goal with
  | |- match ?c ?st with _ => _ end = _ -> _ => destruct (c st) as [[e|df0] s1] eqn:Hrun
  end.
  { intros H. inversion H. constructor. }
  intros H. inversion H; subst. inv_ok.
  eapply for_rows_Forall; [| constructor | exact Hrun].
  intros x s0 row s0' Hart. apply newsapi_article_row in Hart.
  destruct Hart as (d & title & desc & rel & risk & _ & _ & _ & _ & _ & _ & Hr & Hrisk).
  exists risk. split; [exact Hrisk |]. eapply heuristic_risk_range; eauto.
Qed.

Lemma rss_entries_rows (feed : pyval) (feed_url : string) (es : list pyval) :
  forall rows s rows' o s',
    Forall (int_field_in "risk_score" 0 0) rows ->
    rss_entries w feed feed_url es rows s = ((rows', o), s') ->
    Forall (int_field_in "risk_score" 0 0) rows'.
Proof.
  induction es as [|e es IH]; intros rows s rows' o s' Hrows; simpl.
  - intros H. inversion H; subst. exact Hrows.
  - destruct (rss_entry w feed feed_url e s) as [[x|[row|]] s1] eqn:He.
    + intros H. inversion H; subst. exact Hrows.
    + apply IH. apply Forall_app. split; [exact Hrows |].
      constructor; [| constructor].
      exists 0. split; [eapply rss_entry_row; eauto | lia].
    + apply IH. exact Hrows.
Qed.

Lemma rss_feed_rows (feed_url : string) (rows rows' : DataFrame) (s s' : State) :
  Forall (int_field_in "risk_score" 0 0) rows ->
  rss_feed w feed_url rows s = (Ok rows', s') ->
  Forall (int_field_in "risk_score" 0 0) rows'.
Proof.
  intros Hrows. unfold rss_feed.
  match goal with |- context [match ?c s with _ => _ end] =>
    destruct (c s) as [[e|[feed es]] s1] end.
  - intros H. inversion H; subst. exact Hrows.
  - destruct (rss_entries w feed feed_url es rows s1) as [[rows1 o] s2] eqn:Hent.
    intros H. inversion H; subst. eapply rss_entries_rows; eauto.
Qed.

Lemma rss_feeds_rows (feeds : list string) :
  forall rows rows' s s',
    Forall (int_field_in "risk_score" 0 0) rows ->
    rss_feeds w feeds rows s = (Ok rows', s') ->
    Forall (int_field_in "risk_score" 0 0) rows'.
Proof.
  induction feeds as [|u feeds IH]; intros rows rows' s s' Hrows; cbn [rss_feeds].
  - intros H. inv_ok. now subst.
  - intros H. inv_ok. eapply IH; [| exact H]. eapply rss_feed_rows; eauto.
Qed.

Lemma fetch_rss_events_rows (s s' : State) (df : DataFrame) :
  fetch_rss_events w s = (Ok df, s') ->
  Forall (int_field_in "risk_score" 0 0) df.
Proof.
  unfold fetch_rss_events. destruct (feedparser_available w); cbn [negb].
  - apply rss_feeds_rows. constructor.
  - intros H. inversion H. constructor.
Qed.

End FetchedRows.

Section LiveRows.

Context (w : World).

Lemma quiet_rss_published (e published : pyval) : quiet (rss_published e published).
Proof. unfold rss_published. quiet_tac. Qed.

Lemma quiet_rss_entry (feed : pyval) (feed_url : string) (e : pyval) :
  quiet (rss_entry w feed feed_url e).
Proof.
  unfold rss_entry.
  repeat first [ apply quiet_rss_published | apply quiet_event_row
               | apply quiet_bind; [| intros ?] | apply quiet_lift | apply quiet_ret
               | match goal with |- quiet (if ?b then _ else _) => destruct b end ].
Qed.

Lemma rss_entries_frame (feed : pyval) (feed_url : string) (es : list pyval) :
  forall rows s x s',
    rss_entries w feed feed_url es rows s = (x, s') -> s' = with_rng (rng s') s.
Proof.
  induction es as [|e es IH]; intros rows s x s'; simpl.
  - intros H. inversion H. apply with_rng_same.
  - destruct (rss_entry w feed feed_url e s) as [[err|[row|]] s1] eqn:He;
      apply quiet_rss_entry in He.
    + intros H. inversion H; subst. exact He.
    + intros H. apply IH in H. rewrite H, He. apply with_rng_twice.
    + intros H. apply IH in H. rewrite H, He. apply with_rng_twice.
Qed.

(** The RSS fetcher touches neither cache. *)
Lemma rss_feed_frame (feed_url : string) (rows : DataFrame) (s s' : State)
    (r : res DataFrame) :
  rss_feed w feed_url rows s = (r, s') ->
  gdelt_cache s' = gdelt_cache s /\ newsapi_cache s' = newsapi_cache s.
Proof.
  unfold rss_feed. unfold bind at 1. unfold feedparser_parse_call.
  destruct (feedparser_parse w feed_url (feed_calls s)) as [e|feed].
  { intros H. inversion H. auto. }
  match goal with |- context [match ?c ?st with _ => _ end] =>
    assert (Hq : quiet c) by quiet_tac;
    destruct (c st) as [[e|[fd es]] s1] eqn:Hpre; apply Hq in Hpre
  end.
  - intros H. inversion H; subst. rewrite Hpre. auto.
  - destruct (rss_entries w fd feed_url es rows s1) as [[rows1 o] s2] eqn:Hent.
    apply rss_entries_frame in Hent.
    intros H. inversion H; subst. rewrite Hent, Hpre. auto.
Qed.

Lemma rss_feeds_frame (feeds : list string) :
  forall rows s r s',
    rss_feeds w feeds rows s = (r, s') ->
    gdelt_cache s' = gdelt_cache s /\ newsapi_cache s' = newsapi_cache s.
Proof.
  induction feeds as [|u feeds IH]; intros rows s r s'; cbn [rss_feeds].
  - intros H. inversion H. auto.
  - unfold bind. destruct (rss_feed w u rows s) as [[e|rows1] s1] eqn:Hf;
      apply rss_feed_frame in Hf; destruct Hf as [Hg Hn].
    + intros H. inversion H; subst. auto.
    + intros H. apply IH in H. destruct H as [-> ->]. auto.
Qed.

Lemma fetch_rss_events_frame (s s' : State) (r : res DataFrame) :
  fetch_rss_events w s = (r, s') ->
  gdelt_cache s' = gdelt_cache s /\ newsapi_cache s' = newsapi_cache s.
Proof.
  unfold fetch_rss_events. destruct (feedparser_available w); cbn [negb].
  - apply rss_feeds_frame.
  - intros H. inversion H. auto.
Qed.

Lemma fetch_gdelt_events_rows (query : string) (max_records : Z)
    (s s1 : State) (df : DataFrame) :
  caches_ok s ->
  fetch_gdelt_events w query max_records s = (Ok df, s1) ->
  Forall (int_field_in "risk_score" 0 10) df /\ caches_ok s1.
Proof.
  intros [Hg Hn] Hrun.
  assert (Hother : newsapi_cache s1 = newsapi_cache s).
  { revert Hrun. unfold fetch_gdelt_events, cache_data.
    destruct (fetch_gdelt_events_body w query max_records s) as [[e|df0] s'] eqn:Hb;
      apply fetch_gdelt_events_body_frame in Hb; destruct Hb as (_ & _ & _ & Hb);
      destruct (gdelt_cache s !! (query, max_records)) as [entry|];
      try destruct (clock s <? created_at entry + CACHE_TTL);
      intros H; inversion H; subst; auto. }
  unfold caches_ok. rewrite Hother.
  destruct (cache_data_rows gdelt_cache with_gdelt_cache ltac:(reflexivity)
              (int_field_in "risk_score" 0 10) CACHE_TTL (query, max_records)
              (fetch_gdelt_events_body w query max_records) s s1 df) as [Hdf Hc];
    auto.
  intros s0 df0 s0' Hb. split.
  - eapply Forall_impl; [eapply fetch_gdelt_events_body_rows; eauto |].
    intros row. apply int_field_in_weaken; lia.
  - now apply fetch_gdelt_events_body_frame in Hb.
Qed.

Lemma fetch_newsapi_events_rows (api_key query : string)
    (s s1 : State) (df : DataFrame) :
  caches_ok s ->
  fetch_newsapi_events w api_key query s = (Ok df, s1) ->
  Forall (int_field_in "risk_score" 0 10) df /\ caches_ok s1.
Proof.
  intros [Hg Hn] Hrun.
  assert (Hother : gdelt_cache s1 = gdelt_cache s).
  { revert Hrun. unfold fetch_newsapi_events, cache_data.
    destruct (fetch_newsapi_events_body w api_key query s) as [[e|df0] s'] eqn:Hb;
      apply fetch_newsapi_events_body_frame in Hb; destruct Hb as (_ & _ & _ & Hb & _);
      destruct (newsapi_cache s !! (api_key, query)) as [entry|];
      try destruct (clock s <? created_at entry + CACHE_TTL);
      intros H; inversion H; subst; auto. }
  unfold caches_ok. rewrite Hother.
  destruct (cache_data_rows newsapi_cache with_newsapi_cache ltac:(reflexivity)
              (int_field_in "risk_score" 0 10) CACHE_TTL (api_key, query)
              (fetch_newsapi_events_body w api_key query) s s1 df) as [Hdf Hc];
    auto.
  intros s0 df0 s0' Hb. split.
  - eapply Forall_impl; [eapply fetch_newsapi_events_body_rows; eauto |].
    intros row. apply int_field_in_weaken; lia.
  - now apply fetch_newsapi_events_body_frame in Hb.
Qed.

Lemma try_rss_rows (s s' : State) (df : DataFrame) :
  caches_ok s ->
  try_rss w s = (Ok df, s') ->
  Forall (int_field_in "risk_score" 0 10) df /\ caches_ok s'.
Proof.
  intros Hok. unfold try_rss, bind.
  destruct (fetch_rss_events w s) as [[e|T] s3] eqn:HT; [discriminate |].
  pose proof (fetch_rss_events_rows _ _ _ _ HT) as Hrows.
  apply fetch_rss_events_frame in HT. destruct HT as [Hg Hn].
  assert (Hok3 : caches_ok s3) by (unfold caches_ok; now rewrite Hg, Hn).
  destruct T as [|row T]; cbn [df_empty negb]; intros H; inversion H; subst.
  - split; [constructor | exact Hok3].
  - split; [| exact Hok3].
    eapply Forall_impl; [exact Hrows |]. intros r. apply int_field_in_weaken; lia.
Qed.

(** Whatever the orchestrator returns has risk scores in 0..10, and it
    keeps the invariant of the caches. *)
Lemma get_live_events_rows (s s' : State) (df : DataFrame) :
  caches_ok s ->
  get_live_events w s = (Ok df, s') ->
  Forall (int_field_in "risk_score" 0 10) df /\ caches_ok s'.
Proof.
  intros Hok. unfold get_live_events. unfold bind at 1.
  destruct (fetch_gdelt_events w GDELT_KEYWORDS MAX_GDELT_RECORDS s) as [[e|P] s1] eqn:HP;
    [discriminate |].
  apply (fetch_gdelt_events_rows _ _ _ _ _ Hok) in HP. destruct HP as [HPr Hok1].
  destruct P as [|row P]; cbn [df_empty negb].
  2: { intros H. inversion H; subst. auto. }
  destruct (negb (String.eqb (newsapi_key w) "")); [| now apply try_rss_rows].
  unfold bind at 1.
  destruct (fetch_newsapi_events w (newsapi_key w) NEWSAPI_KEYWORDS s1) as [[e|S] s2] eqn:HS;
    [discriminate |].
  apply (fetch_newsapi_events_rows _ _ _ _ _ Hok1) in HS. destruct HS as [HSr Hok2].
  destruct S as [|r2 S]; cbn [df_empty negb]; [now apply try_rss_rows |].
  intros H. inversion H; subst. auto.
Qed.

Lemma df_empty_of_rows (df : DataFrame) :
  Forall (int_field_in "risk_score" 0 10) df -> df_empty df = frame_empty df.
Proof.
  destruct df as [|row df]; [reflexivity |].
  intros H. inversion H as [|? ? [n [Hn _]] _]; subst.
  destruct row; [discriminate Hn | reflexivity].
Qed.

(** On the tables the three fetchers return, [df_empty] is [df.empty] as
    pandas has it. *)
Lemma df_empty_of_fetched (s s' : State) (df : DataFrame) :
  caches_ok s ->
  fetch_gdelt_events w GDELT_KEYWORDS MAX_GDELT_RECORDS s = (Ok df, s')
  \/ fetch_newsapi_events w (newsapi_key w) NEWSAPI_KEYWORDS s = (Ok df, s')
  \/ fetch_rss_events w s = (Ok df, s') ->
  df_empty df = frame_empty df.
Proof.
  intros Hok [H | [H | H]]; apply df_empty_of_rows.
  - eapply fetch_gdelt_events_rows; eauto.
  - eapply fetch_newsapi_events_rows; eauto.
  - eapply Forall_impl; [eapply fetch_rss_events_rows; eauto |].
    intros row. apply int_field_in_weaken; lia.
Qed.

End LiveRows.

(* ===================================================================== *)
(** ** Single-event analysis *)
(* ===================================================================== *)

Section Analysis.

Context (w : World).

(** When the [try] block of the analysis returns, the event carries the
    decoded payload and the risk score clamped into 1..10. *)
Lemma analyze_body_clamps (event event' : dict) (s s' : State) :
  analyze_body w event s = (Ok event', s') ->
  exists analysis n,
    (r <-- Py.get analysis "risk_score" (VInt 5) ;; Py.int r)%res = Ok n
    /\ Py.lookup "gemini_analysis" event' = Some analysis
    /\ Py.lookup "risk_score" event' = Some (VInt (Z.min 10 (Z.max 1 n)))
    /\ (n < 1 -> Py.lookup "risk_score" event' = Some (VInt 1))
    /\ (10 < n -> Py.lookup "risk_score" event' = Some (VInt 10))
    /\ int_field_in "risk_score" 1 10 event'.
Proof.
  unfold analyze_body. intros H. cbv zeta in H. inv_ok. subst event'.
  match goal with
  | Hl : json_loads w _ = Ok ?a, Hg : Py.get ?a "risk_score" _ = Ok ?r,
    Hi : Py.int ?r = Ok ?n |- _ =>
      exists a, n;
      assert (Hrisk : forall d v1 v2 v3,
                Py.lookup "risk_score"
                  (Py.set "reasoning" v1 (Py.set "gemini_analysis" v2
                     (Py.set "category" v3
                        (Py.set "risk_score" (VInt (Z.min 10 (Z.max 1 n))) d))))
                = Some (VInt (Z.min 10 (Z.max 1 n))))
        by (intros; rewrite !lookup_set; reflexivity);
      split; [rewrite Hg; exact Hi |]
  end.
  split; [rewrite !lookup_set; reflexivity |].
  split; [apply Hrisk |].
  split; [intros; rewrite Hrisk; do 2 f_equal; lia |].
  split; [intros; rewrite Hrisk; do 2 f_equal; lia |].
  eexists. split; [apply Hrisk | lia].
Qed.

Lemma analyze_with_gemini_success (event event' : dict) (api_key : string) (s s' : State) :
  usable_key api_key ->
  analyze_body w event s = (Ok event', s') ->
  analyze_with_gemini w event api_key s = (Ok event', s').
Proof.
  unfold usable_key, analyze_with_gemini, try_except. intros -> ->. reflexivity.
Qed.

(** Every exception of the [try] block ends in an error payload on a copy
    of the event; nothing else of the event changes. *)
Lemma analyze_with_gemini_failure (event : dict) (api_key : string) (s s1 : State) (e : exn) :
  usable_key api_key ->
  analyze_body w event s = (Raise e, s1) ->
  exists msg,
    analyze_with_gemini w event api_key s
    = (Ok (Py.set "gemini_analysis"
             (VDict [("error", VStr msg); ("reasoning", VStr "")]) event), s1).
Proof.
  unfold usable_key, analyze_with_gemini, try_except. intros -> ->.
  destruct (exn_class_of e); eexists; reflexivity.
Qed.

Lemma analyze_body_malformed (event : dict) (raw : string) (e : exn) (s : State) :
  gemini_text w
    (Py.dict_get event "headline" (Py.dict_get event "title" (VStr "")))
    (Py.dict_get event "location" (VStr "Unknown"))
    (Py.dict_get event "article_snippet" (Py.dict_get event "snippet" (VStr "")))
  = Ok (VStr raw) ->
  json_loads w (strip_fence (PyStr.strip raw)) = Raise e ->
  analyze_body w event s = (Raise e, s).
Proof.
  intros Hreply Hloads. unfold analyze_body. cbv zeta.
  unfold bind at 1. unfold lift at 1. rewrite Hreply.
  unfold bind at 1. unfold lift at 1. cbn [Py.strip].
  unfold bind at 1. unfold lift at 1. rewrite Hloads. reflexivity.
Qed.

(** What the [try] block does with a reply of the service: when the
    reply is text, the text decodes to [analysis] and its risk score
    (5 when it has none) converts to the integer [n], the block returns the
    event with that payload and with [n] clamped into 1..10. *)
Lemma analyze_body_of_reply (event : dict) (reply analysis : pyval) (text : string)
    (n : Z) (s : State) :
  gemini_text w
    (Py.dict_get event "headline" (Py.dict_get event "title" (VStr "")))
    (Py.dict_get event "location" (VStr "Unknown"))
    (Py.dict_get event "article_snippet" (Py.dict_get event "snippet" (VStr "")))
  = Ok reply ->
  Py.strip reply = Ok text ->
  json_loads w (strip_fence text) = Ok analysis ->
  (r <-- Py.get analysis "risk_score" (VInt 5) ;; Py.int r)%res = Ok n ->
  exists event',
    analyze_body w event s = (Ok event', s)
    /\ Py.lookup "gemini_analysis" event' = Some analysis
    /\ Py.lookup "risk_score" event' = Some (VInt (Z.min 10 (Z.max 1 n))).
Proof.
  intros Hreply Htext Hloads Hn. unfold analyze_body. cbv zeta.
  unfold bind at 1. unfold lift at 1. rewrite Hreply.
  unfold bind at 1. unfold lift at 1. rewrite Htext.
  unfold bind at 1. unfold lift at 1. rewrite Hloads.
  destruct analysis as [| | | | | | d |]; try discriminate.
  cbn [Py.get res_bind] in Hn.
  unfold bind at 1. unfold lift at 1. cbn [Py.get].
  unfold bind at 1. unfold lift at 1. rewrite Hn.
  unfold bind, lift, ret. eexists. split; [reflexivity |].
  split; rewrite !lookup_set; reflexivity.
Qed.

End Analysis.

Lemma caches_ok_empty (s : State) :
  gdelt_cache s = ∅ -> newsapi_cache s = ∅ -> caches_ok s.
Proof. intros Hg Hn. unfold caches_ok, cached_rows. rewrite Hg, Hn. split; apply map_Forall_empty. Qed.

(** C5: the normalizer stores the risk score it is given, 0 by default;
    the primary and the RSS fetcher produce rows with risk score 0 and the
    secondary fetcher rows with a risk score in 1..5, so every row the
    orchestrator returns, cached or fresh, has a risk score in 0..10; and
    when the analysis succeeds the event's risk score is the integer the
    service returned, clamped into 1..10: whatever text the service
    replies, when that text decodes to a payload whose risk score converts
    to the integer [n], the analysis returns the event with that payload
    and with risk score 1 for [n] below 1, 10 for [n] above 10 and [n]
    itself in between. *)
Theorem risk_score_ranges (w : World) :
  (forall headline snippet source source_url timestamp s row s',
     _event_row w headline snippet source source_url timestamp (VInt 0) s = (Ok row, s') ->
     Py.lookup "risk_score" row = Some (VInt 0))
  /\ (forall query max_records s df s',
        fetch_gdelt_events_body w query max_records s = (Ok df, s') ->
        Forall (int_field_in "risk_score" 0 0) df)
  /\ (forall api_key query s df s',
        fetch_newsapi_events_body w api_key query s = (Ok df, s') ->
        Forall (int_field_in "risk_score" 1 5) df)
  /\ (forall s df s',
        fetch_rss_events w s = (Ok df, s') ->
        Forall (int_field_in "risk_score" 0 0) df)
  /\ (caches_ok initial_state
      /\ (forall data_mode s s', refresh_data data_mode s = (Ok tt, s') -> caches_ok s')
      /\ (forall s df s',
            caches_ok s -> get_live_events w s = (Ok df, s') ->
            Forall (int_field_in "risk_score" 0 10) df /\ caches_ok s'))
  /\ (forall event api_key s event' s',
        usable_key api_key ->
        analyze_body w event s = (Ok event', s') ->
        analyze_with_gemini w event api_key s = (Ok event', s')
        /\ exists analysis n,
             (r <-- Py.get analysis "risk_score" (VInt 5) ;; Py.int r)%res = Ok n
             /\ Py.lookup "gemini_analysis" event' = Some analysis
             /\ Py.lookup "risk_score" event' = Some (VInt (Z.min 10 (Z.max 1 n)))
             /\ (n < 1 -> Py.lookup "risk_score" event' = Some (VInt 1))
             /\ (10 < n -> Py.lookup "risk_score" event' = Some (VInt 10))
             /\ int_field_in "risk_score" 1 10 event')
  /\ (forall event api_key s reply text analysis n,
        usable_key api_key ->
        gemini_text w
          (Py.dict_get event "headline" (Py.dict_get event "title" (VStr "")))
          (Py.dict_get event "location" (VStr "Unknown"))
          (Py.dict_get event "article_snippet" (Py.dict_get event "snippet" (VStr "")))
        = Ok reply ->
        Py.strip reply = Ok text ->
        json_loads w (strip_fence text) = Ok analysis ->
        (r <-- Py.get analysis "risk_score" (VInt 5) ;; Py.int r)%res = Ok n ->
        exists event',
          analyze_with_gemini w event api_key s = (Ok event', s)
          /\ Py.lookup "gemini_analysis" event' = Some analysis
          /\ Py.lookup "risk_score" event' = Some (VInt (Z.min 10 (Z.max 1 n)))
          /\ (n < 1 -> Py.lookup "risk_score" event' = Some (VInt 1))
          /\ (10 < n -> Py.lookup "risk_score" event' = Some (VInt 10))
          /\ (1 <= n <= 10 -> Py.lookup "risk_score" event' = Some (VInt n))
          /\ int_field_in "risk_score" 1 10 event').
Proof.
  split.
  { intros * Hrow. now apply event_row_fields in Hrow. }
  split; [intros *; apply fetch_gdelt_events_body_rows |].
  split; [intros *; apply fetch_newsapi_events_body_rows |].
  split; [intros *; apply fetch_rss_events_rows |].
  split.
  { split; [now apply caches_ok_empty |].
    split; [| intros *; apply get_live_events_rows].
    intros data_mode s s'. unfold refresh_data.
    destruct (String.eqb data_mode "Mock"); intros H; inversion H;
      now apply caches_ok_empty. }
  split.
  { intros event api_key s event' s' Hkey Hbody. split.
    - now apply analyze_with_gemini_success.
    - eapply analyze_body_clamps; eauto. }
  intros event api_key s reply text analysis n Hkey Hreply Htext Hloads Hn.
  destruct (analyze_body_of_reply w event reply analysis text n s Hreply Htext Hloads Hn)
    as (event' & Hbody & Hpayload & Hrisk).
  exists event'. split; [now apply analyze_with_gemini_success |].
  split; [exact Hpayload |]. split; [exact Hrisk |].
  split; [intros; rewrite Hrisk; do 2 f_equal; lia |].
  split; [intros; rewrite Hrisk; do 2 f_equal; lia |].
  split; [intros; rewrite Hrisk; do 2 f_equal; lia |].
  eexists. split; [exact Hrisk | lia].
Qed.

Lemma risk_score_ranges_witness :
  (exists event',
     analyze_with_gemini analysis_world sample_row "AIza-key" initial_state
     = (Ok event', initial_state)
     /\ Py.lookup "risk_score" sample_row = Some (VInt 4)
     /\ Py.lookup "gemini_analysis" event' = Some sample_analysis
     /\ Py.lookup "risk_score" event' = Some (VInt 10))
  /\ (exists event',
        analyze_with_gemini
          (sample_world no_network no_feeds None sample_json_loads (Ok (VStr " {} ")))
          sample_row "AIza-key" initial_state
        = (Ok event', initial_state)
        /\ Py.lookup "gemini_analysis" event' = Some (VDict [])
        /\ Py.lookup "risk_score" event' = Some (VInt 5)).
Proof.
  split.
  - destruct (risk_score_ranges analysis_world) as (_ & _ & _ & _ & _ & _ & Hai).
    destruct (Hai sample_row "AIza-key" initial_state
                (VStr "```json ANALYSIS ```") "```json ANALYSIS ```" sample_analysis 42)
      as (event' & Hrun & Hpayload & _ & _ & Hhigh & _); try reflexivity.
    exists event'. split; [exact Hrun |]. split; [reflexivity |].
    split; [exact Hpayload |]. apply Hhigh. lia.
  - destruct (risk_score_ranges
                (sample_world no_network no_feeds None sample_json_loads (Ok (VStr " {} "))))
      as (_ & _ & _ & _ & _ & _ & Hai).
    destruct (Hai sample_row "AIza-key" initial_state (VStr " {} ") "{}" (VDict []) 5)
      as (event' & Hrun & Hpayload & _ & _ & _ & Hmid & _); try reflexivity.
    exists event'. split; [exact Hrun |]. split; [exact Hpayload |]. apply Hmid. lia.
Defined.

(** C7: when the service answers with text that [json.loads] rejects,
    the analysis raises nothing and returns a copy of the event whose
    gemini_analysis is a record with an error message; risk_score and
    category are those of the original event. *)
Theorem malformed_json_error_marker (w : World) (event : dict) (api_key raw : string)
    (e : exn) (s : State) :
  usable_key api_key ->
  gemini_text w
    (Py.dict_get event "headline" (Py.dict_get event "title" (VStr "")))
    (Py.dict_get event "location" (VStr "Unknown"))
    (Py.dict_get event "article_snippet" (Py.dict_get event "snippet" (VStr "")))
  = Ok (VStr raw) ->
  json_loads w (strip_fence (PyStr.strip raw)) = Raise e ->
  exists event' msg,
    analyze_with_gemini w event api_key s = (Ok event', s)
    /\ Py.lookup "gemini_analysis" event'
       = Some (VDict [("error", VStr msg); ("reasoning", VStr "")])
    /\ (exn_class_of e = JSONDecodeError -> msg = "JSON parse failed: " +:+ exn_msg e)
    /\ Py.lookup "risk_score" event' = Py.lookup "risk_score" event
    /\ Py.lookup "category" event' = Py.lookup "category" event
    /\ (forall k, String.eqb k "gemini_analysis" = false ->
                  Py.lookup k event' = Py.lookup k event).
Proof.
  intros Hkey Hreply Hloads.
  pose proof (analyze_body_malformed w event raw e s Hreply Hloads) as Hbody.
  unfold usable_key in Hkey. unfold analyze_with_gemini, try_except.
  rewrite Hkey, Hbody.
  assert (Hrest : forall msg,
            let event' := Py.set "gemini_analysis"
                            (VDict [("error", VStr msg); ("reasoning", VStr "")]) event in
            Py.lookup "gemini_analysis" event'
            = Some (VDict [("error", VStr msg); ("reasoning", VStr "")])
            /\ Py.lookup "risk_score" event' = Py.lookup "risk_score" event
            /\ Py.lookup "category" event' = Py.lookup "category" event
            /\ (forall k, String.eqb k "gemini_analysis" = false ->
                          Py.lookup k event' = Py.lookup k event)).
  { intros msg event'. unfold event'. rewrite lookup_set_same.
    repeat split; try (apply lookup_set_other; reflexivity).
    intros k Hk. now apply lookup_set_other. }
  destruct (exn_class_of e) eqn:Hclass;
    eexists _, _; (split; [reflexivity |]);
    match goal with |- _ /\ _ /\ _ => idtac end;
    match goal with
    | |- Py.lookup _ (Py.set _ (VDict [("error", VStr ?m); _]) _) = _ /\ _ =>
        destruct (Hrest m) as (H1 & H2 & H3 & H4)
    end;
    (split; [exact H1 |]); (split; [intros; try discriminate; reflexivity |]); auto.
Qed.

Lemma malformed_json_error_marker_witness :
  exists event' msg,
    analyze_with_gemini garbled_world sample_row "AIza-key" initial_state
    = (Ok event', initial_state)
    /\ Py.lookup "gemini_analysis" event'
       = Some (VDict [("error", VStr msg); ("reasoning", VStr "")])
    /\ Py.lookup "risk_score" event' = Some (VInt 4)
    /\ Py.lookup "category" event' = Some (VStr "Disruption").
Proof.
  destruct (malformed_json_error_marker garbled_world sample_row "AIza-key"
              "{ risk_score: 9, categ"
              (Exn JSONDecodeError "Expecting value: line 1 column 1 (char 0)")
              initial_state ltac:(reflexivity) ltac:(reflexivity) ltac:(reflexivity))
    as (event' & msg & Hrun & Hga & _ & Hrisk & Hcat & _).
  exists event', msg. split; [exact Hrun |]. split; [exact Hga |].
  split; [rewrite Hrisk | rewrite Hcat]; reflexivity.
Defined.

(* ===================================================================== *)
(** ** The relevance gate *)
(* ===================================================================== *)

(** C8, as the claim states it, fails: the vocabulary has 26 distinct
    terms, and a text can match more than 24 of them. *)
Lemma relevance_exceeds_24_terms :
  _supply_chain_relevance (VStr all_keywords_text) = Ok 26
  /\ length NEWSAPI_RELEVANCE_KEYWORDS = 26%nat
  /\ NoDup NEWSAPI_RELEVANCE_KEYWORDS.
Proof.
  split; [vm_compute; reflexivity |]. split; [reflexivity |].
  apply (bool_decide_unpack _). vm_compute. exact I.
Qed.

Lemma keywords_are_lowercase (kw : string) :
  In kw NEWSAPI_RELEVANCE_KEYWORDS -> PyStr.lower kw = kw.
Proof.
  assert (Hlow : forallb (fun kw => String.eqb (PyStr.lower kw) kw)
                         NEWSAPI_RELEVANCE_KEYWORDS = true) by (vm_compute; reflexivity).
  rewrite forallb_forall in Hlow. intros Hin. apply String.eqb_eq. now apply Hlow.
Qed.

Lemma relevance_counts_matches (text : string) :
  _supply_chain_relevance (VStr text) = Ok (Z.of_nat (length (matching_keywords text))).
Proof.
  unfold _supply_chain_relevance.
  change (Py.truthy (VStr text)) with (negb (String.eqb text "")).
  destruct (String.eqb_spec text "") as [->|Hne].
  - vm_compute; reflexivity.
  - change (negb (negb false)) with false. cbv iota.
    change (Py.lower (VStr text)) with (Ok (PyStr.lower text)).
    unfold res_bind, matching_keywords.
    rewrite (List.filter_ext_in
               (fun kw => PyStr.contains (PyStr.lower kw) (PyStr.lower text))
               (fun kw => PyStr.contains kw (PyStr.lower text))
               NEWSAPI_RELEVANCE_KEYWORDS).
    + reflexivity.
    + intros kw Hin. now rewrite keywords_are_lowercase.
Qed.

Section Gate.

Context (w : World).

Lemma newsapi_article_untitled (d : dict) (s : State) :
  Py.truthy (Py.dict_get d "title" VNone) = false ->
  newsapi_article w (VDict d) s = (Ok None, s).
Proof.
  intros Ht. unfold newsapi_article. unfold bind at 1. unfold lift at 1.
  cbn [Py.get]. now rewrite Ht.
Qed.

Lemma newsapi_article_irrelevant (d : dict) (s : State) (relevance : Z) :
  Py.truthy (Py.dict_get d "title" VNone) = true ->
  _supply_chain_relevance
    (VStr (str_of w (Py.dict_get d "title" (VStr "")) +:+ " " +:+
           str_of w (Py.or (Py.dict_get d "description" VNone)
                           (Py.dict_get d "title" (VStr ""))))) = Ok relevance ->
  relevance < NEWSAPI_MIN_RELEVANCE ->
  newsapi_article w (VDict d) s = (Ok None, s).
Proof.
  intros Ht Hrel Hlt. unfold newsapi_article. unfold bind at 1. unfold lift at 1.
  cbn [Py.get]. rewrite Ht. cbn [negb].
  unfold bind at 1. unfold lift at 1.
  unfold bind at 1. unfold lift at 1. cbv zeta.
  unfold bind at 1. unfold lift at 1. rewrite Hrel.
  apply Z.ltb_lt in Hlt. now rewrite Hlt.
Qed.

End Gate.

(** C8, amended: the relevance count of a text is the number of keywords
    of the fixed 26-term vocabulary that occur in it as substrings,
    ignoring case, each keyword counted once; the secondary fetcher keeps
    an article only if it has a title and the count over title plus
    description (the title again when there is no description) is at
    least the threshold 1, and drops an article without a title or with a
    smaller count. *)
Theorem relevance_gate (w : World) :
  (length NEWSAPI_RELEVANCE_KEYWORDS = 26%nat /\ NoDup NEWSAPI_RELEVANCE_KEYWORDS
   /\ NEWSAPI_MIN_RELEVANCE = 1)
  /\ (forall text,
        _supply_chain_relevance (VStr text) = Ok (Z.of_nat (length (matching_keywords text)))
        /\ 0 <= Z.of_nat (length (matching_keywords text)) <= 26
        /\ (forall kw, In kw (matching_keywords text) <->
                       In kw NEWSAPI_RELEVANCE_KEYWORDS
                       /\ PyStr.contains kw (PyStr.lower text) = true))
  /\ (forall art s row s',
        newsapi_article w art s = (Ok (Some row), s') ->
        exists d relevance,
          art = VDict d
          /\ Py.truthy (Py.dict_get d "title" VNone) = true
          /\ _supply_chain_relevance
               (VStr (str_of w (Py.dict_get d "title" (VStr "")) +:+ " " +:+
                      str_of w (Py.or (Py.dict_get d "description" VNone)
                                      (Py.dict_get d "title" (VStr ""))))) = Ok relevance
          /\ 1 <= relevance)
  /\ (forall d s,
        Py.truthy (Py.dict_get d "title" VNone) = false ->
        newsapi_article w (VDict d) s = (Ok None, s))
  /\ (forall d s relevance,
        Py.truthy (Py.dict_get d "title" VNone) = true ->
        _supply_chain_relevance
          (VStr (str_of w (Py.dict_get d "title" (VStr "")) +:+ " " +:+
                 str_of w (Py.or (Py.dict_get d "description" VNone)
                                 (Py.dict_get d "title" (VStr ""))))) = Ok relevance ->
        relevance < 1 ->
        newsapi_article w (VDict d) s = (Ok None, s)).
Proof.
  split.
  { split; [reflexivity |]. split; [| reflexivity].
    apply (bool_decide_unpack _). vm_compute. exact I. }
  split.
  { intros text. split; [apply relevance_counts_matches |]. split.
    - unfold matching_keywords.
      pose proof (List.filter_length_le
                    (fun kw => PyStr.contains kw (PyStr.lower text))
                    NEWSAPI_RELEVANCE_KEYWORDS) as Hle.
      change (length NEWSAPI_RELEVANCE_KEYWORDS) with 26%nat in Hle. lia.
    - intros kw. unfold matching_keywords.
      exact (List.filter_In (fun k => PyStr.contains k (PyStr.lower text)) kw
               NEWSAPI_RELEVANCE_KEYWORDS). }
  split.
  { intros art s row s' Hart. apply newsapi_article_row in Hart.
    destruct Hart as (d & title & desc & rel & risk & -> & Ht & -> & -> & Hrel & Hmin & _).
    exists d, rel. unfold NEWSAPI_MIN_RELEVANCE in Hmin. auto. }
  split; [intros; now apply newsapi_article_untitled |].
  intros; eapply newsapi_article_irrelevant; eauto.
Qed.

Lemma relevance_gate_witness :
  exists row s' relevance,
    newsapi_article secondary_world sample_article initial_state = (Ok (Some row), s')
    /\ _supply_chain_relevance (VStr "Port strike delays cargo Dockers walk out")
       = Ok relevance
    /\ 1 <= relevance.
Proof.
  assert (Hrun : exists row s',
             newsapi_article secondary_world sample_article initial_state
             = (Ok (Some row), s')) by (eexists _, _; vm_compute; reflexivity).
  destruct Hrun as (row & s' & Hrun).
  destruct (relevance_gate secondary_world) as (_ & _ & Hkeep & _).
  destruct (Hkeep _ _ _ _ Hrun) as (d & rel & Hd & _ & Hrel & Hone).
  inversion Hd; subst d.
  exists row, s', rel. split; [exact Hrun |]. split; [exact Hrel | exact Hone].
Defined.

(* ===================================================================== *)
(** ** Timestamps *)
(* ===================================================================== *)


Lemma length_append (a b : string) :
  String.length (a +:+ b) = (String.length a + String.length b)%nat.
Proof. induction a as [|c a IH]; [reflexivity |]. rewrite append_cons. simpl. now rewrite IH. Qed.






















Section Timestamps.

Context (w : World).








End Timestamps.



(* ===================================================================== *)
(** ** The event filters *)
(* ===================================================================== *)

Lemma select_rows_map (f : dict -> bool) (out : DataFrame) :
  select_rows (List.map f out) out = List.filter f out.
Proof.
  induction out as [|row out IH]; [reflexivity|].
  cbn [List.map select_rows List.filter]. rewrite IH. reflexivity.
Qed.

Lemma mask_and_map (f g : dict -> bool) (out : DataFrame) :
  mask_and (List.map f out) (List.map g out) = List.map (fun row => f row && g row) out.
Proof.
  unfold mask_and. induction out as [|row out IH]; [reflexivity|].
  cbn [List.map zip_with]. rewrite IH. reflexivity.
Qed.

Lemma mask_or_map (f g : dict -> bool) (out : DataFrame) :
  mask_or (List.map f out) (List.map g out) = List.map (fun row => f row || g row) out.
Proof.
  unfold mask_or. induction out as [|row out IH]; [reflexivity|].
  cbn [List.map zip_with]. rewrite IH. reflexivity.
Qed.

Lemma cell_ge_comparable (k : Z) (v : pyval) :
  comparable v = true -> cell_ge k v = Ok (truth (cell_ge k v)).
Proof. destruct v as [| | |[]| | | |]; cbn; intros H; try discriminate; reflexivity. Qed.

Lemma cell_le_comparable (k : Z) (v : pyval) :
  comparable v = true -> cell_le k v = Ok (truth (cell_le k v)).
Proof. destruct v as [| | |[]| | | |]; cbn; intros H; try discriminate; reflexivity. Qed.

Lemma has_number_cell (name : string) (row : dict) :
  has_number name row = true -> comparable (cell name row) = true.
Proof.
  unfold has_number, cell, Py.dict_get. destruct (Py.lookup name row); [tauto | discriminate].
Qed.

Lemma filterable_row_fields (row : dict) :
  filterable_row row = true ->
  has_number "risk_score" row = true /\ has_number "longitude" row = true
  /\ has_number "latitude" row = true
  /\ has_field "category" row = true /\ has_field "commodity" row = true.
Proof.
  unfold filterable_row. rewrite !andb_true_iff. tauto.
Qed.

Lemma has_number_field (name : string) (row : dict) :
  has_number name row = true -> has_field name row = true.
Proof. unfold has_number, has_field. destruct (Py.lookup name row); [reflexivity | discriminate]. Qed.

Section Masks.

Variables (df : DataFrame) (name : string).
Hypothesis Hcol : existsb (has_field name) df = true.

Lemma column_in_cells (out : DataFrame) :
  column_in df name out = Ok (List.map (cell name) out).
Proof.
  unfold column_in. change (fun row => match Py.lookup name row with
                                       | Some _ => true | None => false end)
    with (has_field name). rewrite Hcol. reflexivity.
Qed.

Lemma cells_ge_truth (k : Z) (out : DataFrame) :
  Forall (fun row => has_number name row = true) out ->
  cells_ge k (List.map (cell name) out)
  = Ok (List.map (fun row => truth (cell_ge k (cell name row))) out).
Proof.
  induction 1 as [|row out Hrow _ IH]; [reflexivity|].
  cbn [List.map cells_ge]. rewrite (cell_ge_comparable k _ (has_number_cell _ _ Hrow)).
  cbn [res_bind]. rewrite IH. reflexivity.
Qed.

Lemma cells_le_truth (k : Z) (out : DataFrame) :
  Forall (fun row => has_number name row = true) out ->
  cells_le k (List.map (cell name) out)
  = Ok (List.map (fun row => truth (cell_le k (cell name row))) out).
Proof.
  induction 1 as [|row out Hrow _ IH]; [reflexivity|].
  cbn [List.map cells_le]. rewrite (cell_le_comparable k _ (has_number_cell _ _ Hrow)).
  cbn [res_bind]. rewrite IH. reflexivity.
Qed.

Lemma ge_mask_truth (k : Z) (out : DataFrame) :
  Forall (fun row => has_number name row = true) out ->
  ge_mask df name k out = Ok (List.map (fun row => truth (cell_ge k (cell name row))) out).
Proof.
  intros H. unfold ge_mask. rewrite column_in_cells. cbn [res_bind].
  apply cells_ge_truth, H.
Qed.

Lemma le_mask_truth (k : Z) (out : DataFrame) :
  Forall (fun row => has_number name row = true) out ->
  le_mask df name k out = Ok (List.map (fun row => truth (cell_le k (cell name row))) out).
Proof.
  intros H. unfold le_mask. rewrite column_in_cells. cbn [res_bind].
  apply cells_le_truth, H.
Qed.

Lemma filter_choice_selects (choice : string) (out : DataFrame) :
  filter_choice df name choice out = Ok (List.filter (choice_ok name choice) out).
Proof.
  unfold filter_choice, choice_ok. destruct (negb (String.eqb choice "All")).
  - unfold eq_mask. rewrite column_in_cells. cbn [res_bind].
    rewrite List.map_map, select_rows_map. reflexivity.
  - f_equal. induction out as [|row out IH]; [reflexivity|].
    cbn [List.filter]. rewrite <- IH. reflexivity.
Qed.

End Masks.

Lemma filter_true {A} (l : list A) : List.filter (fun _ => true) l = l.
Proof. induction l as [|x l IH]; [reflexivity|]. cbn [List.filter]. rewrite IH. reflexivity. Qed.

Lemma filter_filter {A} (f g : A -> bool) (l : list A) :
  List.filter g (List.filter f l) = List.filter (fun x => f x && g x) l.
Proof.
  induction l as [|x l IH]; [reflexivity|].
  cbn [List.filter]. destruct (f x); cbn [List.filter andb]; rewrite IH; reflexivity.
Qed.

Lemma Forall_filter_keeps {A} (P : A -> Prop) (f : A -> bool) (l : list A) :
  Forall P l -> Forall P (List.filter f l).
Proof.
  induction 1 as [|x l Hx _ IH]; [constructor|].
  cbn [List.filter]. destruct (f x); [constructor|]; assumption.
Qed.

Lemma filterable_column (df : DataFrame) (name : string) :
  frame_empty df = false ->
  Forall (fun row => has_field name row = true) df ->
  existsb (has_field name) df = true.
Proof.
  intros Hne Hall. destruct df as [|row df]; [discriminate|].
  inversion Hall; subst. cbn [existsb]. apply orb_true_iff. left. assumption.
Qed.

Lemma filterable_frame_empty (df : DataFrame) :
  filterable df -> frame_empty df = true -> df = [].
Proof.
  intros Hdf Hempty. destruct df as [|row df]; [reflexivity|].
  inversion Hdf as [|? ? Hrow _]; subst.
  apply filterable_row_fields in Hrow. destruct Hrow as (_ & _ & _ & Hcat & _).
  cbn [frame_empty forallb] in Hempty. apply andb_true_iff in Hempty.
  destruct Hempty as [Hrow _]. destruct row; [discriminate Hcat | discriminate Hrow].
Qed.

Section Steps.

Variable df : DataFrame.
Hypothesis Hne : frame_empty df = false.
Hypothesis Hdf : filterable df.

Lemma filterable_has_number (name : string) (out : DataFrame) :
  In name ["risk_score"; "longitude"; "latitude"] ->
  filterable out -> Forall (fun row => has_number name row = true) out.
Proof.
  intros Hin Hout. eapply Forall_impl; [exact Hout|].
  intros row Hrow. apply filterable_row_fields in Hrow.
  cbn [In] in Hin. destruct Hin as [<-|[<-|[<-|[]]]]; tauto.
Qed.

Lemma filterable_number_column (name : string) :
  In name ["risk_score"; "longitude"; "latitude"] ->
  existsb (has_field name) df = true.
Proof.
  intros Hin. apply filterable_column; [exact Hne|].
  eapply Forall_impl; [exact (filterable_has_number name df Hin Hdf)|].
  intros row. apply has_number_field.
Qed.

Lemma filterable_text_column (name : string) :
  In name ["category"; "commodity"] ->
  existsb (has_field name) df = true.
Proof.
  intros Hin. apply filterable_column; [exact Hne|].
  eapply Forall_impl; [exact Hdf|].
  intros row Hrow. apply filterable_row_fields in Hrow.
  cbn [In] in Hin. destruct Hin as [<-|[<-|[]]]; tauto.
Qed.

Ltac number_masks Hout :=
  repeat first
    [ rewrite (ge_mask_truth df "risk_score"
                 (filterable_number_column "risk_score" ltac:(cbn; tauto)) _ _
                 (filterable_has_number "risk_score" _ ltac:(cbn; tauto) Hout))
    | rewrite (le_mask_truth df "risk_score"
                 (filterable_number_column "risk_score" ltac:(cbn; tauto)) _ _
                 (filterable_has_number "risk_score" _ ltac:(cbn; tauto) Hout))
    | rewrite (ge_mask_truth df "longitude"
                 (filterable_number_column "longitude" ltac:(cbn; tauto)) _ _
                 (filterable_has_number "longitude" _ ltac:(cbn; tauto) Hout))
    | rewrite (le_mask_truth df "longitude"
                 (filterable_number_column "longitude" ltac:(cbn; tauto)) _ _
                 (filterable_has_number "longitude" _ ltac:(cbn; tauto) Hout))
    | rewrite (ge_mask_truth df "latitude"
                 (filterable_number_column "latitude" ltac:(cbn; tauto)) _ _
                 (filterable_has_number "latitude" _ ltac:(cbn; tauto) Hout))
    | rewrite (le_mask_truth df "latitude"
                 (filterable_number_column "latitude" ltac:(cbn; tauto)) _ _
                 (filterable_has_number "latitude" _ ltac:(cbn; tauto) Hout))
    | progress cbn [res_bind]
    | rewrite mask_and_map
    | rewrite mask_or_map
    | rewrite select_rows_map ].

Lemma filter_risk_level_selects (risk_level : string) (out : DataFrame) :
  filterable out ->
  filter_risk_level df risk_level out = Ok (List.filter (risk_level_ok risk_level) out).
Proof.
  intros Hout. unfold filter_risk_level, risk_level_ok.
  destruct (String.eqb risk_level "Low"); [number_masks Hout; reflexivity|].
  destruct (String.eqb risk_level "Medium"); [number_masks Hout; reflexivity|].
  destruct (String.eqb risk_level "High"); [number_masks Hout; reflexivity|].
  rewrite filter_true. reflexivity.
Qed.

Lemma filter_region_selects (region : string) (out : DataFrame) :
  filterable out ->
  filter_region df region out = Ok (List.filter (region_ok region) out).
Proof.
  intros Hout. unfold filter_region, region_ok.
  destruct (String.eqb region "Asia"); [number_masks Hout; reflexivity|].
  destruct (String.eqb region "Europe"); [number_masks Hout; reflexivity|].
  destruct (String.eqb region "Americas"); [number_masks Hout; reflexivity|].
  destruct (String.eqb region "Africa"); [number_masks Hout; reflexivity|].
  rewrite filter_true. reflexivity.
Qed.

Lemma filter_events_steps (region risk_level category_filter commodity_filter : string) :
  filter_events df region risk_level category_filter commodity_filter
  = Ok (List.filter (row_passes region risk_level category_filter commodity_filter) df).
Proof.
  unfold filter_events. rewrite Hne.
  rewrite (filter_risk_level_selects _ _ Hdf). cbn [res_bind].
  rewrite filter_region_selects by (apply Forall_filter_keeps, Hdf). cbn [res_bind].
  rewrite (filter_choice_selects df "category"
             (filterable_text_column "category" ltac:(cbn; tauto))). cbn [res_bind].
  rewrite (filter_choice_selects df "commodity"
             (filterable_text_column "commodity" ltac:(cbn; tauto))). cbn [res_bind].
  rewrite !filter_filter. f_equal. apply List.filter_ext.
  intros row. unfold row_passes. rewrite !andb_assoc. reflexivity.
Qed.

End Steps.

Lemma filter_events_steps_or_empty (df : DataFrame)
    (region risk_level category_filter commodity_filter : string) :
  filterable df ->
  filter_events df region risk_level category_filter commodity_filter
  = Ok (List.filter (row_passes region risk_level category_filter commodity_filter) df).
Proof.
  intros Hdf. destruct (frame_empty df) eqn:Hne.
  - rewrite (filterable_frame_empty df Hdf Hne). reflexivity.
  - apply filter_events_steps; assumption.
Qed.

(** X1 ([filter_events], processing.py): on a table whose rows have the
    three numeric and the two text columns, the filters never raise and
    return exactly the rows that pass the risk-level, the region, the
    category and the commodity condition together, in the order of the
    input; no row is added or changed, so the result is never longer than
    the input and each of its rows is a row of the input. *)
Theorem filter_events_selects (df : DataFrame)
    (region risk_level category_filter commodity_filter : string) :
  filterable df ->
  exists out : DataFrame,
    filter_events df region risk_level category_filter commodity_filter = Ok out
    /\ out = List.filter (row_passes region risk_level category_filter commodity_filter) df
    /\ (length out <= length df)%nat
    /\ (forall row, In row out <->
          In row df
          /\ row_passes region risk_level category_filter commodity_filter row = true).
Proof.
  intros Hdf. eexists. split; [apply filter_events_steps_or_empty, Hdf|].
  split; [reflexivity|]. split.
  - apply List.filter_length_le.
  - intros row. apply List.filter_In.
Qed.

Lemma filterable_by_rows (df : DataFrame) :
  forallb filterable_row df = true -> filterable df.
Proof.
  intros H. apply List.Forall_forall. intros row Hin.
  rewrite forallb_forall in H. apply H, Hin.
Qed.

Lemma filter_events_selects_witness :
  exists out : DataFrame,
    filter_events sample_events "Europe" "Medium" "Disruption" "All" = Ok out
    /\ out = List.filter (row_passes "Europe" "Medium" "Disruption" "All") sample_events
    /\ (length out <= length sample_events)%nat
    /\ (forall row, In row out <->
          In row sample_events
          /\ row_passes "Europe" "Medium" "Disruption" "All" row = true).
Proof.
  apply (filter_events_selects sample_events "Europe" "Medium" "Disruption" "All").
  apply filterable_by_rows. vm_compute. reflexivity.
Defined.

(** X2 ([filter_events], processing.py): filtering is idempotent; applying
    the same filters to their own result returns that result again. *)
Theorem filter_events_idempotent (df out : DataFrame)
    (region risk_level category_filter commodity_filter : string) :
  filterable df ->
  filter_events df region risk_level category_filter commodity_filter = Ok out ->
  filter_events out region risk_level category_filter commodity_filter = Ok out.
Proof.
  intros Hdf Hout. rewrite filter_events_steps_or_empty in Hout by exact Hdf.
  injection Hout as <-.
  rewrite filter_events_steps_or_empty by (apply Forall_filter_keeps, Hdf).
  rewrite filter_filter. f_equal. apply List.filter_ext.
  intros row. apply andb_diag.
Qed.

Lemma filter_events_idempotent_witness :
  filter_events
    (List.filter (row_passes "Asia" "Low" "All" "Cement") sample_events)
    "Asia" "Low" "All" "Cement"
  = Ok (List.filter (row_passes "Asia" "Low" "All" "Cement") sample_events).
Proof.
  apply (filter_events_idempotent sample_events).
  - apply filterable_by_rows. vm_compute. reflexivity.
  - vm_compute. reflexivity.
Defined.

Lemma americas_covers_the_line (q : Q) :
  Qle_bool q (inject_Z (-50)) || Qle_bool (inject_Z (-170)) q = true.
Proof.
  destruct (Qle_bool q (inject_Z (-50))) eqn:E; [reflexivity|].
  cbn [orb]. apply Qle_bool_iff.
  destruct (Qlt_le_dec (inject_Z (-50)) q) as [Hlt|Hle].
  - apply Qlt_le_weak. eapply Qle_lt_trans; [|exact Hlt].
    unfold Qle. cbn. lia.
  - apply Qle_bool_iff in Hle. congruence.
Qed.

Lemma americas_keeps_located (row : dict) :
  located row = true -> region_ok "Americas" row = true.
Proof.
  unfold located, region_ok, cell, Py.dict_get. cbn [String.eqb Ascii.eqb Bool.eqb].
  destruct (Py.lookup "longitude" row) as [[| |n|[| |q]| | | |]|]; try discriminate; intros _.
  - cbn [cell_le cell_ge truth]. destruct (Z.leb_spec n (-50)); [reflexivity|].
    cbn [orb]. apply Z.leb_le. lia.
  - cbn [cell_le cell_ge truth]. destruct negative; reflexivity.
  - cbn [cell_le cell_ge truth]. apply americas_covers_the_line.
Qed.

(** X3 ([filter_events], processing.py): the Americas region keeps every
    row whose longitude is a number: its condition, longitude at most -50
    or at least -170, holds for every number, so choosing Americas returns
    what no region filter returns, rows of Asia and Europe included. *)
Theorem americas_filter_keeps_every_row (df : DataFrame)
    (risk_level category_filter commodity_filter : string) :
  filterable df ->
  Forall (fun row => located row = true) df ->
  filter_events df "Americas" risk_level category_filter commodity_filter
  = filter_events df "All" risk_level category_filter commodity_filter.
Proof.
  intros Hdf Hloc. rewrite !filter_events_steps_or_empty by exact Hdf.
  f_equal. apply List.filter_ext_in. intros row Hin.
  rewrite List.Forall_forall in Hloc. unfold row_passes.
  rewrite (americas_keeps_located row (Hloc row Hin)). reflexivity.
Qed.

Lemma located_by_rows (df : DataFrame) :
  forallb located df = true -> Forall (fun row => located row = true) df.
Proof.
  intros H. apply List.Forall_forall. intros row Hin.
  rewrite forallb_forall in H. apply H, Hin.
Qed.

Lemma americas_filter_keeps_every_row_witness :
  filter_events sample_events "Americas" "All" "All" "All"
  = filter_events sample_events "All" "All" "All" "All"
  /\ filter_events sample_events "Americas" "All" "All" "All" = Ok sample_events.
Proof.
  split.
  - apply (americas_filter_keeps_every_row sample_events "All" "All" "All").
    + apply filterable_by_rows. vm_compute. reflexivity.
    + apply located_by_rows. vm_compute. reflexivity.
  - vm_compute. reflexivity.
Defined.

Lemma risk_levels_split (base : DataFrame) :
  Forall (fun row => exists n, Py.lookup "risk_score" row = Some (VInt n)) base ->
  Permutation base
    (List.filter (risk_level_ok "Low") base
     ++ List.filter (risk_level_ok "Medium") base
     ++ List.filter (risk_level_ok "High") base).
Proof.
  induction 1 as [|row base [n Hn] _ IH]; [constructor|].
  cbn [List.filter].
  assert (Hlow : risk_level_ok "Low" row = (n <=? 3)).
  { unfold risk_level_ok, cell, Py.dict_get. rewrite Hn. reflexivity. }
  assert (Hmed : risk_level_ok "Medium" row = (4 <=? n) && (n <=? 6)).
  { unfold risk_level_ok, cell, Py.dict_get. rewrite Hn. reflexivity. }
  assert (Hhigh : risk_level_ok "High" row = (7 <=? n)).
  { unfold risk_level_ok, cell, Py.dict_get. rewrite Hn. reflexivity. }
  rewrite Hlow, Hmed, Hhigh.
  destruct (Z.leb_spec n 3); [|destruct (Z.leb_spec n 6)].
  - replace (4 <=? n) with false by (symmetry; apply Z.leb_gt; lia).
    replace (7 <=? n) with false by (symmetry; apply Z.leb_gt; lia).
    cbn [andb]. rewrite <- app_comm_cons. apply perm_skip, IH.
  - replace (4 <=? n) with true by (symmetry; apply Z.leb_le; lia).
    replace (7 <=? n) with false by (symmetry; apply Z.leb_gt; lia).
    cbn [andb]. apply Permutation_cons_app, IH.
  - replace (7 <=? n) with true by (symmetry; apply Z.leb_le; lia).
    rewrite andb_false_r.
    rewrite app_assoc. apply Permutation_cons_app. rewrite <- app_assoc. apply IH.
Qed.

Lemma row_passes_level (region risk_level category_filter commodity_filter : string)
    (df : DataFrame) :
  List.filter (row_passes region risk_level category_filter commodity_filter) df
  = List.filter (risk_level_ok risk_level)
      (List.filter (row_passes region "All" category_filter commodity_filter) df).
Proof.
  rewrite filter_filter. apply List.filter_ext. intros row.
  unfold row_passes. change (risk_level_ok "All" row) with true. cbn [andb].
  rewrite (andb_comm _ (risk_level_ok risk_level row)), !andb_assoc. reflexivity.
Qed.

(** X4 ([filter_events], processing.py): on a table with integer risk
    scores the three risk levels split what the other filters return:
    every row that passes with risk level All passes with exactly one of
    Low, Medium and High. *)
Theorem risk_levels_partition (df : DataFrame)
    (region category_filter commodity_filter : string) :
  filterable df ->
  Forall (fun row => exists n, Py.lookup "risk_score" row = Some (VInt n)) df ->
  exists every low medium high : DataFrame,
    filter_events df region "All" category_filter commodity_filter = Ok every
    /\ filter_events df region "Low" category_filter commodity_filter = Ok low
    /\ filter_events df region "Medium" category_filter commodity_filter = Ok medium
    /\ filter_events df region "High" category_filter commodity_filter = Ok high
    /\ Permutation every (low ++ medium ++ high).
Proof.
  intros Hdf Hint. rewrite !filter_events_steps_or_empty by exact Hdf.
  do 4 eexists. do 4 (split; [reflexivity|]).
  rewrite (row_passes_level region "Low"), (row_passes_level region "Medium"),
    (row_passes_level region "High").
  apply risk_levels_split, Forall_filter_keeps, Hint.
Qed.

Lemma risk_levels_partition_witness :
  exists every low medium high : DataFrame,
    filter_events sample_events "All" "All" "All" "All" = Ok every
    /\ filter_events sample_events "All" "Low" "All" "All" = Ok low
    /\ filter_events sample_events "All" "Medium" "All" "All" = Ok medium
    /\ filter_events sample_events "All" "High" "All" "All" = Ok high
    /\ Permutation every (low ++ medium ++ high).
Proof.
  apply (risk_levels_partition sample_events "All" "All" "All").
  - apply filterable_by_rows. vm_compute. reflexivity.
  - repeat constructor; eexists; reflexivity.
Defined.

Lemma health_index_formula (df : DataFrame) :
  schema_ok df ->
  calculate_health_index df
  = Ok (Z.min 100 (Z.max 0 (100 - high_risk_count df * 5 - disruption_count df * 3))).
Proof.
  intros Hok. unfold calculate_health_index.
  destruct df as [|row rest] eqn:E; [reflexivity|].
  rewrite <- E in *. assert (Hne : df <> []) by (rewrite E; discriminate).
  rewrite (frame_empty_schema df Hok Hne).
  assert (Hrisk : Forall (fun row => exists v, Py.lookup "risk_score" row = Some v) df).
  { eapply Forall_impl; [exact Hok |]. intros r [[n Hn] _]. eauto. }
  assert (Hcat : Forall (fun row => exists v, Py.lookup "category" row = Some v) df).
  { eapply Forall_impl; [exact Hok |]. intros r [_ Hc]. exact Hc. }
  assert (Hint : Forall (fun row => exists n, Py.lookup "risk_score" row = Some (VInt n)) df).
  { eapply Forall_impl; [exact Hok |]. intros r [Hn _]. exact Hn. }
  rewrite (column_present _ _ Hrisk Hne). cbn [res_bind].
  rewrite (cells_ge_int _ _ Hint). cbn [res_bind].
  rewrite (column_present _ _ Hcat Hne). cbn [res_bind].
  rewrite category_cells, !count_true_map. reflexivity.
Qed.

Lemma filter_length_filter {A} (f g : A -> bool) (l : list A) :
  (length (List.filter g (List.filter f l)) <= length (List.filter g l))%nat.
Proof.
  induction l as [|x l IH]; [reflexivity|].
  cbn [List.filter]. destruct (f x); cbn [List.filter]; destruct (g x); cbn [length]; lia.
Qed.

(** X5 ([filter_events], [calculate_health_index]; app.py computes the
    index of the filtered table): on a table in the event schema both
    return, and the index of the filtered table is never below the index
    of the whole table; narrowing the view cannot make the gauge worse. *)
Theorem filtering_never_lowers_health (df : DataFrame)
    (region risk_level category_filter commodity_filter : string) :
  filterable df ->
  schema_ok df ->
  exists (out : DataFrame) (whole filtered : Z),
    filter_events df region risk_level category_filter commodity_filter = Ok out
    /\ calculate_health_index df = Ok whole
    /\ calculate_health_index out = Ok filtered
    /\ whole <= filtered <= 100.
Proof.
  intros Hdf Hok. rewrite filter_events_steps_or_empty by exact Hdf.
  set (keep := row_passes region risk_level category_filter commodity_filter).
  assert (Hout : schema_ok (List.filter keep df)) by (apply Forall_filter_keeps, Hok).
  exists (List.filter keep df). do 2 eexists.
  split; [reflexivity|].
  split; [apply health_index_formula, Hok|].
  split; [apply health_index_formula, Hout|].
  assert (high_risk_count (List.filter keep df) <= high_risk_count df).
  { unfold high_risk_count. apply inj_le, filter_length_filter. }
  assert (disruption_count (List.filter keep df) <= disruption_count df).
  { unfold disruption_count. apply inj_le, filter_length_filter. }
  lia.
Qed.

Lemma filtering_never_lowers_health_witness :
  exists (out : DataFrame) (whole filtered : Z),
    filter_events sample_events "Europe" "All" "All" "All" = Ok out
    /\ calculate_health_index sample_events = Ok whole
    /\ calculate_health_index out = Ok filtered
    /\ whole <= filtered <= 100.
Proof.
  apply (filtering_never_lowers_health sample_events "Europe" "All" "All" "All").
  - apply filterable_by_rows. vm_compute. reflexivity.
  - repeat constructor; eexists; reflexivity.
Defined.

(** X6 ([get_risk_color], viz.py, against the risk levels of
    [filter_events]): for an integer risk score the marker colour and the
    risk level agree: red exactly for the rows the High filter keeps,
    amber for Medium, green for Low, scores of 0 and below included. *)
Theorem risk_color_matches_level (row : dict) (n : Z) :
  Py.lookup "risk_score" row = Some (VInt n) ->
  (get_risk_color n = red <-> risk_level_ok "High" row = true)
  /\ (get_risk_color n = amber <-> risk_level_ok "Medium" row = true)
  /\ (get_risk_color n = green <-> risk_level_ok "Low" row = true).
Proof.
  intros Hn.
  assert (Hlow : risk_level_ok "Low" row = (n <=? 3)).
  { unfold risk_level_ok, cell, Py.dict_get. rewrite Hn. reflexivity. }
  assert (Hmed : risk_level_ok "Medium" row = (4 <=? n) && (n <=? 6)).
  { unfold risk_level_ok, cell, Py.dict_get. rewrite Hn. reflexivity. }
  assert (Hhigh : risk_level_ok "High" row = (7 <=? n)).
  { unfold risk_level_ok, cell, Py.dict_get. rewrite Hn. reflexivity. }
  rewrite Hlow, Hmed, Hhigh. unfold get_risk_color, red, amber, green.
  destruct (Z.leb_spec 7 n); [|destruct (Z.leb_spec 4 n)].
  - replace (n <=? 3) with false by (symmetry; apply Z.leb_gt; lia).
    replace (n <=? 6) with false by (symmetry; apply Z.leb_gt; lia).
    rewrite andb_false_r. repeat split; intros; (reflexivity || discriminate).
  - replace (n <=? 3) with false by (symmetry; apply Z.leb_gt; lia).
    replace (n <=? 6) with true by (symmetry; apply Z.leb_le; lia).
    repeat split; intros; (reflexivity || discriminate).
  - replace (n <=? 3) with true by (symmetry; apply Z.leb_le; lia).
    repeat split; intros; (reflexivity || discriminate).
Qed.

Lemma risk_color_matches_level_witness :
  (get_risk_color 0 = red <-> risk_level_ok "High" [("risk_score", VInt 0)] = true)
  /\ (get_risk_color 0 = amber <-> risk_level_ok "Medium" [("risk_score", VInt 0)] = true)
  /\ (get_risk_color 0 = green <-> risk_level_ok "Low" [("risk_score", VInt 0)] = true).
Proof.
  apply (risk_color_matches_level [("risk_score", VInt 0)] 0). reflexivity.
Defined.

(* ===================================================================== *)
(** ** The executive brief and the questions *)
(* ===================================================================== *)

Lemma rstrip_idempotent (s : string) : PyStr.rstrip (PyStr.rstrip s) = PyStr.rstrip s.
Proof.
  induction s as [|c s IH]; [reflexivity|].
  cbn [PyStr.rstrip]. destruct (PyStr.rstrip s) as [|c' s'] eqn:E.
  - destruct (PyStr.is_space c) eqn:Hc; [reflexivity|].
    cbn [PyStr.rstrip]. rewrite Hc. reflexivity.
  - change (PyStr.rstrip (String c (String c' s')))
      with (match PyStr.rstrip (String c' s') with
            | EmptyString => if PyStr.is_space c then EmptyString else String c EmptyString
            | r' => String c r'
            end).
    rewrite IH. reflexivity.
Qed.

Lemma lstrip_head (s : string) :
  match PyStr.lstrip s with
  | EmptyString => True
  | String c _ => PyStr.is_space c = false
  end.
Proof.
  induction s as [|c s IH]; [exact I|].
  cbn [PyStr.lstrip]. destruct (PyStr.is_space c) eqn:Hc; [exact IH | exact Hc].
Qed.

Lemma rstrip_head (c : ascii) (s : string) :
  PyStr.is_space c = false -> exists r, PyStr.rstrip (String c s) = String c r.
Proof.
  intros Hc. cbn [PyStr.rstrip]. destruct (PyStr.rstrip s); rewrite ?Hc; eauto.
Qed.

Lemma strip_idempotent (s : string) : PyStr.strip (PyStr.strip s) = PyStr.strip s.
Proof.
  unfold PyStr.strip. pose proof (lstrip_head s) as Hhead.
  destruct (PyStr.lstrip s) as [|c r]; [reflexivity|].
  destruct (rstrip_head c r Hhead) as [r' Hr]. rewrite Hr.
  cbn [PyStr.lstrip]. rewrite Hhead, <- Hr. apply rstrip_idempotent.
Qed.

Lemma strip_empty_guard (s : string) :
  String.eqb (PyStr.strip s) "" || String.eqb (PyStr.strip (PyStr.strip s)) ""
  = String.eqb s "" || String.eqb (PyStr.strip s) "".
Proof.
  rewrite strip_idempotent, orb_diag.
  destruct (String.eqb_spec s "") as [->|_]; reflexivity.
Qed.


Section Brief.

Context (w : World) (generate_content : string -> string -> res pyval).
Context (iterrows_cell : DataFrame -> dict -> string -> pyval).

Lemma brief_try_result (events_df : DataFrame) (api_key : string) (result : pyval) :
  get_executive_brief_try w generate_content iterrows_cell events_df api_key = Ok result ->
  exists (summary : string) (risks : list string),
    result = VDict [("summary", VStr summary); ("top_risks", VList (List.map VStr risks))]
    /\ (length risks <= 3)%nat.
Proof.
  unfold get_executive_brief_try. cbv zeta.
  destruct (generate_content _ _) as [e|reply]; cbn [res_bind]; [discriminate|].
  destruct (Py.strip (Py.or reply (VStr ""))) as [e|text]; cbn [res_bind]; [discriminate|].
  destruct (brief_sections text) as [summary top_risks].
  intros H. injection H as <-.
  exists (if String.eqb summary "" then text else summary), (List.firstn 3 top_risks).
  split.
  - unfold Py.or, Py.truthy. destruct (String.eqb summary ""); reflexivity.
  - apply List.firstn_le_length.
Qed.

(** X7 ([get_executive_brief], data.py): the brief never raises and has
    one of three forms: the missing-key error alone; a summary with at
    most three risks, all strings; or an error text with an empty summary
    and no risks.  Without a usable key, or with an empty table (one
    without rows or without columns), the result is fixed and does not
    depend on what the service would reply. *)
Theorem executive_brief_forms (events_df : DataFrame) (api_key : string) :
  brief_result (get_executive_brief w generate_content iterrows_cell events_df api_key)
  /\ (~ usable_key api_key ->
      get_executive_brief w generate_content iterrows_cell events_df api_key
      = VDict [("error", VStr "No API key")])
  /\ (usable_key api_key -> frame_empty events_df = true ->
      get_executive_brief w generate_content iterrows_cell events_df api_key
      = VDict [("summary", VStr "No events to summarize."); ("top_risks", VList [])]).
Proof.
  unfold usable_key, get_executive_brief.
  destruct (String.eqb api_key "" || String.eqb (PyStr.strip api_key) "").
  { split; [left; reflexivity|]. split; [reflexivity | discriminate]. }
  split; [|split; [intros H; exfalso; apply H; reflexivity | intros _ ->; reflexivity]].
  destruct (frame_empty events_df).
  { right. left. exists "No events to summarize.", []. split; [reflexivity | cbn; lia]. }
  destruct (get_executive_brief_try w generate_content iterrows_cell events_df api_key) as [e|result] eqn:E.
  - right. right. eexists. reflexivity.
  - right. left. eapply brief_try_result, E.
Qed.




(** X9 ([ask_gemini_about_data], data.py): a question is answered with a
    text in every case.  A missing key is reported before a missing
    question, and neither reaches the service; otherwise the answer is the
    trimmed reply, the empty text for a reply without text, and a text
    that starts with [Error: ] when the service or the reply fails. *)
Theorem ask_outcomes (events_df : DataFrame) (question api_key : string) :
  let answer := ask_gemini_about_data w generate_content iterrows_cell events_df question api_key in
  let prompt := ask_prompt (_events_context_for_gemini w iterrows_cell events_df 20) question in
  (~ usable_key api_key -> answer = "Please set a Gemini API key in the sidebar.")
  /\ (usable_key api_key -> ~ usable_key question -> answer = "Please enter a question.")
  /\ (usable_key api_key -> usable_key question ->
      match generate_content (PyStr.strip api_key) prompt with
      | Ok (VStr raw) => answer = PyStr.strip raw
      | Ok reply =>
          if Py.truthy reply
          then exists msg, answer = "Error: " +:+ msg
          else answer = EmptyString
      | Raise e => answer = "Error: " +:+ exn_msg e
      end).
Proof.
  cbv zeta. unfold usable_key, ask_gemini_about_data.
  destruct (String.eqb api_key "" || String.eqb (PyStr.strip api_key) "").
  { split; [reflexivity|]. split; discriminate. }
  split; [intros H; exfalso; apply H; reflexivity|].
  destruct (String.eqb question "" || String.eqb (PyStr.strip question) "").
  { split; [reflexivity | discriminate]. }
  split; [intros _ H; exfalso; apply H; reflexivity|].
  intros _ _.
  destruct (generate_content _ _) as [e|reply]; cbn [res_bind]; [reflexivity|].
  destruct reply as [| b | n | f | raw | l | d | y mo dd h mi]; unfold Py.or;
    try (destruct (Py.truthy _) eqn:Ht; [eexists; reflexivity | reflexivity]).
  destruct (Py.truthy (VStr raw)) eqn:Ht; [reflexivity|].
  cbn in Ht. apply negb_false_iff, String.eqb_eq in Ht. subst raw. reflexivity.
Qed.

Lemma typed_table_not_empty (df : DataFrame) :
  typed_table df = true -> df <> [] -> frame_empty df = false.
Proof.
  intros Htyped Hne. destruct df as [|row df]; [congruence|].
  cbn [typed_table forallb] in Htyped. apply andb_true_iff in Htyped.
  destruct Htyped as [Hrow _]. destruct row; [discriminate Hrow | reflexivity].
Qed.

Lemma typed_row_get (df : DataFrame) (row : dict) (name : string) (default : pyval) :
  typed_table df = true -> df <> [] ->
  In name ["headline"; "risk_score"; "category"; "location"] ->
  row_get iterrows_cell df row name default = Py.dict_get row name default.
Proof.
  intros Htyped Hne Hin. unfold row_get. rewrite Htyped.
  destruct df as [|first df]; [congruence|].
  cbn [typed_table forallb] in Htyped. apply andb_true_iff in Htyped.
  destruct Htyped as [Hrow _]. unfold typed_row in Hrow.
  destruct (Py.lookup "headline" first) as [[]|] eqn:Hh; try discriminate Hrow.
  destruct (Py.lookup "risk_score" first) as [[]|] eqn:Hr; try discriminate Hrow.
  destruct (Py.lookup "category" first) as [[]|] eqn:Hc; try discriminate Hrow.
  destruct (Py.lookup "location" first) as [[]|] eqn:Hl; try discriminate Hrow.
  cbn [existsb]. cbn [In] in Hin.
  destruct Hin as [<-|[<-|[<-|[<-|[]]]]];
    rewrite ?Hh, ?Hr, ?Hc, ?Hl; reflexivity.
Qed.

Lemma typed_context_line (df : DataFrame) (row : dict) :
  typed_table df = true -> df <> [] ->
  context_line w iterrows_cell df row
  = "- [" +:+ fstr w (Py.dict_get row "risk_score" (VInt 0)) +:+ "/10] "
    +:+ fstr w (Py.dict_get row "headline" (VStr "?")) +:+ " | "
    +:+ fstr w (Py.dict_get row "category" (VStr "?")) +:+ " | "
    +:+ fstr w (Py.dict_get row "location" (VStr "?")).
Proof.
  intros Htyped Hne. unfold context_line. cbv zeta.
  rewrite !(typed_row_get df row _ _ Htyped Hne) by (cbn [In]; tauto).
  reflexivity.
Qed.

Lemma context_of_first_rows (events_df more : DataFrame) :
  length events_df = 20%nat ->
  typed_table (events_df ++ more) = true ->
  _events_context_for_gemini w iterrows_cell (events_df ++ more) 20
  = _events_context_for_gemini w iterrows_cell events_df 20.
Proof.
  intros Hlen Hall. unfold _events_context_for_gemini.
  assert (Hfirst : typed_table events_df = true).
  { unfold typed_table in *. rewrite forallb_app in Hall.
    apply andb_true_iff in Hall. tauto. }
  assert (Hne : events_df <> []) by (intros ->; discriminate Hlen).
  assert (Hne' : events_df ++ more <> []).
  { intros H. apply app_eq_nil in H. tauto. }
  rewrite (typed_table_not_empty _ Hall Hne'), (typed_table_not_empty _ Hfirst Hne).
  cbv zeta. f_equal.
  rewrite List.firstn_app, <- Hlen, List.firstn_all, Nat.sub_diag.
  cbn [List.firstn]. rewrite app_nil_r.
  apply List.map_ext. intros r.
  rewrite (typed_context_line _ r Hall Hne'), (typed_context_line _ r Hfirst Hne).
  reflexivity.
Qed.

(** X10 ([_events_context_for_gemini] under [get_executive_brief] and
    [ask_gemini_about_data], data.py): in a table where every row has a
    text as headline, category and location and an integer as risk score,
    only the first twenty events reach the service; what follows them in
    the table changes neither the brief nor an answer.  (Where a later row
    has a risk score that is not an integer, or none, pandas changes the
    type of the column and with it the text of the first twenty lines.) *)
Theorem only_first_twenty_events (events_df more : DataFrame) (question api_key : string) :
  length events_df = 20%nat ->
  typed_table (events_df ++ more) = true ->
  get_executive_brief w generate_content iterrows_cell (events_df ++ more) api_key
  = get_executive_brief w generate_content iterrows_cell events_df api_key
  /\ ask_gemini_about_data w generate_content iterrows_cell (events_df ++ more) question api_key
     = ask_gemini_about_data w generate_content iterrows_cell events_df question api_key.
Proof.
  intros Hlen Hall. pose proof (context_of_first_rows _ _ Hlen Hall) as Hctx.
  assert (Hfirst : typed_table events_df = true).
  { unfold typed_table in *. rewrite forallb_app in Hall.
    apply andb_true_iff in Hall. tauto. }
  assert (Hne : events_df <> []) by (intros ->; discriminate Hlen).
  assert (Hne' : events_df ++ more <> []).
  { intros H. apply app_eq_nil in H. tauto. }
  unfold get_executive_brief, get_executive_brief_try, ask_gemini_about_data.
  cbv zeta. rewrite Hctx.
  rewrite (typed_table_not_empty _ Hall Hne'), (typed_table_not_empty _ Hfirst Hne).
  split; reflexivity.
Qed.

(** X11 ([get_executive_brief], [ask_gemini_about_data], data.py): white
    space around the key or around the question changes nothing: the
    stripped key and the stripped question give the same brief and the
    same answer. *)
Theorem surrounding_space_is_ignored (events_df : DataFrame) (question api_key : string) :
  get_executive_brief w generate_content iterrows_cell events_df (PyStr.strip api_key)
  = get_executive_brief w generate_content iterrows_cell events_df api_key
  /\ ask_gemini_about_data w generate_content iterrows_cell events_df
       (PyStr.strip question) (PyStr.strip api_key)
     = ask_gemini_about_data w generate_content iterrows_cell events_df question api_key.
Proof.
  unfold get_executive_brief, get_executive_brief_try, ask_gemini_about_data, ask_prompt.
  cbv zeta. rewrite !strip_empty_guard, !strip_idempotent. split; reflexivity.
Qed.

End Brief.


Lemma only_first_twenty_events_witness :
  get_executive_brief offline_world echo_service sample_cells
    (twenty_events ++ one_more_event) "k3y"
  = get_executive_brief offline_world echo_service sample_cells twenty_events "k3y"
  /\ ask_gemini_about_data offline_world echo_service sample_cells
       (twenty_events ++ one_more_event) "Which ports are at risk?" "k3y"
     = ask_gemini_about_data offline_world echo_service sample_cells twenty_events
         "Which ports are at risk?" "k3y".
Proof.
  apply (only_first_twenty_events offline_world echo_service sample_cells
           twenty_events one_more_event "Which ports are at risk?" "k3y").
  - reflexivity.
  - vm_compute. reflexivity.
Defined.

(* ===================================================================== *)
(** ** The records of the live sources *)
(* ===================================================================== *)

Lemma category_is_listed (title : pyval) (category : string) :
  _category_from_title title = Ok category -> In category CATEGORIES.
Proof.
  unfold _category_from_title.
  destruct (Py.lower (Py.or title (VStr ""))) as [e|t]; cbn [res_bind]; [discriminate|].
  intros H. injection H as <-.
  repeat match goal with
         | |- context [if ?b then _ else _] => destruct b
         end; cbn; tauto.
Qed.

Lemma take_at_most (n : nat) (v taken : pyval) :
  Py.take n v = Ok taken -> at_most n taken.
Proof.
  destruct v; cbn; intros H; try discriminate; injection H as <-; cbn.
  - apply substring_length_le.
  - apply List.firstn_le_length.
Qed.

Section Records.

Context (w : World).

Lemma event_row_record (headline snippet source source_url timestamp risk_score : pyval)
    (s s' : State) (row : dict) :
  _event_row w headline snippet source source_url timestamp risk_score s = (Ok row, s') ->
  event_record row.
Proof.
  unfold _event_row. intros H. inv_ok. subst row. unfold event_record.
  split; [reflexivity|].
  split; [eexists; split; [reflexivity | apply substring_length_le]|].
  split; [eexists; split; [reflexivity | eapply take_at_most; eassumption]|].
  split; [eexists; split; [reflexivity | eapply category_is_listed; eassumption]|].
  repeat split.
Qed.

Lemma gdelt_article_record (art : pyval) (s s' : State) (row : dict) :
  gdelt_article w art s = (Ok (Some row), s') -> event_record row.
Proof.
  unfold gdelt_article. intros H. inv_ok.
  repeat match goal with
         | E : Some _ = Some _ |- _ => inversion E; subst; clear E
         end.
  match goal with
  | Hrow : _event_row _ _ _ _ _ _ _ _ = _ |- _ => exact (event_row_record _ _ _ _ _ _ _ _ _ Hrow)
  end.
Qed.

Lemma newsapi_article_record (art : pyval) (s s' : State) (row : dict) :
  newsapi_article w art s = (Ok (Some row), s') -> event_record row.
Proof.
  unfold newsapi_article. intros H. inv_ok.
  match type of H with
  | (if ?b then _ else _) _ = _ => destruct b; [inv_ok; discriminate |]
  end.
  inv_ok. cbv zeta in H. inv_ok.
  match type of H with
  | (if ?b then _ else _) _ = _ => destruct b; [inv_ok; discriminate |]
  end.
  inv_ok.
  repeat match goal with
         | E : Some _ = Some _ |- _ => inversion E; subst; clear E
         end.
  match goal with
  | Hrow : _event_row _ _ _ _ _ _ _ _ = _ |- _ => exact (event_row_record _ _ _ _ _ _ _ _ _ Hrow)
  end.
Qed.

Lemma rss_entry_record (feed : pyval) (feed_url : string) (e : pyval)
    (s s' : State) (row : dict) :
  rss_entry w feed feed_url e s = (Ok (Some row), s') -> event_record row.
Proof.
  unfold rss_entry. intros H. inv_ok. cbv zeta in H.
  match type of H with
  | (if ?b then _ else _) _ = _ => destruct b; [inv_ok; discriminate |]
  end.
  inv_ok.
  repeat match goal with
         | E : Some _ = Some _ |- _ => inversion E; subst; clear E
         end.
  match goal with
  | Hrow : _event_row _ _ _ _ _ _ _ _ = _ |- _ => exact (event_row_record _ _ _ _ _ _ _ _ _ Hrow)
  end.
Qed.

(** A property of the rows the loop bodies build holds of the tables the
    secondary and the tertiary fetcher return. *)
Lemma fetch_newsapi_events_body_Forall (P : dict -> Prop) (api_key query : string)
    (s s' : State) (df : DataFrame) :
  (forall art s0 row s0', newsapi_article w art s0 = (Ok (Some row), s0') -> P row) ->
  fetch_newsapi_events_body w api_key query s = (Ok df, s') ->
  Forall P df.
Proof.
  intros Hart. unfold fetch_newsapi_events_body.
  destruct (String.eqb api_key "" || String.eqb (PyStr.strip api_key) "").
  { intros H. inversion H. constructor. }
  unfold try_except, fetch_newsapi_events_try. rewrite requests_get_bind.
  destruct (http_get w (newsapi_url w api_key query) (net_calls s)) as [e|response].
  { intros H. inversion H. constructor. }
  destruct (status_code response =? 429).
  { intros H. inversion H. constructor. }
  rewrite raise_for_status_bind.
  destruct ((400 <=? status_code response) && (status_code response <? 600)).
  { intros H. inversion H. constructor. }
  match goal with
  | |- match ?c ?st with _ => _ end = _ -> _ => destruct (c st) as [[e|df0] s1] eqn:Hrun
  end.
  { intros H. inversion H. constructor. }
  intros H. inversion H; subst. inv_ok.
  eapply for_rows_Forall; [| constructor | exact Hrun].
  intros x s0 row s0' Hrow. eapply Hart; eauto.
Qed.

Section Feeds.

Variable P : dict -> Prop.
Hypothesis Hentry : forall feed feed_url e s row s',
  rss_entry w feed feed_url e s = (Ok (Some row), s') -> P row.

Lemma rss_entries_Forall (feed : pyval) (feed_url : string) (es : list pyval) :
  forall rows s rows' o s',
    Forall P rows ->
    rss_entries w feed feed_url es rows s = ((rows', o), s') ->
    Forall P rows'.
Proof.
  induction es as [|e es IH]; intros rows s rows' o s' Hrows; simpl.
  - intros H. inversion H; subst. exact Hrows.
  - destruct (rss_entry w feed feed_url e s) as [[x|[row|]] s1] eqn:He.
    + intros H. inversion H; subst. exact Hrows.
    + apply IH. apply Forall_app. split; [exact Hrows |].
      constructor; [eapply Hentry; eauto | constructor].
    + apply IH. exact Hrows.
Qed.

Lemma rss_feed_Forall (feed_url : string) (rows rows' : DataFrame) (s s' : State) :
  Forall P rows ->
  rss_feed w feed_url rows s = (Ok rows', s') ->
  Forall P rows'.
Proof.
  intros Hrows. unfold rss_feed.
  match goal with |- context [match ?c s with _ => _ end] =>
    destruct (c s) as [[e|[feed es]] s1] end.
  - intros H. inversion H; subst. exact Hrows.
  - destruct (rss_entries w feed feed_url es rows s1) as [[rows1 o] s2] eqn:Hent.
    intros H. inversion H; subst. eapply rss_entries_Forall; eauto.
Qed.

Lemma rss_feeds_Forall (feeds : list string) :
  forall rows rows' s s',
    Forall P rows ->
    rss_feeds w feeds rows s = (Ok rows', s') ->
    Forall P rows'.
Proof.
  induction feeds as [|u feeds IH]; intros rows rows' s s' Hrows; cbn [rss_feeds].
  - intros H. inv_ok. now subst.
  - intros H. inv_ok. eapply IH; [| exact H]. eapply rss_feed_Forall; eauto.
Qed.

Lemma fetch_rss_events_Forall (s s' : State) (df : DataFrame) :
  fetch_rss_events w s = (Ok df, s') -> Forall P df.
Proof.
  unfold fetch_rss_events. destruct (feedparser_available w); cbn [negb].
  - apply rss_feeds_Forall. constructor.
  - intros H. inversion H. constructor.
Qed.

End Feeds.

(** X12 ([_event_row] under [fetch_gdelt_events], [fetch_newsapi_events]
    and [fetch_rss_events], data.py): every row a live source returns is
    an event record: the thirteen keys in their order, a headline of at
    most 500 characters, a snippet of at most 200, one of the six
    categories, location [Global Signal (Live)], commodity [Mixed], an
    empty reasoning and no analysis. *)
Theorem live_rows_are_event_records (s s' : State) (df : DataFrame) :
  (forall query max_records,
     fetch_gdelt_events_body w query max_records s = (Ok df, s') -> Forall event_record df)
  /\ (forall api_key query,
        fetch_newsapi_events_body w api_key query s = (Ok df, s') -> Forall event_record df)
  /\ (fetch_rss_events w s = (Ok df, s') -> Forall event_record df).
Proof.
  split; [|split].
  - intros query max_records. apply fetch_gdelt_events_body_Forall.
    intros art s0 row s0'. apply gdelt_article_record.
  - intros api_key query. apply fetch_newsapi_events_body_Forall.
    intros art s0 row s0'. apply newsapi_article_record.
  - apply fetch_rss_events_Forall.
    intros feed feed_url e s0 row s0'. apply rss_entry_record.
Qed.

Lemma take_not_empty (n : nat) (text : string) :
  text <> EmptyString -> PyStr.take (S n) text <> EmptyString.
Proof. destruct text; [congruence | discriminate]. Qed.

Lemma take_empty (n : nat) (text : string) :
  PyStr.take (S n) text = EmptyString -> text = EmptyString.
Proof. destruct text; [reflexivity | discriminate]. Qed.

Lemma event_row_headline (title : string)
    (snippet source source_url timestamp risk_score : pyval) (s s' : State) (row : dict) :
  _event_row w (VStr title) snippet source source_url timestamp risk_score s = (Ok row, s') ->
  Py.lookup "headline" row
  = Some (VStr (PyStr.take 500
                  (PyStr.strip (if String.eqb title "" then "Unknown Event" else title)))).
Proof.
  unfold _event_row. intros H. inv_ok. subst row.
  match goal with
  | Hh : Py.strip (Py.or (VStr title) _) = Ok _ |- _ =>
      unfold Py.or, Py.truthy in Hh;
      destruct (String.eqb title ""); cbn in Hh; injection Hh as <-
  end; reflexivity.
Qed.

Lemma gdelt_article_headline (art : pyval) (s s' : State) (row : dict) :
  gdelt_article w art s = (Ok (Some row), s') -> has_headline row.
Proof.
  unfold gdelt_article. intros H. inv_ok.
  repeat match goal with
         | E : Some _ = Some _ |- _ => inversion E; subst; clear E
         end.
  match goal with
  | Hrow : _event_row _ (VStr ?title) _ _ _ _ _ _ = _,
    Htitle : Py.strip ?v = Ok ?title |- _ =>
      apply event_row_headline in Hrow;
      assert (Hs : PyStr.strip title = title)
        by (destruct v; try discriminate; cbn in Htitle; injection Htitle as <-;
            apply strip_idempotent);
      eexists; split; [exact Hrow|]; apply take_not_empty;
      destruct (String.eqb_spec title "") as [Hempty|Hempty];
        [vm_compute; discriminate | rewrite Hs; exact Hempty]
  end.
Qed.

(** X13 ([fetch_gdelt_events] and [_event_row], data.py): a row of the
    primary source never has an empty headline, because the title is
    stripped before the default is applied.  The normalizer alone gives no
    such guarantee: it substitutes the default for a missing title, but a
    title of white space only, as the other two sources may pass, becomes
    the empty headline. *)
Theorem headline_is_empty_only_for_blank_titles
    (query : string) (max_records : Z) (s s' : State) (df : DataFrame) :
  fetch_gdelt_events_body w query max_records s = (Ok df, s') ->
  Forall has_headline df
  /\ (forall title snippet source source_url timestamp risk_score s0 s0' row,
        _event_row w (VStr title) snippet source source_url timestamp risk_score s0
        = (Ok row, s0') ->
        (Py.lookup "headline" row = Some (VStr EmptyString)
         <-> title <> EmptyString /\ PyStr.strip title = EmptyString)).
Proof.
  intros Hrun. split.
  { revert Hrun. apply fetch_gdelt_events_body_Forall.
    intros art s0 row s0'. apply gdelt_article_headline. }
  intros title snippet source source_url timestamp risk_score s0 s0' row Hrow.
  rewrite (event_row_headline _ _ _ _ _ _ _ _ _ Hrow).
  destruct (String.eqb_spec title "") as [E|E].
  - split; [vm_compute; discriminate | tauto].
  - split.
    + intros H. injection H as H. apply take_empty in H. tauto.
    + intros [_ ->]. reflexivity.
Qed.

End Records.

Lemma live_rows_are_event_records_witness :
  exists (df : DataFrame) (s' : State),
    fetch_gdelt_events_body gdelt_world GDELT_KEYWORDS MAX_GDELT_RECORDS initial_state
    = (Ok df, s')
    /\ length df = 3%nat
    /\ Forall event_record df.
Proof.
  assert (Hfst : exists df,
            fst (fetch_gdelt_events_body gdelt_world GDELT_KEYWORDS MAX_GDELT_RECORDS
                   initial_state) = Ok df
            /\ length df = 3%nat)
    by (eexists; split; vm_compute; reflexivity).
  destruct (fetch_gdelt_events_body gdelt_world GDELT_KEYWORDS MAX_GDELT_RECORDS
              initial_state) as [[e|df] s'] eqn:E;
    cbn [fst] in Hfst; destruct Hfst as (df0 & H0 & Hlen); [discriminate|].
  injection H0 as <-. exists df, s'. split; [reflexivity|]. split; [exact Hlen|].
  exact (proj1 (live_rows_are_event_records gdelt_world initial_state s' df)
           GDELT_KEYWORDS MAX_GDELT_RECORDS E).
Defined.

Lemma headline_is_empty_only_for_blank_titles_witness :
  exists (df : DataFrame) (s' : State),
    fetch_gdelt_events_body gdelt_world GDELT_KEYWORDS MAX_GDELT_RECORDS initial_state
    = (Ok df, s')
    /\ length df = 3%nat
    /\ Forall has_headline df.
Proof.
  assert (Hfst : exists df,
            fst (fetch_gdelt_events_body gdelt_world GDELT_KEYWORDS MAX_GDELT_RECORDS
                   initial_state) = Ok df
            /\ length df = 3%nat)
    by (eexists; split; vm_compute; reflexivity).
  destruct (fetch_gdelt_events_body gdelt_world GDELT_KEYWORDS MAX_GDELT_RECORDS
              initial_state) as [[e|df] s'] eqn:E;
    cbn [fst] in Hfst; destruct Hfst as (df0 & H0 & Hlen); [discriminate|].
  injection H0 as <-. exists df, s'. split; [reflexivity|]. split; [exact Hlen|].
  exact (proj1 (headline_is_empty_only_for_blank_titles gdelt_world
                  GDELT_KEYWORDS MAX_GDELT_RECORDS initial_state s' df E)).
Defined.

(* ===================================================================== *)
(** ** What the analysis leaves alone *)
(* ===================================================================== *)

Section Enrichment.

Context (w : World).

Lemma analyze_body_state (event : dict) (s s' : State) (r : res dict) :
  analyze_body w event s = (r, s') -> s' = s.
Proof.
  unfold analyze_body. cbv zeta. unfold bind, lift, ret.
  repeat match goal with
         | |- context [match ?x with Raise _ => _ | Ok _ => _ end] => destruct x
         end; intros H; inversion H; reflexivity.
Qed.

Lemma analysis_key_other (key : string) :
  ~ In key ANALYSIS_KEYS ->
  String.eqb key "risk_score" = false /\ String.eqb key "category" = false
  /\ String.eqb key "gemini_analysis" = false /\ String.eqb key "reasoning" = false.
Proof.
  intros H. cbn [ANALYSIS_KEYS In] in H.
  repeat split; apply String.eqb_neq; intros ->; tauto.
Qed.

(** X14 ([analyze_with_gemini], data.py): the analysis never raises and
    never changes the state; it returns a copy of the event in which at
    most the four fields risk_score, category, gemini_analysis and
    reasoning differ, so headline, timestamp, coordinates and source stay
    as they were.  With a usable key the copy always carries a
    gemini_analysis; without one the event comes back as it is. *)
Theorem analysis_changes_four_fields (event : dict) (api_key : string) (s : State) :
  exists event' : dict,
    analyze_with_gemini w event api_key s = (Ok event', s)
    /\ (forall key, ~ In key ANALYSIS_KEYS -> Py.lookup key event' = Py.lookup key event)
    /\ (usable_key api_key -> exists analysis,
          Py.lookup "gemini_analysis" event' = Some analysis)
    /\ (~ usable_key api_key -> event' = event).
Proof.
  unfold usable_key, analyze_with_gemini.
  destruct (String.eqb api_key "" || String.eqb (PyStr.strip api_key) "").
  { exists event. split; [reflexivity|]. split; [reflexivity|].
    split; [discriminate | reflexivity]. }
  unfold try_except.
  destruct (analyze_body w event s) as [[e|event'] s1] eqn:Hbody;
    pose proof (analyze_body_state _ _ _ _ Hbody) as ->.
  - assert (Hret : exists msg,
              (match exn_class_of e with
               | JSONDecodeError =>
                   ret (Py.set "gemini_analysis"
                          (VDict [("error", VStr ("JSON parse failed: " +:+ exn_msg e));
                                  ("reasoning", VStr "")]) event)
               | _ =>
                   ret (Py.set "gemini_analysis"
                          (VDict [("error", VStr (exn_msg e)); ("reasoning", VStr "")]) event)
               end) s
              = (Ok (Py.set "gemini_analysis"
                       (VDict [("error", VStr msg); ("reasoning", VStr "")]) event), s)).
    { destruct (exn_class_of e); eexists; reflexivity. }
    destruct Hret as [msg ->]. eexists. split; [reflexivity|].
    split; [|split; [|intros H; exfalso; apply H; reflexivity]].
    + intros key Hkey. apply analysis_key_other in Hkey.
      apply lookup_set_other. tauto.
    + intros _. eexists. apply lookup_set_same.
  - exists event'. split; [reflexivity|].
    unfold analyze_body in Hbody. cbv zeta in Hbody. inv_ok.
    unfold ret in Hbody. injection Hbody as <-.
    split; [|split; [|intros H; exfalso; apply H; reflexivity]].
    + intros key Hkey. apply analysis_key_other in Hkey.
      destruct Hkey as (H1 & H2 & H3 & H4).
      rewrite !lookup_set, H1, H2, H3, H4. reflexivity.
    + intros _. eexists. rewrite !lookup_set. reflexivity.
Qed.

End Enrichment.

(* ===================================================================== *)
(** ** Code fences *)
(* ===================================================================== *)

Lemma no_backtick_cons (c : ascii) (text : string) :
  no_backtick (String c text) = true ->
  Ascii.eqb c "`" = false /\ no_backtick text = true.
Proof.
  unfold no_backtick. cbn [String.list_ascii_of_string forallb].
  rewrite andb_true_iff, negb_true_iff. tauto.
Qed.

Lemma prefix_fence_cons (c : ascii) (text : string) :
  Ascii.eqb c "`" = false -> String.prefix "```" (String c text) = false.
Proof.
  intros H. cbn [String.prefix]. destruct (Ascii.ascii_dec "`" c) as [<-|_]; [|reflexivity].
  discriminate.
Qed.

Lemma before_fence (body rest : string) :
  no_backtick body = true -> PyStr.before "```" (body +:+ "```" +:+ rest) = body.
Proof.
  induction body as [|c body IH]; intros H.
  - change (EmptyString +:+ "```" +:+ rest) with ("```" +:+ rest).
    destruct rest; reflexivity.
  - apply no_backtick_cons in H. destruct H as [Hc Hbody].
    rewrite append_cons. cbn [PyStr.before].
    rewrite (prefix_fence_cons _ _ Hc), (IH Hbody). reflexivity.
Qed.

Lemma before_no_fence (body : string) :
  no_backtick body = true -> PyStr.before "```" body = body.
Proof.
  induction body as [|c body IH]; intros H; [reflexivity|].
  apply no_backtick_cons in H. destruct H as [Hc Hbody].
  cbn [PyStr.before]. rewrite (prefix_fence_cons _ _ Hc), (IH Hbody). reflexivity.
Qed.

Lemma no_backtick_not_fenced (body : string) :
  no_backtick body = true -> PyStr.startswith "```" body = false.
Proof.
  destruct body as [|c body]; [reflexivity|]. intros H.
  apply no_backtick_cons in H. apply prefix_fence_cons, H.
Qed.

Lemma strip_fence_open (inner : string) :
  strip_fence ("```" +:+ inner)
  = let part := PyStr.before "```" inner in
    if PyStr.startswith "json" part then PyStr.drop 4 part else part.
Proof.
  unfold strip_fence, PyStr.startswith. rewrite prefix_app. reflexivity.
Qed.

(** X15 (the fence stripping of [analyze_with_gemini], data.py): a
    payload without backticks that the service wraps in a code fence is
    handed to the JSON decoder exactly: with the [json] tag, without a
    tag, and when the closing fence is missing; what follows the closing
    fence is dropped, and a payload without a fence is left as it is. *)
Theorem fenced_payload_is_unwrapped (body rest : string) :
  no_backtick body = true ->
  strip_fence ("```json" +:+ body +:+ "```" +:+ rest) = body
  /\ strip_fence ("```json" +:+ body) = body
  /\ (PyStr.startswith "json" body = false ->
      strip_fence ("```" +:+ body +:+ "```" +:+ rest) = body)
  /\ strip_fence body = body.
Proof.
  intros Hbody.
  assert (Htag : no_backtick ("json" +:+ body) = true) by exact Hbody.
  split; [|split; [|split]].
  - change ("```json" +:+ body +:+ "```" +:+ rest)
      with ("```" +:+ (("json" +:+ body) +:+ "```" +:+ rest)).
    rewrite strip_fence_open. cbv zeta. rewrite (before_fence _ _ Htag).
    unfold PyStr.startswith. rewrite prefix_app. reflexivity.
  - change ("```json" +:+ body) with ("```" +:+ ("json" +:+ body)).
    rewrite strip_fence_open. cbv zeta. rewrite (before_no_fence _ Htag).
    unfold PyStr.startswith. rewrite prefix_app. reflexivity.
  - intros Hplain. rewrite strip_fence_open. cbv zeta.
    rewrite (before_fence _ _ Hbody), Hplain. reflexivity.
  - unfold strip_fence. rewrite (no_backtick_not_fenced _ Hbody). reflexivity.
Qed.

Lemma fenced_payload_is_unwrapped_witness :
  strip_fence ("```json" +:+ "{}" +:+ "```" +:+ newline) = "{}"
  /\ strip_fence ("```json" +:+ "{}") = "{}"
  /\ (PyStr.startswith "json" "{}" = false ->
      strip_fence ("```" +:+ "{}" +:+ "```" +:+ newline) = "{}")
  /\ strip_fence "{}" = "{}".
Proof.
  apply (fenced_payload_is_unwrapped "{}" newline). reflexivity.
Defined.

(* ===================================================================== *)
(** ** More text never lowers a heuristic *)
(* ===================================================================== *)

Lemma prefix_elim (p s : string) :
  String.prefix p s = true -> exists r, s = p +:+ r.
Proof.
  revert s. induction p as [|c p IH]; intros s H.
  - exists s. reflexivity.
  - destruct s as [|c' s]; [discriminate|]. cbn [String.prefix] in H.
    destruct (Ascii.ascii_dec c c') as [<-|]; [|discriminate].
    destruct (IH s H) as [r ->]. exists r. reflexivity.
Qed.

Lemma contains_elim (needle hay : string) :
  PyStr.contains needle hay = true -> exists a b, hay = a +:+ needle +:+ b.
Proof.
  induction hay as [|c hay IH]; cbn [PyStr.contains]; intros H;
    apply orb_true_iff in H; destruct H as [H|H].
  - apply prefix_elim in H. destruct H as [r ->]. exists EmptyString, r. reflexivity.
  - discriminate.
  - apply prefix_elim in H. destruct H as [r ->]. exists EmptyString, r. reflexivity.
  - destruct (IH H) as (a & b & ->). exists (String c a), b. reflexivity.
Qed.

Lemma contains_extend (needle a text b : string) :
  PyStr.contains needle text = true ->
  PyStr.contains needle (a +:+ text +:+ b) = true.
Proof.
  intros H. apply contains_elim in H. destruct H as (p & q & ->).
  replace (a +:+ (p +:+ needle +:+ q) +:+ b) with ((a +:+ p) +:+ needle +:+ (q +:+ b))
    by (rewrite !app_assoc_str; reflexivity).
  apply contains_app.
Qed.

Lemma any_in_extend (ws : list string) (a text b : string) :
  any_in ws text = true -> any_in ws (a +:+ text +:+ b) = true.
Proof.
  unfold any_in. rewrite !existsb_exists. intros (k & Hin & Hk).
  exists k. split; [exact Hin | apply contains_extend, Hk].
Qed.

Lemma filter_length_le {A} (f g : A -> bool) (l : list A) :
  (forall x, f x = true -> g x = true) ->
  (length (List.filter f l) <= length (List.filter g l))%nat.
Proof.
  intros Hfg. induction l as [|x l IH]; [reflexivity|].
  cbn [List.filter]. destruct (f x) eqn:Hf.
  - rewrite (Hfg x Hf). cbn [length]. lia.
  - destruct (g x); cbn [length]; lia.
Qed.

Lemma heuristic_risk_of_text (title description : string) :
  _heuristic_risk_from_text (VStr title) (VStr description)
  = let t := PyStr.lower (title +:+ " " +:+ description) in
    if any_in ["strike"; "shortage"; "blockade"; "outage"; "closure"; "crisis"] t
    then Ok 4
    else if any_in ["disruption"; "delay"; "backlog"; "congestion"] t
    then Ok 3
    else if any_in ["supply chain"; "logistics"; "shipping"; "freight"; "port"; "cargo"] t
    then Ok 2
    else Ok 1.
Proof.
  unfold _heuristic_risk_from_text.
  assert (Hor : forall x, Py.or (VStr x) (VStr "") = VStr x).
  { intros x. unfold Py.or, Py.truthy. destruct (String.eqb_spec x "") as [->|_]; reflexivity. }
  rewrite !Hor. cbn [Py.add_str res_bind]. rewrite app_assoc_str. reflexivity.
Qed.

(** X16 ([_supply_chain_relevance], [_heuristic_risk_from_text], data.py):
    both heuristics are monotone in the text: putting more text before or
    after never lowers the relevance count, and a longer title or
    description never lowers the heuristic risk.  So an article whose
    title alone passes the relevance gate passes it with every
    description. *)
Theorem more_text_never_lowers_heuristics (before title text after : string) :
  (exists r r' : Z,
     _supply_chain_relevance (VStr text) = Ok r
     /\ _supply_chain_relevance (VStr (before +:+ text +:+ after)) = Ok r'
     /\ r <= r')
  /\ (exists k k' : Z,
        _heuristic_risk_from_text (VStr title) (VStr text) = Ok k
        /\ _heuristic_risk_from_text (VStr (before +:+ title)) (VStr (text +:+ after)) = Ok k'
        /\ k <= k').
Proof.
  split.
  - rewrite !relevance_counts_matches. do 2 eexists. do 2 (split; [reflexivity|]).
    apply inj_le. unfold matching_keywords. apply filter_length_le.
    intros kw. rewrite !lower_app. apply contains_extend.
  - rewrite !heuristic_risk_of_text. cbv zeta.
    set (t := PyStr.lower (title +:+ " " +:+ text)).
    assert (Ht : PyStr.lower ((before +:+ title) +:+ " " +:+ text +:+ after)
                 = PyStr.lower before +:+ t +:+ PyStr.lower after).
    { unfold t. rewrite !lower_app, !app_assoc_str. reflexivity. }
    rewrite Ht.
    pose proof (fun ws => any_in_extend ws (PyStr.lower before) t (PyStr.lower after))
      as Hext.
    repeat match goal with
           | |- context [if any_in ?ws t then _ else _] =>
               let E := fresh "E" in
               destruct (any_in ws t) eqn:E; [apply Hext in E; rewrite ?E|]
           end;
    repeat match goal with
           | |- context [if ?b then _ else _] => destruct b
           end;
    do 2 eexists; (split; [reflexivity|]); (split; [reflexivity|]); lia.
Qed.

(* ===================================================================== *)
(** ** Live rows under the commodity filter *)
(* ===================================================================== *)

Lemma filter_nothing {A} (f : A -> bool) (l : list A) :
  Forall (fun x => f x = false) l -> List.filter f l = [].
Proof.
  induction 1 as [|x l Hx _ IH]; [reflexivity|].
  cbn [List.filter]. rewrite Hx. exact IH.
Qed.

(** X17 ([_event_row] under [filter_events]; the commodity choices of
    app.py): every live row has the commodity [Mixed], so on a table of
    live rows every commodity choice other than All and Mixed leaves an
    empty view, for which the health index is 100. *)
Theorem commodity_choice_empties_live_view (df : DataFrame)
    (region risk_level category_filter commodity_filter : string) :
  filterable df ->
  Forall event_record df ->
  commodity_filter <> "All" ->
  commodity_filter <> "Mixed" ->
  filter_events df region risk_level category_filter commodity_filter = Ok []
  /\ calculate_health_index [] = Ok 100.
Proof.
  intros Hdf Hrec Hall Hmixed. split; [|reflexivity].
  rewrite filter_events_steps_or_empty by exact Hdf.
  f_equal. apply filter_nothing.
  eapply Forall_impl; [exact Hrec|].
  intros row (_ & _ & _ & _ & _ & Hcommodity & _).
  unfold row_passes, choice_ok at 2, cell, Py.dict_get. rewrite Hcommodity.
  apply String.eqb_neq in Hall. rewrite Hall. cbn [negb cell_eq_str].
  replace (String.eqb "Mixed" commodity_filter) with false
    by (symmetry; apply String.eqb_neq; congruence).
  apply andb_false_r.
Qed.

Lemma commodity_choice_empties_live_view_witness :
  filter_events [sample_row] "All" "All" "All" "Cement" = Ok []
  /\ calculate_health_index [] = Ok 100.
Proof.
  apply (commodity_choice_empties_live_view [sample_row] "All" "All" "All" "Cement").
  - constructor; [reflexivity | constructor].
  - constructor; [|constructor]. unfold event_record.
    split; [reflexivity|].
    split; [eexists; split; [reflexivity | cbn; lia]|].
    split; [eexists; split; [reflexivity | cbn; lia]|].
    split; [eexists; split; [reflexivity | cbn; tauto]|].
    repeat split.
  - discriminate.
  - discriminate.
Defined.

(* ===================================================================== *)
(** ** A reply in the prescribed format *)
(* ===================================================================== *)

Lemma free_of_app (c : ascii) (a b : string) :
  free_of c (a +:+ b) = free_of c a && free_of c b.
Proof.
  unfold free_of. induction a as [|x a IH]; [reflexivity|].
  rewrite append_cons. cbn [String.list_ascii_of_string forallb].
  rewrite IH, andb_assoc. reflexivity.
Qed.

Lemma free_of_cons (c x : ascii) (text : string) :
  free_of c (String x text) = negb (Ascii.eqb x c) && free_of c text.
Proof. reflexivity. Qed.

(** A text free of [c] does not start with a text that has [c]. *)
Lemma prefix_not_free (c : ascii) (p text : string) :
  free_of c p = false -> free_of c text = true -> String.prefix p text = false.
Proof.
  intros Hp Htext. destruct (String.prefix p text) eqn:E; [|reflexivity].
  apply prefix_elim in E. destruct E as [r ->].
  rewrite free_of_app, Hp in Htext. discriminate.
Qed.

Lemma before_char (c : ascii) (a b : string) :
  free_of c a = true ->
  PyStr.before (String c EmptyString) (a +:+ String c b) = a.
Proof.
  induction a as [|x a IH]; intros Ha.
  - change (EmptyString +:+ String c b) with (String c b).
    cbn [PyStr.before String.prefix].
    destruct (Ascii.ascii_dec c c) as [_|Hn]; [|exfalso; apply Hn; reflexivity].
    destruct b; reflexivity.
  - rewrite free_of_cons, andb_true_iff, negb_true_iff in Ha. destruct Ha as [Hx Ha].
    rewrite append_cons. cbn [PyStr.before String.prefix].
    destruct (Ascii.ascii_dec c x) as [->|_].
    + rewrite Ascii.eqb_refl in Hx. discriminate.
    + rewrite (IH Ha). reflexivity.
Qed.

Section Separator.

(** A separator that ends in a character it has nowhere else. *)
Variables (c : ascii) (word : string).
Hypothesis Hword : free_of c word = true.

Lemma separator_not_free : free_of c (ended_by word c) = false.
Proof.
  unfold ended_by. rewrite free_of_app, free_of_cons, Ascii.eqb_refl.
  apply andb_false_r.
Qed.

Lemma separator_not_early (q rest : string) :
  free_of c q = true -> q <> EmptyString ->
  String.prefix (ended_by word c) (q +:+ ended_by word c +:+ rest) = false.
Proof.
  intros Hq Hne.
  destruct (String.prefix (ended_by word c) (q +:+ ended_by word c +:+ rest)) eqn:E;
    [|reflexivity].
  apply prefix_elim in E. destruct E as [r E].
  assert (H1 : PyStr.before (String c EmptyString) (q +:+ ended_by word c +:+ rest)
               = q +:+ word).
  { unfold ended_by. rewrite (app_assoc_str word), <- (app_assoc_str q word).
    change (String c EmptyString +:+ rest) with (String c rest).
    apply before_char. rewrite free_of_app, Hq, Hword. reflexivity. }
  assert (H2 : PyStr.before (String c EmptyString) (ended_by word c +:+ r) = word).
  { unfold ended_by. rewrite app_assoc_str.
    change (String c EmptyString +:+ r) with (String c r).
    apply before_char, Hword. }
  rewrite E, H2 in H1.
  apply (f_equal String.length) in H1. rewrite length_append in H1.
  destruct q; [congruence | cbn in H1; lia].
Qed.

Lemma before_separator (x rest : string) :
  free_of c x = true ->
  PyStr.before (ended_by word c) (x +:+ ended_by word c +:+ rest) = x.
Proof.
  induction x as [|a x IH]; intros Hx.
  - change (EmptyString +:+ ended_by word c +:+ rest) with (ended_by word c +:+ rest).
    destruct (ended_by word c +:+ rest) eqn:E; cbn [PyStr.before];
      [destruct (String.prefix (ended_by word c) ""); reflexivity|].
    rewrite <- E, prefix_app. reflexivity.
  - pose proof (separator_not_early (String a x) rest Hx ltac:(discriminate)) as Hearly.
    rewrite free_of_cons, andb_true_iff in Hx. destruct Hx as [_ Hx].
    rewrite append_cons in *. cbn [PyStr.before]. rewrite Hearly, (IH Hx). reflexivity.
Qed.

Lemma drop_app (a b : string) : PyStr.drop (String.length a) (a +:+ b) = b.
Proof. induction a as [|x a IH]; [destruct b; reflexivity | exact IH]. Qed.

Lemma after_separator (x rest : string) :
  free_of c x = true ->
  PyText.after (ended_by word c) (x +:+ ended_by word c +:+ rest) = Some rest.
Proof.
  induction x as [|a x IH]; intros Hx.
  - change (EmptyString +:+ ended_by word c +:+ rest) with (ended_by word c +:+ rest).
    destruct (ended_by word c +:+ rest) eqn:E; cbn [PyText.after]; rewrite <- E, prefix_app, drop_app;
      reflexivity.
  - pose proof (separator_not_early (String a x) rest Hx ltac:(discriminate)) as Hearly.
    rewrite free_of_cons, andb_true_iff in Hx. destruct Hx as [_ Hx].
    rewrite append_cons in *. cbn [PyText.after]. rewrite Hearly. apply IH, Hx.
Qed.

Lemma before_no_separator (x : string) :
  free_of c x = true -> PyStr.before (ended_by word c) x = x.
Proof.
  induction x as [|a x IH]; intros Hx.
  - cbn [PyStr.before]. destruct (String.prefix (ended_by word c) ""); reflexivity.
  - cbn [PyStr.before]. rewrite (prefix_not_free c _ _ separator_not_free Hx).
    rewrite free_of_cons, andb_true_iff in Hx. rewrite (IH (proj2 Hx)). reflexivity.
Qed.

Lemma remove_all_free (x : string) :
  free_of c x = true -> PyText.remove_all (ended_by word c) 0 x = x.
Proof.
  induction x as [|a x IH]; intros Hx; [reflexivity|].
  cbn [PyText.remove_all]. rewrite (prefix_not_free c _ _ separator_not_free Hx).
  rewrite free_of_cons, andb_true_iff in Hx. rewrite (IH (proj2 Hx)). reflexivity.
Qed.

End Separator.

Lemma rstrip_app_keep (a b : string) :
  PyStr.rstrip b = b -> b <> EmptyString -> PyStr.rstrip (a +:+ b) = a +:+ b.
Proof.
  intros Hb Hne. induction a as [|x a IH]; [exact Hb|].
  rewrite append_cons. cbn [PyStr.rstrip]. rewrite IH.
  destruct (a +:+ b) eqn:E; [|reflexivity].
  destruct a; [change (b = EmptyString) in E; congruence
             | rewrite append_cons in E; discriminate].
Qed.

Lemma rstrip_app_space (a ws : string) :
  PyStr.rstrip ws = EmptyString -> PyStr.rstrip (a +:+ ws) = PyStr.rstrip a.
Proof.
  intros Hws. induction a as [|x a IH]; [exact Hws|].
  rewrite append_cons. cbn [PyStr.rstrip]. rewrite IH. reflexivity.
Qed.

Lemma trimmed_eqs (text : string) :
  trimmed text = true -> PyStr.lstrip text = text /\ PyStr.rstrip text = text.
Proof.
  unfold trimmed. rewrite andb_true_iff, !String.eqb_eq. tauto.
Qed.

Lemma lstrip_app_head (text rest : string) :
  text <> EmptyString -> PyStr.lstrip text = text ->
  PyStr.lstrip (text +:+ rest) = text +:+ rest.
Proof.
  destruct text as [|x text]; [congruence|]. intros _ H.
  rewrite append_cons. cbn [PyStr.lstrip] in *.
  destruct (PyStr.is_space x) eqn:Hx; [|reflexivity].
  exfalso. apply (f_equal String.length) in H. cbn [String.length] in H.
  assert (Hle : forall s, (String.length (PyStr.lstrip s) <= String.length s)%nat).
  { induction s as [|y s IHs]; [reflexivity|]. cbn [PyStr.lstrip].
    destruct (PyStr.is_space y); cbn [String.length]; lia. }
  specialize (Hle text). lia.
Qed.

Lemma split_lines_one (line : string) :
  free_of "010" line = true -> PyText.split_lines line = [line].
Proof.
  induction line as [|x line IH]; intros H; [reflexivity|].
  rewrite free_of_cons, andb_true_iff, negb_true_iff in H. destruct H as [Hx Hline].
  cbn [PyText.split_lines]. rewrite Hx, (IH Hline). reflexivity.
Qed.

Lemma split_lines_app (line rest : string) :
  free_of "010" line = true ->
  PyText.split_lines (line +:+ newline +:+ rest) = line :: PyText.split_lines rest.
Proof.
  induction line as [|x line IH]; intros H; [reflexivity|].
  rewrite free_of_cons, andb_true_iff, negb_true_iff in H. destruct H as [Hx Hline].
  rewrite append_cons. cbn [PyText.split_lines]. rewrite Hx, (IH Hline). reflexivity.
Qed.

Lemma plain_risk_facts (risk : string) :
  plain_risk risk = true ->
  risk <> EmptyString
  /\ PyText.lstrip_chars NUMBERING risk = risk
  /\ PyStr.lstrip risk = risk /\ PyStr.rstrip risk = risk
  /\ free_of ":" risk = true /\ free_of "010" risk = true.
Proof.
  unfold plain_risk. rewrite !andb_true_iff. intros [[[Hhead Htrim] Hcolon] Hline].
  apply trimmed_eqs in Htrim. destruct risk as [|x risk]; [discriminate|].
  repeat split; try tauto; try discriminate.
  cbn [PyText.lstrip_chars]. apply negb_true_iff in Hhead. rewrite Hhead. reflexivity.
Qed.

(** One numbered line of the risks block. *)
Lemma risk_lines_numbered (digit : ascii) (risk : string) (rest : list string) :
  PyStr.is_digit digit = true ->
  plain_risk risk = true ->
  risk_lines ((String digit ". " +:+ risk) :: rest) = risk :: risk_lines rest.
Proof.
  intros Hdigit Hrisk. apply plain_risk_facts in Hrisk.
  destruct Hrisk as (Hne & Hnum & Hl & Hr & _ & _).
  assert (Hspace : PyStr.is_space digit = false).
  { revert Hdigit. unfold PyStr.is_digit, PyStr.is_space.
    generalize (nat_of_ascii digit). intros n.
    rewrite andb_true_iff, !Nat.leb_le. intros [H1 H2].
    apply orb_false_iff. split; apply andb_false_iff.
    - right. apply Nat.leb_gt. lia.
    - right. apply Nat.leb_gt. lia. }
  assert (Hin : existsb (Ascii.eqb digit) NUMBERING = true).
  { revert Hdigit. unfold PyStr.is_digit. rewrite andb_true_iff, !Nat.leb_le.
    intros [H1 H2]. rewrite <- (ascii_nat_embedding digit).
    remember (nat_of_ascii digit) as n eqn:En. clear En.
    do 48 (destruct n as [|n]; [lia|]).
    do 10 (destruct n as [|n]; [reflexivity|]). lia. }
  assert (Hline : PyStr.strip (String digit ". " +:+ risk) = String digit ". " +:+ risk).
  { unfold PyStr.strip. rewrite append_cons. cbn [PyStr.lstrip]. rewrite Hspace.
    rewrite <- append_cons. apply rstrip_app_keep; assumption. }
  cbn [risk_lines]. rewrite Hline. rewrite append_cons. rewrite Hdigit.
  f_equal. rewrite <- append_cons.
  change (String digit ". " +:+ risk) with (String digit (String "." (String " " risk))).
  change (String.list_ascii_of_string "0123456789.)- ") with NUMBERING.
  cbn [PyText.lstrip_chars]. rewrite Hin.
  change (existsb (Ascii.eqb ".") NUMBERING) with true.
  change (existsb (Ascii.eqb " ") NUMBERING) with true.
  cbv iota. rewrite Hnum. unfold PyStr.strip. rewrite Hl. exact Hr.
Qed.

Lemma brief_sections_well_formed (summary risk1 risk2 risk3 : string) :
  plain_summary summary = true ->
  plain_risk risk1 = true -> plain_risk risk2 = true -> plain_risk risk3 = true ->
  brief_sections (well_formed_brief summary risk1 risk2 risk3)
  = (summary, [risk1; risk2; risk3]).
Proof.
  intros Hsummary H1 H2 H3.
  unfold plain_summary in Hsummary. rewrite !andb_true_iff, negb_true_iff in Hsummary.
  destruct Hsummary as [[Hne Htrim] Hcolon]. apply String.eqb_neq in Hne.
  apply trimmed_eqs in Htrim. destruct Htrim as [Hl Hr].
  pose proof (plain_risk_facts _ H1) as (Hne1 & _ & _ & _ & Hc1 & Hn1).
  pose proof (plain_risk_facts _ H2) as (Hne2 & _ & _ & _ & Hc2 & Hn2).
  pose proof (plain_risk_facts _ H3) as (Hne3 & _ & Hl3 & Hr3 & Hc3 & Hn3).
  set (lead := newline +:+ summary +:+ newline +:+ newline).
  set (block := newline +:+ "1. " +:+ risk1 +:+ newline +:+ "2. " +:+ risk2
                +:+ newline +:+ "3. " +:+ risk3).
  assert (Htext : well_formed_brief summary risk1 risk2 risk3
                  = "EXECUTIVE SUMMARY:" +:+ lead +:+ "TOP 3 RISKS TO WATCH:" +:+ block).
  { unfold well_formed_brief, lead, block. rewrite !app_assoc_str. reflexivity. }
  assert (Hlead : free_of ":" lead = true).
  { unfold lead. rewrite !free_of_app, Hcolon. reflexivity. }
  assert (Hblock : free_of ":" block = true).
  { unfold block. rewrite !free_of_app, Hc1, Hc2, Hc3. reflexivity. }
  assert (Hword : free_of ":" "TOP 3 RISKS TO WATCH" = true) by reflexivity.
  rewrite Htext. unfold brief_sections.
  assert (Hm1 : PyStr.contains "EXECUTIVE SUMMARY:"
                  ("EXECUTIVE SUMMARY:" +:+ lead +:+ "TOP 3 RISKS TO WATCH:" +:+ block) = true).
  { apply contains_of_prefix, prefix_app. }
  assert (Hm2 : PyStr.contains "TOP 3 RISKS"
                  ("EXECUTIVE SUMMARY:" +:+ lead +:+ "TOP 3 RISKS TO WATCH:" +:+ block) = true).
  { change ("TOP 3 RISKS TO WATCH:" +:+ block)
      with ("TOP 3 RISKS" +:+ (" TO WATCH:" +:+ block)).
    rewrite <- app_assoc_str. apply contains_app. }
  rewrite Hm1, Hm2. cbn [andb].
  assert (Hbefore : PyStr.before "TOP 3 RISKS TO WATCH:"
                      ("EXECUTIVE SUMMARY:" +:+ lead +:+ "TOP 3 RISKS TO WATCH:" +:+ block)
                    = "EXECUTIVE SUMMARY:" +:+ lead).
  { transitivity ("EXECUTIVE SUMMARY:"
                  +:+ PyStr.before "TOP 3 RISKS TO WATCH:"
                        (lead +:+ "TOP 3 RISKS TO WATCH:" +:+ block)).
    - generalize (lead +:+ "TOP 3 RISKS TO WATCH:" +:+ block). intros rest. reflexivity.
    - f_equal. exact (before_separator ":" "TOP 3 RISKS TO WATCH" Hword lead block Hlead). }
  assert (Hafter : PyText.after "TOP 3 RISKS TO WATCH:"
                     ("EXECUTIVE SUMMARY:" +:+ lead +:+ "TOP 3 RISKS TO WATCH:" +:+ block)
                   = Some block).
  { transitivity (PyText.after "TOP 3 RISKS TO WATCH:"
                    (lead +:+ "TOP 3 RISKS TO WATCH:" +:+ block)).
    - generalize (lead +:+ "TOP 3 RISKS TO WATCH:" +:+ block). intros rest. reflexivity.
    - exact (after_separator ":" "TOP 3 RISKS TO WATCH" Hword lead block Hlead). }
  rewrite Hbefore. unfold PyText.second_part. rewrite Hafter.
  assert (Hremoved : PyText.remove_all "EXECUTIVE SUMMARY:" 0 ("EXECUTIVE SUMMARY:" +:+ lead)
                     = lead).
  { transitivity (PyText.remove_all "EXECUTIVE SUMMARY:" 0 lead).
    - generalize lead. intros rest. destruct rest; reflexivity.
    - exact (remove_all_free ":" "EXECUTIVE SUMMARY" lead Hlead). }
  rewrite Hremoved.
  assert (Hsum : PyStr.strip lead = summary).
  { unfold lead, PyStr.strip.
    change (PyStr.lstrip (newline +:+ summary +:+ newline +:+ newline))
      with (PyStr.lstrip (summary +:+ newline +:+ newline)).
    rewrite (lstrip_app_head _ _ Hne Hl).
    rewrite rstrip_app_space by reflexivity. exact Hr. }
  rewrite Hsum.
  assert (Hwhole : PyStr.before "TOP 3 RISKS TO WATCH:" block = block)
    by exact (before_no_separator ":" "TOP 3 RISKS TO WATCH" block Hblock).
  rewrite Hwhole.
  assert (Hlines : PyStr.strip block
                   = ("1. " +:+ risk1) +:+ newline +:+ ("2. " +:+ risk2) +:+ newline
                     +:+ ("3. " +:+ risk3)).
  { unfold block, PyStr.strip.
    change (PyStr.lstrip (newline +:+ "1. " +:+ risk1 +:+ newline +:+ "2. " +:+ risk2
                          +:+ newline +:+ "3. " +:+ risk3))
      with ("1. " +:+ risk1 +:+ newline +:+ "2. " +:+ risk2 +:+ newline +:+ "3. " +:+ risk3).
    assert (Hsplit : "1. " +:+ risk1 +:+ newline +:+ "2. " +:+ risk2 +:+ newline
                     +:+ "3. " +:+ risk3
                     = ("1. " +:+ risk1 +:+ newline +:+ "2. " +:+ risk2 +:+ newline +:+ "3. ")
                       +:+ risk3)
      by (rewrite !app_assoc_str; reflexivity).
    rewrite Hsplit, rstrip_app_keep by assumption. rewrite !app_assoc_str. reflexivity. }
  rewrite Hlines.
  rewrite split_lines_app by (rewrite free_of_app, Hn1; reflexivity).
  rewrite split_lines_app by (rewrite free_of_app, Hn2; reflexivity).
  rewrite split_lines_one by (rewrite free_of_app, Hn3; reflexivity).
  rewrite (risk_lines_numbered "1" risk1) by (reflexivity || assumption).
  rewrite (risk_lines_numbered "2" risk2) by (reflexivity || assumption).
  rewrite (risk_lines_numbered "3" risk3) by (reflexivity || assumption).
  reflexivity.
Qed.

Section Parsed.

Context (w : World) (generate_content : string -> string -> res pyval).
Context (iterrows_cell : DataFrame -> dict -> string -> pyval).

(** X18 ([get_executive_brief], data.py): a reply in the format the prompt
    prescribes is read back exactly: the text between the two headers is
    the summary and the three numbered lines are the three risks, without
    their numbers, in their order.  (For a table that is not empty: one
    with rows and columns.) *)
Theorem well_formed_brief_is_read_back (events_df : DataFrame)
    (api_key raw summary risk1 risk2 risk3 : string) :
  usable_key api_key ->
  frame_empty events_df = false ->
  generate_content (PyStr.strip api_key)
    (brief_prompt (_events_context_for_gemini w iterrows_cell events_df 20)) = Ok (VStr raw) ->
  PyStr.strip raw = well_formed_brief summary risk1 risk2 risk3 ->
  plain_summary summary = true ->
  plain_risk risk1 = true -> plain_risk risk2 = true -> plain_risk risk3 = true ->
  get_executive_brief w generate_content iterrows_cell events_df api_key
  = VDict [("summary", VStr summary);
           ("top_risks", VList [VStr risk1; VStr risk2; VStr risk3])].
Proof.
  intros Hkey Hne Hreply Hraw Hsummary H1 H2 H3. unfold get_executive_brief.
  unfold usable_key in Hkey. rewrite Hkey, Hne.
  unfold get_executive_brief_try. cbv zeta. rewrite Hreply. cbn [res_bind].
  assert (Hstrip : Py.strip (Py.or (VStr raw) (VStr "")) = Ok (PyStr.strip raw)).
  { unfold Py.or, Py.truthy. destruct (String.eqb_spec raw "") as [->|_]; reflexivity. }
  rewrite Hstrip, Hraw. cbn [res_bind].
  rewrite (brief_sections_well_formed _ _ _ _ Hsummary H1 H2 H3).
  unfold plain_summary in Hsummary. rewrite !andb_true_iff, negb_true_iff in Hsummary.
  unfold Py.or, Py.truthy. rewrite (proj1 (proj1 Hsummary)). reflexivity.
Qed.

End Parsed.

Lemma well_formed_brief_is_read_back_witness :
  get_executive_brief offline_world (sample_service sample_brief) sample_cells
    sample_events "k3y"
  = VDict [("summary", VStr "Ports on two coasts are congested");
           ("top_risks", VList [VStr "Strike at the port of Los Angeles";
                                VStr "Rail blockade around Hamburg";
                                VStr "Cement demand in Haiphong"])].
Proof.
  apply (well_formed_brief_is_read_back offline_world (sample_service sample_brief)
           sample_cells sample_events "k3y" sample_brief).
  - reflexivity.
  - reflexivity.
  - reflexivity.
  - vm_compute. reflexivity.
  - vm_compute. reflexivity.
  - vm_compute. reflexivity.
  - vm_compute. reflexivity.
  - vm_compute. reflexivity.
Defined.

(* ===================================================================== *)
(** ** The calls of each source *)
(* ===================================================================== *)

Section Calls.

Context (w : World).

Lemma fetch_newsapi_events_try_state (api_key query : string) (s s1 : State)
    (r : res DataFrame) :
  fetch_newsapi_events_try w api_key query s = (r, s1) ->
  s1 = with_rng (rng s1) (after_request s).
Proof.
  unfold fetch_newsapi_events_try. unfold bind at 1. unfold requests_get.
  fold (after_request s).
  destruct (http_get w (newsapi_url w api_key query) (net_calls s)) as [e|response].
  - intros H. inversion H. apply with_rng_same.
  - match goal with |- ?c _ = _ -> _ => assert (Hq : quiet c) end.
    { destruct (status_code response =? 429); [apply quiet_ret |].
      apply quiet_bind; [apply quiet_raise_for_status | intros _].
      apply quiet_bind; [apply quiet_lift | intros data].
      apply quiet_bind; [apply quiet_lift | intros a].
      apply quiet_bind; [apply quiet_lift | intros arts].
      apply quiet_for_rows, quiet_newsapi_article. }
    apply Hq.
Qed.

Lemma rss_feed_state (feed_url : string) (rows : DataFrame) (s s' : State)
    (r : res DataFrame) :
  rss_feed w feed_url rows s = (r, s') ->
  s' = with_rng (rng s') (after_parse s).
Proof.
  unfold rss_feed. unfold bind at 1. unfold feedparser_parse_call.
  fold (after_parse s).
  destruct (feedparser_parse w feed_url (feed_calls s)) as [e|feed].
  { intros H. inversion H. apply with_rng_same. }
  match goal with |- context [match ?c ?st with _ => _ end] =>
    assert (Hq : quiet c) by quiet_tac;
    destruct (c st) as [[e|[fd es]] s1] eqn:Hpre; apply Hq in Hpre
  end.
  - intros H. inversion H; subst. exact Hpre.
  - destruct (rss_entries w fd feed_url es rows s1) as [[rows1 o] s2] eqn:Hent.
    apply rss_entries_frame in Hent.
    intros H. inversion H; subst. rewrite Hent, Hpre. apply with_rng_twice.
Qed.

Lemma rss_feeds_calls (feeds : list string) :
  forall rows s r s',
    rss_feeds w feeds rows s = (r, s') ->
    net_calls s' = net_calls s
    /\ feed_calls s' = (feed_calls s + length feeds)%nat
    /\ sidebar s' = sidebar s.
Proof.
  induction feeds as [|u feeds IH]; intros rows s r s'; cbn [rss_feeds].
  - intros H. inversion H. cbn [length]. repeat split. lia.
  - unfold bind. destruct (total_rss_feed w u rows s) as (rows1 & s1 & Hf).
    rewrite Hf. apply rss_feed_state in Hf.
    intros H. apply IH in H. destruct H as (Hn & Hp & Hs).
    rewrite Hn, Hp, Hs, Hf. cbn. repeat split. lia.
Qed.

(** X19 (the bodies of [fetch_gdelt_events] and [fetch_newsapi_events],
    and [fetch_rss_events], data.py): the calls one run of each source
    makes, counted per collaborator ([net_calls] counts the calls of
    [requests.get], [feed_calls] those of [feedparser.parse]).  The
    primary source calls [requests.get] exactly once and
    [feedparser.parse] never; the secondary source calls [requests.get]
    exactly once when its key is usable and never otherwise, never calls
    [feedparser.parse] and writes nothing to the sidebar; the tertiary
    source never calls [requests.get], calls [feedparser.parse] (which
    itself downloads the feed it is given) exactly once for each
    configured feed when the feed parser is installed and never
    otherwise, and writes nothing to the sidebar. *)
Theorem calls_of_each_source (s s' : State) (r : res DataFrame) :
  (forall query max_records,
     fetch_gdelt_events_body w query max_records s = (r, s') ->
     net_calls s' = S (net_calls s) /\ feed_calls s' = feed_calls s)
  /\ (forall api_key query,
        fetch_newsapi_events_body w api_key query s = (r, s') ->
        net_calls s' = (if String.eqb api_key "" || String.eqb (PyStr.strip api_key) ""
                        then net_calls s else S (net_calls s))
        /\ feed_calls s' = feed_calls s
        /\ sidebar s' = sidebar s)
  /\ (fetch_rss_events w s = (r, s') ->
      net_calls s' = net_calls s
      /\ feed_calls s' = (if feedparser_available w
                          then feed_calls s + length RSS_FEEDS else feed_calls s)%nat
      /\ sidebar s' = sidebar s).
Proof.
  split; [|split].
  - intros query max_records. unfold fetch_gdelt_events_body, try_except.
    destruct (fetch_gdelt_events_try w query max_records s) as [[e|df] s1] eqn:E;
      apply fetch_gdelt_events_try_frame in E.
    + destruct (fetch_gdelt_events_except_run e s1) as [msg ->].
      intros H. inversion H; subst.
      destruct E as [(m & Hr & _) | ->]; [discriminate |]. split; reflexivity.
    + intros H. inversion H; subst.
      destruct E as [(m & _ & ->) | ->]; split; reflexivity.
  - intros api_key query. unfold fetch_newsapi_events_body.
    destruct (String.eqb api_key "" || String.eqb (PyStr.strip api_key) "").
    + intros H. inversion H. repeat split.
    + unfold try_except.
      destruct (fetch_newsapi_events_try w api_key query s) as [[e|df] s1] eqn:E;
        apply fetch_newsapi_events_try_state in E; intros H; inversion H; subst;
        rewrite E; repeat split.
  - unfold fetch_rss_events. destruct (feedparser_available w); cbn [negb].
    + intros H. apply rss_feeds_calls in H. exact H.
    + intros H. inversion H. repeat split.
Qed.

End Calls.

Lemma calls_of_each_source_witness :
  let run := fetch_rss_events one_feed_world initial_state in
  net_calls (snd run) = 0%nat
  /\ feed_calls (snd run) = length RSS_FEEDS
  /\ sidebar (snd run) = [].
Proof.
  cbv zeta.
  destruct (calls_of_each_source one_feed_world initial_state
              (snd (fetch_rss_events one_feed_world initial_state))
              (fst (fetch_rss_events one_feed_world initial_state)))
    as (_ & _ & Hrss).
  apply Hrss. destruct (fetch_rss_events one_feed_world initial_state). reflexivity.
Defined.

(* ===================================================================== *)
(** ** A keyword that never decides *)
(* ===================================================================== *)

Lemma contains_inside (needle inner hay : string) :
  PyStr.contains needle inner = true ->
  PyStr.contains inner hay = true ->
  PyStr.contains needle hay = true.
Proof.
  intros Hinner Hhay. apply contains_elim in Hhay. destruct Hhay as (a & b & ->).
  apply contains_extend, Hinner.
Qed.

(** X20 ([_category_from_title], data.py): the term [export] of the
    geopolitical group never decides a category, because every text with
    [export] has [port], a term of the disruption group that is tested
    before it: a title that mentions exports is Construction or
    Disruption, and a title is Geopolitical only through [sanction] or
    [trade]. *)
Theorem export_never_decides (title : string) :
  (PyStr.contains "export" (PyStr.lower title) = true ->
   _category_from_title (VStr title) = Ok "Construction"
   \/ _category_from_title (VStr title) = Ok "Disruption")
  /\ (_category_from_title (VStr title) = Ok "Geopolitical" ->
      PyStr.contains "sanction" (PyStr.lower title) = true
      \/ PyStr.contains "trade" (PyStr.lower title) = true).
Proof.
  assert (Hlower : Py.lower (Py.or (VStr title) (VStr "")) = Ok (PyStr.lower title)).
  { unfold Py.or, Py.truthy. destruct (String.eqb_spec title "") as [->|_]; reflexivity. }
  assert (Hport : PyStr.contains "export" (PyStr.lower title) = true ->
                  PyStr.contains "port" (PyStr.lower title) = true).
  { apply contains_inside. reflexivity. }
  unfold _category_from_title. rewrite Hlower. cbn [res_bind].
  set (t := PyStr.lower title) in *.
  destruct (PyStr.contains "export" t) eqn:Hexport.
  - rewrite (Hport eq_refl), orb_true_r. cbn [orb].
    split.
    + intros _. destruct (_ || _ || _ || _); [left | right]; reflexivity.
    + destruct (_ || _ || _ || _); discriminate.
  - split; [discriminate|]. rewrite orb_false_r.
    repeat match goal with
           | |- context [if ?b then _ else _] =>
               lazymatch b with
               | context [PyStr.contains "sanction" t] => fail
               | _ => destruct b; [discriminate|]
               end
           end.
    destruct (PyStr.contains "sanction" t); [intros _; left; reflexivity|].
    destruct (PyStr.contains "trade" t); [intros _; right; reflexivity|].
    discriminate.
Qed.

Lemma export_never_decides_witness :
  _category_from_title (VStr "New Sanctions Block Tech Exports") = Ok "Construction"
  \/ _category_from_title (VStr "New Sanctions Block Tech Exports") = Ok "Disruption".
Proof.
  apply (export_never_decides "New Sanctions Block Tech Exports"). reflexivity.
Defined.
